(** * webshop_backend: the wine catalogue and the account/secret routes

    A shallow embedding of the Express/Mongoose server of the repository
    (the server with users and secrets, and the baseline [server.js]),
    and the properties of its request handlers.

    Handlers are functions in a small state-and-exception monad over a
    [World]: the document store, the instant at which the schema module
    was loaded, a schedule of store faults and a ghost trace of what ran.
    What the code takes from its libraries (bcrypt, RegExp, the Number
    conversions, the ObjectId cast) is an interface, [Libraries]; the
    theorems hold for every implementation of it.

    Not modelled: the start of the process (connection, port, the reset
    of the database from the data file) and the route [/] that lists the
    endpoints.  Strings are sequences of ASCII characters. *)

From Stdlib Require Import String Ascii List Bool Arith ZArith QArith Lia.
Import ListNotations.

Set Implicit Arguments.

Open Scope string_scope.
Open Scope list_scope.

(** ** JavaScript values and strings *)

(** The fields of a JSON body as the handlers destructure them: absent,
    or a JSON scalar.  (Object and array valued fields are not modelled.) *)
Inductive jsval : Type :=
| JUndefined
| JNull
| JBool (b : bool)
| JNum (q : Q)
| JStr (s : string).

(** [const { k } = req.body] *)
Fixpoint field (k : string) (o : list (string * jsval)) : jsval :=
  match o with
  | [] => JUndefined
  | (k', v) :: o' => if String.eqb k k' then v else field k o'
  end.

(** Lookup in [req.query] and in the headers. *)
Fixpoint lookup (k : string) (o : list (string * string)) : option string :=
  match o with
  | [] => None
  | (k', v) :: o' => if String.eqb k k' then Some v else lookup k o'
  end.

Definition is_upper (c : ascii) : bool :=
  (65 <=? nat_of_ascii c)%nat && (nat_of_ascii c <=? 90)%nat.

Definition lower_char (c : ascii) : ascii :=
  if is_upper c then ascii_of_nat (nat_of_ascii c + 32) else c.

Fixpoint toLowerCase (s : string) : string :=
  match s with
  | EmptyString => EmptyString
  | String c r => String (lower_char c) (toLowerCase r)
  end.

(** White space as [String.prototype.trim] sees it, in ASCII. *)
Definition is_space (c : ascii) : bool :=
  let n := nat_of_ascii c in
  ((9 <=? n)%nat && (n <=? 13)%nat) || (n =? 32)%nat.

Fixpoint trimStart (s : string) : string :=
  match s with
  | EmptyString => EmptyString
  | String c r => if is_space c then trimStart r else s
  end.

Fixpoint trimEnd (s : string) : string :=
  match s with
  | EmptyString => EmptyString
  | String c r =>
      match trimEnd r with
      | EmptyString => if is_space c then EmptyString else String c EmptyString
      | r' => String c r'
      end
  end.

Definition trim (s : string) : string := trimEnd (trimStart s).

(** [v.includes(s)]: [s] occurs in [v] as a contiguous, case-sensitive
    substring. *)
Fixpoint includes (s v : string) : bool :=
  String.prefix s v ||
  match v with
  | EmptyString => false
  | String _ v' => includes s v'
  end.

(** The characters a regular expression reads as syntax. *)
Definition is_meta (c : ascii) : bool :=
  existsb (Ascii.eqb c)
    (list_ascii_of_string "\^$.|?*+()[]{}").

Fixpoint literal_pattern (s : string) : bool :=
  match s with
  | EmptyString => true
  | String c r => negb (is_meta c) && literal_pattern r
  end.

(** JavaScript numbers are modelled by rationals: every finite double is
    one, and the order of doubles is the order of the rationals they
    stand for.  [Qgtb x y] is [x > y]. *)
Definition Qgtb (x y : Q) : bool :=
  match Qcompare y x with Lt => true | _ => false end.

Definition Qleb (x y : Q) : bool := negb (Qgtb x y).

(** ** Errors *)

Inductive Error : Type :=
| StoreError                            (* the store failed or is unreachable *)
| ValidationError (paths : list string) (* schema validators that failed *)
| CastError (path : string)             (* a value the schema type rejects *)
| DuplicateKey (path : string)          (* E11000 on a unique index *)
| BcryptError                           (* bcrypt refused its arguments *)
| TypeError                             (* property read on null *)
| SyntaxError.                          (* invalid regular expression *)

Inductive Result (A : Type) : Type :=
| Ok (a : A)
| Throw (e : Error).
Arguments Ok {A} a.
Arguments Throw {A} e.

(** ** The libraries the server calls *)

(** An ObjectId, in its 24 digit hexadecimal form. *)
Definition ObjectId : Type := string.

Class Libraries : Type := {
  (** [bcrypt.hashSync(data, salt)] on a string *)
  bcrypt_hash : string -> string -> string;
  (** [bcrypt.compareSync(data, hash)] on a string *)
  bcrypt_compare : string -> string -> bool;
  (** [new RegExp(pattern)] and the match of a field against it;
      [None] when the pattern is not a regular expression *)
  RegExp_new : string -> option (string -> bool);
  (** [Number(s)]; [None] for NaN *)
  Number_ofString : string -> option Q;
  (** [n.toString()] *)
  Number_toString : Q -> string;
  (** the cast of a route parameter to an ObjectId *)
  ObjectId_cast : string -> option ObjectId
}.

(** ** Worlds and the handler monad *)

Inductive Event : Type :=
| Enter (callback : string)             (* a route callback started *)
| Call (model : string) (op : string).  (* a call reached the store *)

(** [db] is the store; [schemaLoadedAt] the instant the module that builds
    the schemas was evaluated; [faults] tells, call by call, whether the
    next store call fails (none left: it succeeds); [trace] is ghost. *)
Record World (D : Type) : Type := mkWorld {
  db : D;
  schemaLoadedAt : Z;
  faults : list bool;
  trace : list Event
}.

Definition M (D A : Type) : Type := World D -> Result A * World D.

Definition ret {D A} (a : A) : M D A := fun w => (Ok a, w).

Definition throw {D A} (e : Error) : M D A := fun w => (Throw e, w).

Definition bind {D A B} (m : M D A) (k : A -> M D B) : M D B :=
  fun w =>
    match m w with
    | (Ok a, w') => k a w'
    | (Throw e, w') => (Throw e, w')
    end.

(** [try { m } catch (e) { h e }] *)
Definition try_catch {D A} (m : M D A) (h : Error -> M D A) : M D A :=
  fun w =>
    match m w with
    | (Ok a, w') => (Ok a, w')
    | (Throw e, w') => h e w'
    end.

Declare Scope monad_scope.
Delimit Scope monad_scope with monad.
Notation "x <- m ;; k" := (bind m (fun x => k))
  (at level 61, m at next level, right associativity) : monad_scope.
Notation "m ;; k" := (bind m (fun _ => k))
  (at level 61, right associativity) : monad_scope.
Open Scope monad_scope.

Definition log {D} (e : Event) : M D unit :=
  fun w => (Ok tt, mkWorld (db w) (schemaLoadedAt w) (faults w) (trace w ++ [e])).

Definition enter {D} (callback : string) : M D unit := log (Enter callback).

(** One round trip to the store: it is recorded, and fails when the fault
    schedule says so. *)
Definition store_call {D} (model op : string) : M D unit :=
  fun w =>
    let t := trace w ++ [Call model op] in
    match faults w with
    | true :: fs => (Throw StoreError, mkWorld (db w) (schemaLoadedAt w) fs t)
    | false :: fs => (Ok tt, mkWorld (db w) (schemaLoadedAt w) fs t)
    | [] => (Ok tt, mkWorld (db w) (schemaLoadedAt w) [] t)
    end.

Definition get_db {D} : M D D := fun w => (Ok (db w), w).

Definition put_db {D} (d : D) : M D unit :=
  fun w => (Ok tt, mkWorld d (schemaLoadedAt w) (faults w) (trace w)).

Definition get_schemaLoadedAt {D} : M D Z := fun w => (Ok (schemaLoadedAt w), w).

(** A promise that resolves or rejects. *)
Definition lift_result {D A} (r : Result A) : M D A :=
  match r with
  | Ok a => ret a
  | Throw e => throw e
  end.

(** ** Requests and responses *)

(** [headers] has lower-case names, as Node delivers them; [id] is the
    route parameter [:id] (empty on routes without one). *)
Record Request : Type := mkRequest {
  headers : list (string * string);
  query : list (string * string);
  id : string;
  body : list (string * jsval)
}.

(** [req.header(name)] *)
Definition header (req : Request) (name : string) : option string :=
  lookup (toLowerCase name) (headers req).

(** What a request draws from outside the program: the clock, and the
    random salt, token and ObjectId generated while it is served. *)
Record Env : Type := mkEnv {
  now : Z;
  genSalt : string;
  randomBytes : string;
  newObjectId : ObjectId
}.

(** The two JSON shapes the handlers send: [{success, response, message}]
    and [{success, body}]. *)
Inductive Json (P : Type) : Type :=
| Msg (success : bool) (response : P) (message : option string)
| Search (success : bool) (body : P).

Record Reply (P : Type) : Type := mkReply {
  status : nat;
  json : Json P
}.

(** How a route callback ends: it sent a reply, it called [next()], or it
    returned having done neither. *)
Inductive Flow (P : Type) : Type :=
| Sent (r : Reply P)
| Next
| Silent.
Arguments Next {P}.
Arguments Silent {P}.

Definition send {D P} (code : nat) (j : Json P) : M D (Flow P) :=
  ret (Sent (mkReply code j)).

(** What the client observes.  [Unhandled e]: an async callback rejected
    outside any [try]; Express 4 sends nothing.  [Unrouted]: every
    callback called [next()]. *)
Inductive Outcome (P : Type) : Type :=
| Responded (r : Reply P)
| NoResponse
| Unhandled (e : Error)
| Unrouted.
Arguments NoResponse {P}.
Arguments Unhandled {P} e.
Arguments Unrouted {P}.

(** The callbacks registered on one method and path, run in order of
    registration. *)
Fixpoint dispatch {D P} (stack : list (Request -> M D (Flow P)))
    (req : Request) (w : World D) : Outcome P * World D :=
  match stack with
  | [] => (Unrouted, w)
  | h :: rest =>
      match h req w with
      | (Ok (Sent r), w') => (Responded r, w')
      | (Ok Next, w') => dispatch rest req w'
      | (Ok Silent, w') => (NoResponse, w')
      | (Throw e, w') => (Unhandled e, w')
      end
  end.

(** ** Schema types and validators (Mongoose) *)

Section SchemaTypes.
Context {L : Libraries}.

(** The String cast on JSON scalars; [None] is null or absent. *)
Definition castString (v : jsval) : option string :=
  match v with
  | JUndefined | JNull => None
  | JBool b => Some (if b then "true" else "false")%string
  | JNum q => Some (Number_toString q)
  | JStr s => Some s
  end.

(** The Number cast. *)
Definition castNumber (path : string) (v : jsval) : Result (option Q) :=
  match v with
  | JUndefined | JNull => Ok None
  | JBool b => Ok (Some (if b then 1 else 0)%Q)
  | JNum q => Ok (Some q)
  | JStr s =>
      if String.eqb s "" then Ok None
      else match Number_ofString s with
           | Some q => Ok (Some q)
           | None => Throw (CastError path)
           end
  end.

Definition castObjectId (s : string) : Result ObjectId :=
  match ObjectId_cast s with
  | Some oid => Ok oid
  | None => Throw (CastError "_id")
  end.
End SchemaTypes.

(** [required: true] on a String path: null, absent and empty all fail. *)
Definition required (v : option string) : bool :=
  match v with
  | None => false
  | Some s => negb (String.eqb s "")
  end.

(** [minlength] and [maxlength] pass on null. *)
Definition minlength (n : nat) (v : option string) : bool :=
  match v with
  | None => true
  | Some s => (n <=? String.length s)%nat
  end.

Definition maxlength (n : nat) (v : option string) : bool :=
  match v with
  | None => true
  | Some s => (String.length s <=? n)%nat
  end.

(** [required: true] on a Number path, [min] and [max], [enum]. *)
Definition requiredNumber (v : option Q) : bool :=
  match v with None => false | Some _ => true end.

Definition min (n : Q) (v : option Q) : bool :=
  match v with None => true | Some q => Qleb n q end.

Definition max (n : Q) (v : option Q) : bool :=
  match v with None => true | Some q => Qleb q n end.

Definition enum (allowed : list string) (v : option string) : bool :=
  match v with
  | None => true
  | Some s => existsb (String.eqb s) allowed
  end.

(** One schema path: its name is reported when a validator fails. *)
Definition check (path : string) (ok : bool) : list string :=
  if ok then [] else [path].

Definition validated {A} (failed : list string) (d : A) : Result A :=
  match failed with
  | [] => Ok d
  | _ => Throw (ValidationError failed)
  end.

Definition from_option {A} (default : A) (o : option A) : A :=
  match o with Some a => a | None => default end.

(** ** The models of the server with users and secrets *)

(** Documents are held as the schema shapes them: a required path is a
    field, a path that may be absent or null is an option. *)

Module Wine.
Record doc : Type := mk {
  _id : ObjectId;
  name : string;
  description : option string;
  price : option Q;
  createdAt : Z;
  variety : string;
  country : option string
}.

Section Schema.
Context {L : Libraries}.

(** [new Wine({ name, description, rating, variety })], and the
    validation [save()] runs on it.  The schema has no path [rating]:
    the value is dropped.  [price] and [country] are not given.
    The default of [createdAt] is the value [new Date()] had when the
    schema was built. *)
Definition new (loadedAt : Z) (oid : ObjectId)
    (name description rating variety : jsval) : Result doc :=
  let n := castString name in
  let d := option_map trim (castString description) in
  let v := castString variety in
  validated
    (check "name" (required n) ++
     check "description" (required d && minlength 2 d && maxlength 300 d) ++
     check "variety" (required v))
    (mk oid (from_option "" n) d None loadedAt (from_option "" v) None).
End Schema.

Definition has_id (oid : ObjectId) (d : doc) : bool := String.eqb (_id d) oid.

(** The insert, under the unique indexes on [_id] and [name]. *)
Definition insert (d : doc) (coll : list doc) : Result (list doc) :=
  if existsb (has_id (_id d)) coll then Throw (DuplicateKey "_id")
  else if existsb (fun d' => String.eqb (name d') (name d)) coll
       then Throw (DuplicateKey "name")
       else Ok (coll ++ [d]).

(** The filter [{ variety: regex, price: { $gt: threshold } }]: a
    comparison matches no document that lacks the field. *)
Definition matches (regex : string -> bool) (threshold : Q) (d : doc) : bool :=
  regex (variety d) &&
  match price d with
  | Some p => Qgtb p threshold
  | None => false
  end.

Definition findById (oid : ObjectId) (coll : list doc) : option doc :=
  List.find (has_id oid) coll.

Definition set_description (v : option string) (d : doc) : doc :=
  mk (_id d) (name d) v (price d) (createdAt d) (variety d) (country d).

(** The update and the removal of the first document with the id. *)
Fixpoint updateOne (oid : ObjectId) (f : doc -> doc) (coll : list doc) : list doc :=
  match coll with
  | [] => []
  | d :: rest => if has_id oid d then f d :: rest else d :: updateOne oid f rest
  end.

Fixpoint deleteOne (oid : ObjectId) (coll : list doc) : list doc :=
  match coll with
  | [] => []
  | d :: rest => if has_id oid d then rest else d :: deleteOne oid rest
  end.
End Wine.

Module User.
Record doc : Type := mk {
  _id : ObjectId;
  username : string;
  password : string;
  accessToken : string
}.

Section Schema.
Context {L : Libraries}.

(** [new User({ username, password })] with [password] already a
    string, and the validation [save()] runs on it; [token] is the
    default [crypto.randomBytes(128).toString('hex')]. *)
Definition new (oid : ObjectId) (token : string)
    (username : jsval) (password : string) : Result doc :=
  let u := castString username in
  let p := Some password in
  validated
    (check "username" (required u && minlength 2 u && maxlength 20 u) ++
     check "password" (required p && minlength 5 p))
    (mk oid (from_option "" u) password token).
End Schema.

(** The insert, under the unique indexes on [_id] and [username]. *)
Definition insert (d : doc) (coll : list doc) : Result (list doc) :=
  if existsb (fun d' => String.eqb (_id d') (_id d)) coll
  then Throw (DuplicateKey "_id")
  else if existsb (fun d' => String.eqb (username d') (username d)) coll
       then Throw (DuplicateKey "username")
       else Ok (coll ++ [d]).

(** Equality filters.  An undefined value reaches the store as null, and
    null matches only the documents without the field: every user has
    both fields, so none. *)
Definition by_username (v : option string) (d : doc) : bool :=
  match v with
  | Some s => String.eqb (username d) s
  | None => false
  end.

Definition by_accessToken (v : option string) (d : doc) : bool :=
  match v with
  | Some s => String.eqb (accessToken d) s
  | None => false
  end.
End User.

Module Secret.
(** [user] is a String path holding the owner's ObjectId. *)
Record doc : Type := mk {
  _id : ObjectId;
  message : option string;
  createdAt : Z;
  user : string
}.

Section Schema.
Context {L : Libraries}.

(** [new Secret({ message, user })] and the validation of [save()];
    the default of [createdAt] is a function, called at construction. *)
Definition new (oid : ObjectId) (now : Z)
    (message : jsval) (user : ObjectId) : Result doc :=
  validated (check "user" (required (Some user)))
    (mk oid (castString message) now user).
End Schema.

Definition insert (d : doc) (coll : list doc) : Result (list doc) :=
  if existsb (fun d' => String.eqb (_id d') (_id d)) coll
  then Throw (DuplicateKey "_id")
  else Ok (coll ++ [d]).

(** The filter [{ user: id }]. *)
Definition by_user (owner : ObjectId) (d : doc) : bool :=
  String.eqb (user d) owner.
End Secret.

(** The three collections. *)
Record Store : Type := mkStore {
  wines : list Wine.doc;
  users : list User.doc;
  secrets : list Secret.doc
}.

Definition set_wines (l : list Wine.doc) (s : Store) : Store :=
  mkStore l (users s) (secrets s).

Definition set_users (l : list User.doc) (s : Store) : Store :=
  mkStore (wines s) l (secrets s).

Definition set_secrets (l : list Secret.doc) (s : Store) : Store :=
  mkStore (wines s) (users s) l.

Inductive Payload : Type :=
| PNothing                                    (* the empty object *)
| PText (s : string)
| PError (e : Error)
| PWine (d : option Wine.doc)                 (* a document or null *)
| PWines (l : list Wine.doc)
| PAccount (username : string) (id : ObjectId) (accessToken : string)
| PSecrets (l : list Secret.doc).

(** ** The server with users and secrets *)

Section Server.
Context {L : Libraries}.

(** *** Calls to the store *)

(** [await new Wine({...}).save()]: validation runs before the
    document is sent. *)
Definition Wine_save (env : Env) (name description rating variety : jsval)
    : M Store Wine.doc :=
  loadedAt <- get_schemaLoadedAt ;;
  d <- lift_result
         (Wine.new loadedAt (newObjectId env) name description rating variety) ;;
  store_call "Wine" "insertOne" ;;
  s <- get_db ;;
  l <- lift_result (Wine.insert d (wines s)) ;;
  put_db (set_wines l s) ;;
  ret d.

(** [await Wine.find({ variety: regex, price: { $gt: gt } })]: the
    filter is cast to the schema before it is sent. *)
Definition Wine_find (regex : string -> bool) (gt : jsval)
    : M Store (list Wine.doc) :=
  threshold <- lift_result (castNumber "price" gt) ;;
  store_call "Wine" "find" ;;
  s <- get_db ;;
  ret match threshold with
      | Some t => filter (Wine.matches regex t) (wines s)
      | None => []
      end.

Definition Wine_findById (id : string) : M Store (option Wine.doc) :=
  oid <- lift_result (castObjectId id) ;;
  store_call "Wine" "findOne" ;;
  s <- get_db ;;
  ret (Wine.findById oid (wines s)).

(** [await Wine.findByIdAndUpdate(id, { description }, { new: true })]:
    no validator runs; the String cast and the [trim] setter do; an
    undefined value is left out of the update. *)
Definition Wine_findByIdAndUpdate (id : string) (description : jsval)
    : M Store (option Wine.doc) :=
  oid <- lift_result (castObjectId id) ;;
  let update :=
    match description with
    | JUndefined => fun d => d
    | v => Wine.set_description (option_map trim (castString v))
    end in
  store_call "Wine" "findOneAndUpdate" ;;
  s <- get_db ;;
  put_db (set_wines (Wine.updateOne oid update (wines s)) s) ;;
  s' <- get_db ;;
  ret (Wine.findById oid (wines s')).

Definition Wine_findByIdAndDelete (id : string) : M Store (option Wine.doc) :=
  oid <- lift_result (castObjectId id) ;;
  store_call "Wine" "findOneAndDelete" ;;
  s <- get_db ;;
  put_db (set_wines (Wine.deleteOne oid (wines s)) s) ;;
  ret (Wine.findById oid (wines s)).

Definition User_save (env : Env) (username : jsval) (password : string)
    : M Store User.doc :=
  d <- lift_result
         (User.new (newObjectId env) (randomBytes env) username password) ;;
  store_call "User" "insertOne" ;;
  s <- get_db ;;
  l <- lift_result (User.insert d (users s)) ;;
  put_db (set_users l s) ;;
  ret d.

Definition User_findOne (filter : User.doc -> bool) : M Store (option User.doc) :=
  store_call "User" "findOne" ;;
  s <- get_db ;;
  ret (List.find filter (users s)).

Definition Secret_save (env : Env) (message : jsval) (user : ObjectId)
    : M Store Secret.doc :=
  d <- lift_result (Secret.new (newObjectId env) (now env) message user) ;;
  store_call "Secret" "insertOne" ;;
  s <- get_db ;;
  l <- lift_result (Secret.insert d (secrets s)) ;;
  put_db (set_secrets l s) ;;
  ret d.

Definition Secret_find (filter : Secret.doc -> bool) : M Store (list Secret.doc) :=
  store_call "Secret" "find" ;;
  s <- get_db ;;
  ret (List.filter filter (secrets s)).

(** *** Built-ins and bcrypt at the types the handlers use them *)

(** [new RegExp(pattern)]; on undefined the pattern is empty and matches
    every string. *)
Definition new_RegExp (pattern : option string) : M Store (string -> bool) :=
  match pattern with
  | None => ret (fun _ => true)
  | Some p =>
      match RegExp_new p with
      | Some r => ret r
      | None => throw SyntaxError
      end
  end.

(** [price ? price : 0] on a query parameter: undefined and the empty
    string are falsy. *)
Definition price_or_zero (price : option string) : jsval :=
  match price with
  | None => JNum 0
  | Some s => if String.eqb s "" then JNum 0 else JStr s
  end.

(** bcrypt throws on data that is not a string. *)
Definition bcrypt_hashSync (data : jsval) (salt : string) : M Store string :=
  match data with
  | JStr s => ret (bcrypt_hash s salt)
  | _ => throw BcryptError
  end.

Definition bcrypt_compareSync (data : jsval) (hash : string) : M Store bool :=
  match data with
  | JStr s => ret (bcrypt_compare s hash)
  | _ => throw BcryptError
  end.

(** *** Route callbacks *)

Definition post_wines (env : Env) (req : Request) : M Store (Flow Payload) :=
  enter "POST /wines" ;;
  let name := field "name" (body req) in
  let description := field "description" (body req) in
  let rating := field "rating" (body req) in
  let variety := field "variety" (body req) in
  try_catch
    (newWineItem <- Wine_save env name description rating variety ;;
     send 201 (Msg true (PWine (Some newWineItem))
                 (Some "Wine item successfully created")))
    (fun e =>
     send 418 (Msg false (PError e)
                 (Some "Error occured could not create wine item"))).

(** The array [find] resolves to is truthy even when empty, so the
    [else] of the source is never taken.  The regular expression is
    built before the [try]. *)
Definition get_wines (req : Request) : M Store (Flow Payload) :=
  enter "GET /wines" ;;
  let variety := lookup "variety" (query req) in
  let price := lookup "price" (query req) in
  varietyRegex <- new_RegExp variety ;;
  let priceQuery := price_or_zero price in
  try_catch
    (searchResultFromDB <- Wine_find varietyRegex priceQuery ;;
     send 200 (Search true (PWines searchResultFromDB)))
    (fun e => send 500 (Search false PNothing)).

Definition patch_wines_id (req : Request) : M Store (Flow Payload) :=
  enter "PATCH /wines/:id" ;;
  let newDescription := field "newDescription" (body req) in
  try_catch
    (wineItem <- Wine_findByIdAndUpdate (id req) newDescription ;;
     send 200 (Msg true (PWine wineItem) (Some "Updated successfully")))
    (fun e =>
     send 400 (Msg false (PError e) (Some "Did not updated successfully"))).

Definition get_wines_id (req : Request) : M Store (Flow Payload) :=
  enter "GET /wines/:id" ;;
  try_catch
    (wineItem <- Wine_findById (id req) ;;
     send 200 (Msg true (PWine wineItem) (Some "Found successfully")))
    (fun e =>
     send 400 (Msg false (PError e) (Some "Did not found successfully"))).

Definition delete_wines_id (req : Request) : M Store (Flow Payload) :=
  enter "DELETE /wines/:id" ;;
  try_catch
    (wineItem <- Wine_findByIdAndDelete (id req) ;;
     send 200 (Msg true (PWine wineItem) (Some "Deleted successfully")))
    (fun e => send 400 (Msg false (PError e) (Some "Did not deleted"))).

Definition post_register (env : Env) (req : Request) : M Store (Flow Payload) :=
  enter "POST /register" ;;
  let username := field "username" (body req) in
  let password := field "password" (body req) in
  try_catch
    (let salt := genSalt env in
     hash <- bcrypt_hashSync password salt ;;
     newUser <- User_save env username hash ;;
     send 201 (Msg true
                 (PAccount (User.username newUser) (User._id newUser)
                    (User.accessToken newUser))
                 None))
    (fun e => send 400 (Msg false (PError e) None)).

Definition user_not_found : M Store (Flow Payload) :=
  send 404 (Msg false (PText "User not found") None).

(** [user && bcrypt.compareSync(password, user.password)]: the
    comparison runs only when a user was found. *)
Definition post_login (req : Request) : M Store (Flow Payload) :=
  enter "POST /login" ;;
  let username := field "username" (body req) in
  let password := field "password" (body req) in
  try_catch
    (user <- User_findOne (User.by_username (castString username)) ;;
     match user with
     | Some u =>
         same <- bcrypt_compareSync password (User.password u) ;;
         if same
         then send 200 (Msg true
                          (PAccount (User.username u) (User._id u)
                             (User.accessToken u))
                          None)
         else user_not_found
     | None => user_not_found
     end)
    (fun e => send 500 (Msg false (PError e) None)).

Definition authenticateUser (req : Request) : M Store (Flow Payload) :=
  enter "authenticateUser" ;;
  let accessToken := header req "Authorization" in
  try_catch
    (user <- User_findOne (User.by_accessToken accessToken) ;;
     match user with
     | Some _ => ret Next
     | None => send 401 (Msg false (PText "Not authorized") None)
     end)
    (fun e => send 401 (Msg false (PError e) None)).

(** [user._id] on null is a TypeError; nothing here is in a [try]. *)
Definition get_secrets (req : Request) : M Store (Flow Payload) :=
  enter "GET /secrets" ;;
  let accessToken := header req "Authorization" in
  user <- User_findOne (User.by_accessToken accessToken) ;;
  match user with
  | None => throw TypeError
  | Some u =>
      secrets <- Secret_find (Secret.by_user (User._id u)) ;;
      send 200 (Msg true (PSecrets secrets) None)
  end.

(** The callback ends after the save: it sends nothing. *)
Definition post_secrets (env : Env) (req : Request) : M Store (Flow Payload) :=
  enter "POST /secrets" ;;
  let message := field "message" (body req) in
  let accessToken := header req "Authorization" in
  user <- User_findOne (User.by_accessToken accessToken) ;;
  match user with
  | None => throw TypeError
  | Some u =>
      secrets <- Secret_save env message (User._id u) ;;
      ret Silent
  end.

(** *** Routes *)

Inductive Method : Type := GET | POST | PATCH | DELETE.

Inductive Route : Type :=
| wines_        (* /wines *)
| wines_id      (* /wines/:id *)
| register      (* /register *)
| login         (* /login *)
| secrets_.     (* /secrets *)

(** The callbacks [app.METHOD(path, ...)] registered, in order. *)
Definition callbacks (env : Env) (m : Method) (r : Route)
    : list (Request -> M Store (Flow Payload)) :=
  match m, r with
  | POST, wines_ => [post_wines env]
  | GET, wines_ => [get_wines]
  | PATCH, wines_id => [patch_wines_id]
  | GET, wines_id => [get_wines_id]
  | DELETE, wines_id => [delete_wines_id]
  | POST, register => [post_register env]
  | POST, login => [post_login]
  | GET, secrets_ => [authenticateUser; get_secrets]
  | POST, secrets_ => [authenticateUser; post_secrets env]
  | _, _ => []
  end.

Definition serve (env : Env) (m : Method) (r : Route) (req : Request)
    (w : World Store) : Outcome Payload * World Store :=
  dispatch (callbacks env m r) req w.
End Server.

(** ** The baseline server ([server.js])

    Wines carry a [rating] and a [kind]; there are no users and no
    secrets.  (The oldest file of the repository is this server with the
    first two routes only.) *)

Module Baseline.

Module Wine.
Record doc : Type := mk {
  _id : ObjectId;
  name : string;
  description : option string;
  rating : Q;
  createdAt : Z;
  kind : string
}.

Section Schema.
Context {L : Libraries}.

(** [new Wine({ name, description, rating, kind })] and the validation of
    [save()]; a value the Number cast rejects fails the path. *)
Definition new (loadedAt : Z) (oid : ObjectId)
    (name description rating kind : jsval) : Result doc :=
  let n := castString name in
  let d := option_map trim (castString description) in
  let r := castNumber "rating" rating in
  let k := castString kind in
  validated
    (check "name" (required n) ++
     check "description" (required d && minlength 2 d && maxlength 300 d) ++
     check "rating"
       match r with
       | Ok v => requiredNumber v && min 1 v && max 5 v
       | Throw _ => false
       end ++
     check "kind"
       (required k && enum ["red"; "white"; "rose"; "sparkling"; "other"] k))
    (mk oid (from_option "" n) d
       match r with Ok (Some q) => q | _ => 0%Q end
       loadedAt (from_option "" k)).
End Schema.

Definition has_id (oid : ObjectId) (d : doc) : bool := String.eqb (_id d) oid.

Definition insert (d : doc) (coll : list doc) : Result (list doc) :=
  if existsb (has_id (_id d)) coll then Throw (DuplicateKey "_id")
  else if existsb (fun d' => String.eqb (name d') (name d)) coll
       then Throw (DuplicateKey "name")
       else Ok (coll ++ [d]).

Definition findById (oid : ObjectId) (coll : list doc) : option doc :=
  List.find (has_id oid) coll.

Definition set_description (v : option string) (d : doc) : doc :=
  mk (_id d) (name d) v (rating d) (createdAt d) (kind d).

Fixpoint updateOne (oid : ObjectId) (f : doc -> doc) (coll : list doc) : list doc :=
  match coll with
  | [] => []
  | d :: rest => if has_id oid d then f d :: rest else d :: updateOne oid f rest
  end.

Fixpoint deleteOne (oid : ObjectId) (coll : list doc) : list doc :=
  match coll with
  | [] => []
  | d :: rest => if has_id oid d then rest else d :: deleteOne oid rest
  end.
End Wine.

(** The store is the wines collection. *)
Definition Store : Type := list Wine.doc.

Inductive Payload : Type :=
| PText (s : string)
| PError (e : Error)
| PWine (d : option Wine.doc)
| PWines (l : list Wine.doc).

Section Server.
Context {L : Libraries}.

Definition Wine_save (env : Env) (name description rating kind : jsval)
    : M Store Wine.doc :=
  loadedAt <- get_schemaLoadedAt ;;
  d <- lift_result
         (Wine.new loadedAt (newObjectId env) name description rating kind) ;;
  store_call "Wine" "insertOne" ;;
  s <- get_db ;;
  l <- lift_result (Wine.insert d s) ;;
  put_db l ;;
  ret d.

(** [await Wine.find()] *)
Definition Wine_find : M Store (list Wine.doc) :=
  store_call "Wine" "find" ;;
  get_db.

Definition Wine_findById (id : string) : M Store (option Wine.doc) :=
  oid <- lift_result (castObjectId id) ;;
  store_call "Wine" "findOne" ;;
  s <- get_db ;;
  ret (Wine.findById oid s).

Definition Wine_findByIdAndUpdate (id : string) (description : jsval)
    : M Store (option Wine.doc) :=
  oid <- lift_result (castObjectId id) ;;
  let update :=
    match description with
    | JUndefined => fun d => d
    | v => Wine.set_description (option_map trim (castString v))
    end in
  store_call "Wine" "findOneAndUpdate" ;;
  s <- get_db ;;
  put_db (Wine.updateOne oid update s) ;;
  s' <- get_db ;;
  ret (Wine.findById oid s').

Definition Wine_findByIdAndDelete (id : string) : M Store (option Wine.doc) :=
  oid <- lift_result (castObjectId id) ;;
  store_call "Wine" "findOneAndDelete" ;;
  s <- get_db ;;
  put_db (Wine.deleteOne oid s) ;;
  ret (Wine.findById oid s).

Definition post_wines (env : Env) (req : Request) : M Store (Flow Payload) :=
  enter "POST /wines" ;;
  let name := field "name" (body req) in
  let description := field "description" (body req) in
  let rating := field "rating" (body req) in
  let kind := field "kind" (body req) in
  try_catch
    (newWineItem <- Wine_save env name description rating kind ;;
     send 201 (Msg true (PWine (Some newWineItem))
                 (Some "Wine item successfully created")))
    (fun e =>
     send 418 (Msg false (PError e)
                 (Some "Error occured could not create wine item"))).

(** No [try] here; the array is truthy, the 404 branch is never taken. *)
Definition get_wines (req : Request) : M Store (Flow Payload) :=
  enter "GET /wines" ;;
  wines <- Wine_find ;;
  send 200 (Msg true (PWines wines) (Some "Wine items successfully retrieved")).

Definition patch_wines_id (req : Request) : M Store (Flow Payload) :=
  enter "PATCH /wines/:id" ;;
  let newDescription := field "newDescription" (body req) in
  try_catch
    (wineItem <- Wine_findByIdAndUpdate (id req) newDescription ;;
     send 200 (Msg true (PWine wineItem) (Some "Updated successfully")))
    (fun e =>
     send 400 (Msg false (PError e) (Some "Did not updated successfully"))).

Definition get_wines_id (req : Request) : M Store (Flow Payload) :=
  enter "GET /wines/:id" ;;
  try_catch
    (wineItem <- Wine_findById (id req) ;;
     send 200 (Msg true (PWine wineItem) (Some "Found successfully")))
    (fun e =>
     send 400 (Msg false (PError e) (Some "Did not found successfully"))).

Definition delete_wines_id (req : Request) : M Store (Flow Payload) :=
  enter "DELETE /wines/:id" ;;
  try_catch
    (wineItem <- Wine_findByIdAndDelete (id req) ;;
     send 200 (Msg true (PWine wineItem) (Some "Deleted successfully")))
    (fun e => send 400 (Msg false (PError e) (Some "Did not deleted"))).
End Server.

End Baseline.

Module BaselineRoutes.
(** The callbacks the baseline registers. *)
Definition callbacks {L : Libraries} (env : Env) (m : Method) (r : Route)
    : list (Request -> M Baseline.Store (Flow Baseline.Payload)) :=
  match m, r with
  | POST, wines_ => [Baseline.post_wines env]
  | GET, wines_ => [Baseline.get_wines]
  | PATCH, wines_id => [Baseline.patch_wines_id]
  | GET, wines_id => [Baseline.get_wines_id]
  | DELETE, wines_id => [Baseline.delete_wines_id]
  | _, _ => []
  end.

Definition serve {L : Libraries} (env : Env) (m : Method) (r : Route)
    (req : Request) (w : World Baseline.Store)
    : Outcome Baseline.Payload * World Baseline.Store :=
  dispatch (callbacks env m r) req w.
End BaselineRoutes.

(** ** A reference implementation of the libraries

    Small stand-ins on which the handlers can be run.  Each agrees with
    the library it stands for on the inputs it is used on below: hashes
    have the bcrypt layout (60 characters: prefix, salt, digest), patterns
    are made of literal characters and the wildcard [.], numbers are
    decimal integers, ObjectIds are 24 hexadecimal digits. *)

Module Reference.

(** [s] cut or padded to [n] characters. *)
Fixpoint fit (n : nat) (s : string) : string :=
  match n with
  | O => EmptyString
  | S n' =>
      match s with
      | EmptyString => String "." (fit n' EmptyString)
      | String c r => String c (fit n' r)
      end
  end.

Definition hash (data salt : string) : string :=
  String.append "$2b$10$" (String.append (fit 22 salt) (fit 31 data)).

Definition compare (data hashed : string) : bool :=
  String.eqb (String.substring 29 31 hashed) (fit 31 data).

Definition is_line_terminator (c : ascii) : bool :=
  (nat_of_ascii c =? 10)%nat || (nat_of_ascii c =? 13)%nat.

(** The pattern matches at the start of [v]. *)
Fixpoint match_here (p v : string) : bool :=
  match p with
  | EmptyString => true
  | String c p' =>
      match v with
      | EmptyString => false
      | String a v' =>
          (if Ascii.eqb c "." then negb (is_line_terminator a) else Ascii.eqb c a)
          && match_here p' v'
      end
  end.

(** The pattern matches somewhere in [v]. *)
Fixpoint search (p v : string) : bool :=
  match_here p v ||
  match v with
  | EmptyString => false
  | String _ v' => search p v'
  end.

Fixpoint in_fragment (p : string) : bool :=
  match p with
  | EmptyString => true
  | String c r => (negb (is_meta c) || Ascii.eqb c ".") && in_fragment r
  end.

Definition regexp (p : string) : option (string -> bool) :=
  if in_fragment p then Some (search p) else None.

Definition digit (c : ascii) : option Z :=
  let n := nat_of_ascii c in
  if (48 <=? n)%nat && (n <=? 57)%nat then Some (Z.of_nat (n - 48)) else None.

Fixpoint digits (s : string) (acc : Z) : option Z :=
  match s with
  | EmptyString => Some acc
  | String c r =>
      match digit c with
      | Some d => digits r (10 * acc + d)
      | None => None
      end
  end.

Definition number_of_string (s : string) : option Q :=
  match s with
  | EmptyString => Some 0%Q
  | String "-" EmptyString => None
  | String "-" r => option_map (fun z => inject_Z (- z)) (digits r 0)
  | _ => option_map inject_Z (digits s 0)
  end.

Fixpoint decimal (fuel : nat) (n : Z) (acc : string) : string :=
  match fuel with
  | O => acc
  | S fuel' =>
      let acc' := String (ascii_of_nat (48 + Z.to_nat (n mod 10))) acc in
      if (n <? 10)%Z then acc' else decimal fuel' (n / 10) acc'
  end.

Definition number_to_string (q : Q) : string :=
  let n := (Qnum q / Zpos (Qden q))%Z in
  if (n <? 0)%Z
  then String "-" (decimal (S (Z.to_nat (Z.log2 (- n)))) (- n) EmptyString)
  else decimal (S (Z.to_nat (Z.log2 n))) n EmptyString.

Definition is_hex (c : ascii) : bool :=
  let n := nat_of_ascii (lower_char c) in
  ((48 <=? n)%nat && (n <=? 57)%nat) || ((97 <=? n)%nat && (n <=? 102)%nat).

Fixpoint all_hex (s : string) : bool :=
  match s with
  | EmptyString => true
  | String c r => is_hex c && all_hex r
  end.

Definition objectid (s : string) : option ObjectId :=
  if (String.length s =? 24)%nat && all_hex s then Some (toLowerCase s) else None.

#[local] Instance libraries : Libraries := {|
  bcrypt_hash := hash;
  bcrypt_compare := compare;
  RegExp_new := regexp;
  Number_ofString := number_of_string;
  Number_toString := number_to_string;
  ObjectId_cast := objectid
|}.

End Reference.

(** ** Vocabulary of the statements *)

(** No call to the store fails from here on. *)
Definition healthy {D} (w : World D) : bool := forallb negb (faults w).

(** The world after one successful or failed round trip. *)
Definition after_call {D} (model op : string) (w : World D) : World D :=
  mkWorld (db w) (schemaLoadedAt w) (tl (faults w)) (trace w ++ [Call model op]).

Definition entered {D} (callback : string) (w : World D) : World D :=
  mkWorld (db w) (schemaLoadedAt w) (faults w) (trace w ++ [Enter callback]).

(** A bcrypt hash is 60 characters long. *)
Definition hashes_have_60_characters (L : Libraries) : Prop :=
  forall data salt, String.length (bcrypt_hash data salt) = 60%nat.

(** A pattern without metacharacters is a regular expression, and matches
    the strings that contain it. *)
Definition literals_match_substrings (L : Libraries) : Prop :=
  forall s, literal_pattern s = true ->
    exists r, RegExp_new s = Some r /\ forall v, r v = includes s v.

(** The number a [price] query parameter stands for: 0 when absent or
    empty, its numeric value otherwise. *)
Inductive threshold {L : Libraries} : option string -> Q -> Prop :=
| threshold_absent : threshold None 0%Q
| threshold_empty : threshold (Some "") 0%Q
| threshold_given : forall s t,
    s <> "" -> Number_ofString s = Some t -> threshold (Some s) t.

(** A wine has a price, and it is strictly greater than [t]. *)
Definition priced_above (t : Q) (d : Wine.doc) : Prop :=
  exists p, Wine.price d = Some p /\ (t < p)%Q.

(** The answer of [GET /wines] is the list [l]. *)
Definition lists_wines {L : Libraries} (env : Env) (req : Request)
    (w : World Store) (l : list Wine.doc) : Prop :=
  exists w',
    serve env GET wines_ req w =
    (Responded (mkReply 200 (Search true (PWines l))), w').

(** Two wine documents that agree on every field but [description]. *)
Definition same_but_description (d d' : Wine.doc) : Prop :=
  Wine._id d' = Wine._id d /\
  Wine.name d' = Wine.name d /\
  Wine.price d' = Wine.price d /\
  Wine.createdAt d' = Wine.createdAt d /\
  Wine.variety d' = Wine.variety d /\
  Wine.country d' = Wine.country d.

Definition baseline_same_but_description (d d' : Baseline.Wine.doc) : Prop :=
  Baseline.Wine._id d' = Baseline.Wine._id d /\
  Baseline.Wine.name d' = Baseline.Wine.name d /\
  Baseline.Wine.rating d' = Baseline.Wine.rating d /\
  Baseline.Wine.createdAt d' = Baseline.Wine.createdAt d /\
  Baseline.Wine.kind d' = Baseline.Wine.kind d.

(** The variety filter as the specification words it: the answer is the
    wines whose variety contains the parameter as a substring, and with a
    price parameter those of them priced above the threshold. *)
Definition variety_filter_as_specified (L : Libraries) : Prop :=
  forall env req w s,
    healthy w = true ->
    lookup "variety" (query req) = Some s ->
    (lookup "price" (query req) = None ->
        exists l, lists_wines env req w l /\
          forall d, In d l <->
            In d (wines (db w)) /\ includes s (Wine.variety d) = true) /\
    (forall p t,
        lookup "price" (query req) = Some p -> threshold (Some p) t ->
        exists l, lists_wines env req w l /\
          forall d, In d l <->
            In d (wines (db w)) /\ includes s (Wine.variety d) = true /\
            priced_above t d).

(** ** Sample data

    A small store and a few requests, on which the handlers are run with
    the reference libraries. *)

Module Sample.

Definition salt : string := "N9qo8uLOickgx2ZMRZoMye".

Definition alice : User.doc :=
  User.mk "64a000000000000000000001" "alice" (Reference.hash "secret1" salt)
    "a11ce0".

Definition bob : User.doc :=
  User.mk "64a000000000000000000002" "bob" (Reference.hash "hunter22" salt)
    "b0b0b0".

Definition alice_secret : Secret.doc :=
  Secret.mk "64b000000000000000000001" (Some "mine") 1500 (User._id alice).

Definition bob_secret : Secret.doc :=
  Secret.mk "64b000000000000000000002" (Some "his") 1600 (User._id bob).

Definition merlot : Wine.doc :=
  Wine.mk "64c000000000000000000001" "Merlot Reserve" (Some "Soft and round")
    (Some 10%Q) 1000 "Merlot" (Some "France").

Definition pinot : Wine.doc :=
  Wine.mk "64c000000000000000000002" "Pinot 2019" (Some "Light and bright")
    (Some 20%Q) 1000 "Pinot Noir" None.

(** A wine as [POST /wines] stores it: without a price. *)
Definition house : Wine.doc :=
  Wine.mk "64c000000000000000000003" "House red" (Some "Table wine")
    None 1000 "Red blend" None.

Definition store : Store :=
  mkStore [merlot; pinot; house] [alice; bob] [alice_secret; bob_secret].

(** The schemas were loaded at instant 1000; the store does not fail. *)
Definition world : World Store := mkWorld store 1000 [] [].

Definition empty : World Store := mkWorld (mkStore [] [] []) 1000 [] [].

Definition rioja : Baseline.Wine.doc :=
  Baseline.Wine.mk "64c000000000000000000001" "Rioja" (Some "Oak and cherry")
    4%Q 1000 "red".

Definition baseline_world : World Baseline.Store := mkWorld [rioja] 1000 [] [].

Definition baseline_empty : World Baseline.Store := mkWorld [] 1000 [] [].

(** Two requests served at instants 2000 and 3000. *)
Definition env : Env := mkEnv 2000 salt "c0ffee" "64d000000000000000000001".

Definition later : Env := mkEnv 3000 salt "decade" "64d000000000000000000002".

Definition anonymous : Request := mkRequest [] [] "" [].

Definition as_alice (body : list (string * jsval)) : Request :=
  mkRequest [("authorization", "a11ce0")] [] "" body.

Definition with_query (query : list (string * string)) : Request :=
  mkRequest [] query "" [].

Definition with_body (body : list (string * jsval)) : Request :=
  mkRequest [] [] "" body.

Definition patch_merlot : Request :=
  mkRequest [] [] "64c000000000000000000001"
    [("newDescription", JStr "  Plum and cedar ")].

Definition new_wine (name : string) : list (string * jsval) :=
  [("name", JStr name); ("description", JStr "A new wine");
   ("rating", JNum 4); ("variety", JStr "Syrah"); ("kind", JStr "red")].

End Sample.

(** ** Vocabulary of the further properties *)

(** A computation keeps a property of the store, however it ends. *)
Definition stable {D A} (J : D -> Prop) (m : M D A) : Prop :=
  forall w, J (db w) -> J (db (snd (m w))).

(** No two wines share an id or a name, no two users an id or a
    username, no two secrets an id: what the unique indexes stand for. *)
Definition unique_keys (s : Store) : Prop :=
  NoDup (map Wine._id (wines s)) /\
  NoDup (map Wine.name (wines s)) /\
  NoDup (map User._id (users s)) /\
  NoDup (map User.username (users s)) /\
  NoDup (map Secret._id (secrets s)).

Definition baseline_unique_keys (s : Baseline.Store) : Prop :=
  NoDup (map Baseline.Wine._id s) /\ NoDup (map Baseline.Wine.name s).

(** The routes whose callbacks only read. *)
Definition read_only (m : Method) (r : Route) : bool :=
  match m, r with
  | GET, _ => true
  | POST, login => true
  | _, _ => false
  end.

(** The routes with a parameter [:id]. *)
Definition on_id (m : Method) : bool :=
  match m with
  | GET | PATCH | DELETE => true
  | POST => false
  end.

(** bcrypt verifies a password against its own hash. *)
Definition compare_accepts_hash (L : Libraries) : Prop :=
  forall data salt, bcrypt_compare data (bcrypt_hash data salt) = true.

(** The body of a new wine for the server with users. *)
Definition wine_body (name description variety : string)
    : list (string * jsval) :=
  [("name", JStr name); ("description", JStr description);
   ("variety", JStr variety)].

(** The update [{ description: v }] as [findByIdAndUpdate] applies it. *)
Definition description_update {L : Libraries} (v : jsval) : Wine.doc -> Wine.doc :=
  match v with
  | JUndefined => fun d => d
  | _ => Wine.set_description (option_map trim (castString v))
  end.

(** ** Further sample data *)

Module Probe.

(** The sample store behind a store whose next call fails, and behind
    one whose second call fails. *)
Definition failing : World Store := mkWorld Sample.store 1000 [true] [].

Definition failing_later : World Store :=
  mkWorld Sample.store 1000 [false; true] [].

Definition baseline_failing : World Baseline.Store :=
  mkWorld [Sample.rioja] 1000 [true] [].

Definition syrah : Request := Sample.with_body (Sample.new_wine "Syrah 2020").

Definition second_merlot : Request :=
  Sample.with_body (wine_body "Merlot Reserve" "Another one" "Merlot").

Definition terse : Request := Sample.with_body (wine_body "Terse" " x " "Gamay").

Definition by_id (i : string) (body : list (string * jsval)) : Request :=
  mkRequest [] [] i body.

Definition carol : Request :=
  Sample.with_body [("username", JStr "carol"); ("password", JStr "opensesame")].

Definition with_token (token : string) (body : list (string * jsval))
    : Request :=
  mkRequest [("authorization", token)] [] "" body.

End Probe.

(** * Properties *)

Unset Implicit Arguments.

(** ** The monad and the store *)

Lemma bind_ok {D A B} (m : M D A) (k : A -> M D B) w {a w'} :
  m w = (Ok a, w') -> bind m k w = k a w'.
Proof. intros E. unfold bind. rewrite E. reflexivity. Qed.

Lemma bind_throw {D A B} (m : M D A) (k : A -> M D B) w {e w'} :
  m w = (Throw e, w') -> bind m k w = (Throw e, w').
Proof. intros E. unfold bind. rewrite E. reflexivity. Qed.

Lemma try_ok {D A} (m : M D A) h w {a w'} :
  m w = (Ok a, w') -> try_catch m h w = (Ok a, w').
Proof. intros E. unfold try_catch. rewrite E. reflexivity. Qed.

Lemma try_throw {D A} (m : M D A) h w {e w'} :
  m w = (Throw e, w') -> try_catch m h w = h e w'.
Proof. intros E. unfold try_catch. rewrite E. reflexivity. Qed.

Lemma enter_run {D} c (w : World D) : enter c w = (Ok tt, entered c w).
Proof. reflexivity. Qed.

Lemma store_call_succeeds {D} model op (w : World D) :
  hd false (faults w) = false ->
  store_call model op w = (Ok tt, after_call model op w).
Proof.
  unfold store_call, after_call. destruct (faults w) as [|[|] fs]; simpl;
    intros E; try discriminate; reflexivity.
Qed.

Lemma store_call_fails {D} model op (w : World D) :
  hd false (faults w) = true ->
  store_call model op w = (Throw StoreError, after_call model op w).
Proof.
  unfold store_call, after_call. destruct (faults w) as [|[|] fs]; simpl;
    intros E; try discriminate; reflexivity.
Qed.

Lemma healthy_next {D} (w : World D) :
  healthy w = true -> hd false (faults w) = false.
Proof.
  unfold healthy. destruct (faults w) as [|[|] fs]; simpl; intros E;
    try discriminate; reflexivity.
Qed.

Lemma healthy_after_call {D} model op (w : World D) :
  healthy w = true -> healthy (after_call model op w) = true.
Proof.
  unfold healthy. simpl. destruct (faults w) as [|b fs]; simpl; auto.
  intros E. apply andb_true_iff in E. tauto.
Qed.

Lemma store_call_healthy {D} model op (w : World D) :
  healthy w = true ->
  store_call model op w = (Ok tt, after_call model op w).
Proof. intros E. apply store_call_succeeds, healthy_next, E. Qed.

Create HintDb store.
#[local] Hint Resolve healthy_after_call healthy_next : store.

(** ** Finding documents *)

Lemma find_none_iff {A} (f : A -> bool) l :
  List.find f l = None <-> forall x, In x l -> f x = false.
Proof.
  induction l as [|a l IH]; simpl.
  - split; [intros _ x [] | reflexivity].
  - destruct (f a) eqn:E.
    + split; [discriminate |].
      intros F. rewrite (F a) in E by auto. discriminate.
    + rewrite IH. split.
      * intros F x [<-|I]; auto.
      * intros F x I. apply F. auto.
Qed.

Lemma no_user_has_token (t : option string) (l : list User.doc) :
  (forall u, In u l -> Some (User.accessToken u) <> t) ->
  List.find (User.by_accessToken t) l = None.
Proof.
  intros F. apply find_none_iff. intros u I. specialize (F u I).
  unfold User.by_accessToken. destruct t as [s|]; [|reflexivity].
  destruct (String.eqb_spec (User.accessToken u) s); [|reflexivity].
  subst. contradiction F. reflexivity.
Qed.

Lemma User_findOne_succeeds f (w : World Store) :
  hd false (faults w) = false ->
  User_findOne f w =
  (Ok (List.find f (users (db w))), after_call "User" "findOne" w).
Proof.
  intros E. unfold User_findOne.
  rewrite (bind_ok _ _ _ (store_call_succeeds _ _ _ E)). reflexivity.
Qed.

Lemma User_findOne_fails f (w : World Store) :
  hd false (faults w) = true ->
  User_findOne f w = (Throw StoreError, after_call "User" "findOne" w).
Proof.
  intros E. unfold User_findOne.
  rewrite (bind_throw _ _ _ (store_call_fails _ _ _ E)). reflexivity.
Qed.

(** ** The authentication gate *)

(** What [authenticateUser] does when it rejects: one lookup, and 401. *)
Lemma authenticateUser_rejects req (w : World Store) :
  hd false (faults w) = true \/
  List.find (User.by_accessToken (header req "Authorization")) (users (db w))
  = None ->
  exists p,
    authenticateUser req w =
    (Ok (Sent (mkReply 401 (Msg false p None))),
     after_call "User" "findOne" (entered "authenticateUser" w)).
Proof.
  intros C. unfold authenticateUser.
  rewrite (bind_ok _ _ _ (enter_run _ _)).
  destruct (hd false (faults w)) eqn:F.
  - exists (PError StoreError).
    erewrite try_throw; [reflexivity|].
    apply bind_throw. apply User_findOne_fails. exact F.
  - destruct C as [C|C]; [discriminate|].
    exists (PText "Not authorized").
    erewrite try_ok; [reflexivity|].
    erewrite bind_ok by (apply User_findOne_succeeds; exact F).
    simpl. rewrite C. reflexivity.
Qed.

(** C1. On [GET /secrets] and [POST /secrets], when the lookup of the
    token fails in the store, or the [Authorization] header (absent or
    present) equals no stored user's [accessToken], the answer is 401;
    the store is unchanged, and all that ran is the gate and its one
    lookup: the callback behind the gate was not entered. *)
Theorem gate_rejects_unknown_credentials :
  forall (L : Libraries) env m req (w : World Store),
    m = GET \/ m = POST ->
    hd false (faults w) = true \/
    (forall u, In u (users (db w)) ->
       Some (User.accessToken u) <> header req "Authorization") ->
    exists p w',
      serve env m secrets_ req w =
      (Responded (mkReply 401 (Msg false p None)), w') /\
      db w' = db w /\
      trace w' =
      trace w ++ [Enter "authenticateUser"; Call "User" "findOne"].
Proof.
  intros L env m req w Hm C.
  destruct (authenticateUser_rejects req w) as [p E].
  { destruct C as [C|C]; [left; exact C | right].
    apply no_user_has_token, C. }
  exists p, (after_call "User" "findOne" (entered "authenticateUser" w)).
  split; [| split].
  - destruct Hm; subst m; unfold serve, callbacks, dispatch; rewrite E;
      reflexivity.
  - reflexivity.
  - simpl. rewrite <- app_assoc. reflexivity.
Qed.

Lemma authenticateUser_admits req (w : World Store) {u} :
  hd false (faults w) = false ->
  List.find (User.by_accessToken (header req "Authorization")) (users (db w))
  = Some u ->
  authenticateUser req w =
  (Ok Next, after_call "User" "findOne" (entered "authenticateUser" w)).
Proof.
  intros F E. unfold authenticateUser.
  rewrite (bind_ok _ _ _ (enter_run _ _)).
  erewrite try_ok; [reflexivity|].
  erewrite bind_ok by (apply User_findOne_succeeds; exact F).
  simpl. rewrite E. reflexivity.
Qed.

(** ** Secrets *)

Lemma Secret_find_healthy f (w : World Store) :
  healthy w = true ->
  Secret_find f w =
  (Ok (List.filter f (secrets (db w))), after_call "Secret" "find" w).
Proof.
  intros E. unfold Secret_find.
  rewrite (bind_ok _ _ _ (store_call_healthy _ _ _ E)). reflexivity.
Qed.

Lemma Secret_save_healthy {L : Libraries} env message owner (w : World Store) :
  healthy w = true ->
  owner <> "" ->
  existsb (fun d' => String.eqb (Secret._id d') (newObjectId env))
    (secrets (db w)) = false ->
  let d := Secret.mk (newObjectId env) (castString message) (now env) owner in
  Secret_save env message owner w =
  (Ok d,
   mkWorld (set_secrets (secrets (db w) ++ [d]) (db w)) (schemaLoadedAt w)
     (tl (faults w)) (trace w ++ [Call "Secret" "insertOne"])).
Proof.
  intros E N F d. unfold Secret_save, Secret.new, ObjectId in *.
  assert (R : required (Some owner) = true).
  { simpl. destruct (String.eqb_spec owner ""); [contradiction|reflexivity]. }
  rewrite R. simpl check. simpl validated. simpl lift_result.
  rewrite (bind_ok _ _ _ (eq_refl : ret _ w = (Ok d, w))).
  rewrite (bind_ok _ _ _ (store_call_healthy _ _ _ E)).
  unfold bind, get_db, Secret.insert. simpl.
  fold d. rewrite F. reflexivity.
Qed.

(** An authenticated [POST /secrets]: the secret is stored, and the
    request is left without an answer. *)
Lemma post_secrets_persists {L : Libraries} env req (w : World Store) {u} :
  healthy w = true ->
  List.find (User.by_accessToken (header req "Authorization")) (users (db w))
  = Some u ->
  User._id u <> "" ->
  existsb (fun d' => String.eqb (Secret._id d') (newObjectId env))
    (secrets (db w)) = false ->
  exists w',
    serve env POST secrets_ req w = (NoResponse, w') /\
    healthy w' = true /\
    db w' =
    set_secrets
      (secrets (db w) ++
       [Secret.mk (newObjectId env) (castString (field "message" (body req)))
          (now env) (User._id u)])
      (db w).
Proof.
  intros E U N F.
  unfold serve, callbacks, dispatch.
  rewrite (authenticateUser_admits req w (healthy_next _ E) U).
  set (w1 := after_call "User" "findOne" (entered "authenticateUser" w)).
  assert (E1 : healthy w1 = true) by (subst w1; auto with store).
  unfold post_secrets.
  rewrite (bind_ok _ _ _ (enter_run _ _)).
  set (w2 := entered "POST /secrets" w1).
  assert (E2 : healthy w2 = true) by exact E1.
  erewrite bind_ok
    by (apply User_findOne_succeeds; auto with store).
  change (users (db w2)) with (users (db w)). rewrite U.
  set (w3 := after_call "User" "findOne" w2).
  assert (E3 : healthy w3 = true) by (subst w3; auto with store).
  erewrite bind_ok by (apply Secret_save_healthy; [exact E3 | exact N | exact F]).
  eexists. split; [reflexivity|]. split; [|reflexivity].
  unfold healthy. simpl.
  apply (healthy_after_call "Secret" "insertOne" w3 E3).
Qed.

(** An authenticated [GET /secrets]: the caller's secrets, in store
    order. *)
Lemma get_secrets_lists {L : Libraries} env req (w : World Store) {u} :
  healthy w = true ->
  List.find (User.by_accessToken (header req "Authorization")) (users (db w))
  = Some u ->
  exists w',
    serve env GET secrets_ req w =
    (Responded
       (mkReply 200
          (Msg true
             (PSecrets
                (List.filter (Secret.by_user (User._id u)) (secrets (db w))))
             None)),
     w').
Proof.
  intros E U.
  unfold serve, callbacks, dispatch.
  rewrite (authenticateUser_admits req w (healthy_next _ E) U).
  set (w1 := after_call "User" "findOne" (entered "authenticateUser" w)).
  assert (E1 : healthy w1 = true) by (subst w1; auto with store).
  unfold get_secrets.
  rewrite (bind_ok _ _ _ (enter_run _ _)).
  set (w2 := entered "GET /secrets" w1).
  assert (E2 : healthy w2 = true) by exact E1.
  erewrite bind_ok
    by (apply User_findOne_succeeds; auto with store).
  change (users (db w2)) with (users (db w)). rewrite U.
  set (w3 := after_call "User" "findOne" w2).
  assert (E3 : healthy w3 = true) by (subst w3; auto with store).
  erewrite bind_ok by (apply Secret_find_healthy; exact E3).
  eexists. reflexivity.
Qed.

Lemma by_user_spec owner d :
  Secret.by_user owner d = true <-> Secret.user d = owner.
Proof. unfold Secret.by_user. apply String.eqb_eq. Qed.

(** C2. An authenticated [GET /secrets] answers 200 with exactly the
    stored secrets whose [user] is the id of the user the token resolves
    to.  After an authenticated [POST /secrets] with message [m], a
    [GET /secrets] with the same credential lists a secret with message
    [m], and again only secrets of that user. *)
Theorem secrets_are_those_of_the_caller :
  forall (L : Libraries) env req (w : World Store) u,
    healthy w = true ->
    List.find (User.by_accessToken (header req "Authorization")) (users (db w))
    = Some u ->
    (exists l w',
        serve env GET secrets_ req w =
        (Responded (mkReply 200 (Msg true (PSecrets l) None)), w') /\
        forall s, In s l <->
          In s (secrets (db w)) /\ Secret.user s = User._id u) /\
    (forall env' req' m,
        field "message" (body req) = JStr m ->
        User._id u <> "" ->
        existsb (fun d' => String.eqb (Secret._id d') (newObjectId env))
          (secrets (db w)) = false ->
        header req' "Authorization" = header req "Authorization" ->
        exists w1 l w2,
          serve env POST secrets_ req w = (NoResponse, w1) /\
          serve env' GET secrets_ req' w1 =
          (Responded (mkReply 200 (Msg true (PSecrets l) None)), w2) /\
          (exists s, In s l /\ Secret.message s = Some m) /\
          (forall s, In s l -> Secret.user s = User._id u)).
Proof.
  intros L env req w u E U. split.
  - destruct (get_secrets_lists env req w E U) as [w' G].
    eexists. exists w'. split; [exact G|].
    intros s. rewrite filter_In, by_user_spec. reflexivity.
  - intros env' req' m Hm N F Hh.
    destruct (post_secrets_persists env req w E U N F) as [w1 [P [E1 D1]]].
    assert (U1 : List.find (User.by_accessToken (header req' "Authorization"))
                   (users (db w1)) = Some u).
    { rewrite D1, Hh. exact U. }
    destruct (get_secrets_lists env' req' w1 E1 U1) as [w2 G].
    exists w1. eexists. exists w2. split; [exact P|]. split; [exact G|].
    split.
    + eexists. split.
      * apply filter_In. split.
        -- rewrite D1. simpl. apply in_or_app. right. left. reflexivity.
        -- apply by_user_spec. reflexivity.
      * simpl. rewrite Hm. reflexivity.
    + intros s I. apply filter_In in I. apply by_user_spec, I.
Qed.

(** C9. An authenticated [POST /secrets] stores a secret with the
    message of the body, owned by the caller; the callback then returns
    without sending anything: the request gets no answer, and no 201. *)
Theorem post_secrets_stores_and_stays_silent :
  forall (L : Libraries) env req (w : World Store) u,
    healthy w = true ->
    List.find (User.by_accessToken (header req "Authorization")) (users (db w))
    = Some u ->
    User._id u <> "" ->
    existsb (fun d' => String.eqb (Secret._id d') (newObjectId env))
      (secrets (db w)) = false ->
    exists w',
      serve env POST secrets_ req w = (NoResponse, w') /\
      secrets (db w') =
      secrets (db w) ++
      [Secret.mk (newObjectId env) (castString (field "message" (body req)))
         (now env) (User._id u)] /\
      forall r, fst (serve env POST secrets_ req w) <> Responded r.
Proof.
  intros L env req w u E U N F.
  destruct (post_secrets_persists env req w E U N F) as [w' [P [_ D]]].
  exists w'. split; [exact P|]. split.
  - rewrite D. reflexivity.
  - intros r. rewrite P. simpl. discriminate.
Qed.

(** ** Accounts *)

Lemma nonempty_of_length (s : string) n :
  (S n <= String.length s)%nat -> String.eqb s "" = false.
Proof. destruct s; simpl; [lia | reflexivity]. Qed.

Lemma existsb_false_iff {A} (f : A -> bool) l :
  existsb f l = false <-> forall x, In x l -> f x = false.
Proof.
  induction l as [|a l IH]; simpl.
  - split; [intros _ x [] | reflexivity].
  - rewrite orb_false_iff, IH. split.
    + intros [Ea F] x [<-|I]; auto.
    + intros F. split; [apply F; auto | intros x I; apply F; auto].
Qed.

Lemma User_save_healthy {L : Libraries} env name hashed (w : World Store) :
  healthy w = true ->
  (2 <= String.length name <= 20)%nat ->
  (5 <= String.length hashed)%nat ->
  (forall u, In u (users (db w)) ->
     User._id u <> newObjectId env /\ User.username u <> name) ->
  let d := User.mk (newObjectId env) name hashed (randomBytes env) in
  User_save env (JStr name) hashed w =
  (Ok d,
   mkWorld (set_users (users (db w) ++ [d]) (db w)) (schemaLoadedAt w)
     (tl (faults w)) (trace w ++ [Call "User" "insertOne"])).
Proof.
  intros E [Lo Hi] Hp Fr d. unfold User_save, User.new.
  simpl castString. unfold required, minlength, maxlength.
  rewrite (nonempty_of_length name 1 Lo), (nonempty_of_length hashed 4) by lia.
  apply Nat.leb_le in Lo, Hi, Hp. rewrite Lo, Hi, Hp.
  simpl check. simpl validated. simpl lift_result. fold d.
  rewrite (bind_ok _ _ _ (eq_refl : ret _ w = (Ok d, w))).
  rewrite (bind_ok _ _ _ (store_call_healthy _ _ _ E)).
  unfold bind, get_db, User.insert. simpl.
  assert (F1 : existsb (fun d' => String.eqb (User._id d') (newObjectId env))
                 (users (db w)) = false).
  { apply existsb_false_iff. intros x I. apply String.eqb_neq, (Fr x I). }
  assert (F2 : existsb (fun d' => String.eqb (User.username d') name)
                 (users (db w)) = false).
  { apply existsb_false_iff. intros x I. apply String.eqb_neq, (Fr x I). }
  rewrite F1, F2. reflexivity.
Qed.

(** C3. A [POST /register] whose password is shorter than 5 characters
    succeeds whenever the username is acceptable: the [minlength: 5] of
    the schema is checked on the 60 character hash.  The user is stored,
    with the hash of the password in its [password] field, and the answer
    is 201. *)
Theorem register_accepts_short_passwords :
  forall (L : Libraries) env req (w : World Store) name p,
    hashes_have_60_characters L ->
    healthy w = true ->
    field "username" (body req) = JStr name ->
    (2 <= String.length name <= 20)%nat ->
    field "password" (body req) = JStr p ->
    (String.length p < 5)%nat ->
    (forall u, In u (users (db w)) ->
       User._id u <> newObjectId env /\ User.username u <> name) ->
    exists w',
      serve env POST register req w =
      (Responded
         (mkReply 201
            (Msg true (PAccount name (newObjectId env) (randomBytes env)) None)),
       w') /\
      users (db w') =
      users (db w) ++
      [User.mk (newObjectId env) name (bcrypt_hash p (genSalt env))
         (randomBytes env)].
Proof.
  intros L env req w name p H60 E Hn Len Hp Short Fr.
  unfold serve, callbacks, dispatch, post_register.
  rewrite (bind_ok _ _ _ (enter_run _ _)).
  rewrite Hn, Hp. simpl bcrypt_hashSync.
  erewrite try_ok.
  2:{ rewrite (bind_ok _ _ _ (eq_refl : ret _ _ = (Ok _, _))).
      erewrite bind_ok; [reflexivity|].
      apply User_save_healthy;
        [exact E | exact Len | rewrite H60; lia | exact Fr]. }
  eexists. split; reflexivity.
Qed.

Lemma no_user_has_name (c : option string) (l : list User.doc) :
  (forall u, In u l -> Some (User.username u) <> c) ->
  List.find (User.by_username c) l = None.
Proof.
  intros F. apply find_none_iff. intros u I. specialize (F u I).
  unfold User.by_username. destruct c as [s|]; [|reflexivity].
  destruct (String.eqb_spec (User.username u) s); [|reflexivity].
  subst. contradiction F. reflexivity.
Qed.

(** The three ways [POST /login] ends without a token. *)
Lemma login_unknown_user {L : Libraries} env req (w : World Store) :
  healthy w = true ->
  List.find (User.by_username (castString (field "username" (body req))))
    (users (db w)) = None ->
  serve env POST login req w =
  (Responded (mkReply 404 (Msg false (PText "User not found") None)),
   after_call "User" "findOne" (entered "POST /login" w)).
Proof.
  intros E U. unfold serve, callbacks, dispatch, post_login.
  rewrite (bind_ok _ _ _ (enter_run _ _)).
  erewrite try_ok.
  2:{ erewrite bind_ok
        by (apply User_findOne_succeeds; auto with store).
      simpl. rewrite U. reflexivity. }
  reflexivity.
Qed.

Lemma login_wrong_password {L : Libraries} env req (w : World Store) {u p} :
  healthy w = true ->
  List.find (User.by_username (castString (field "username" (body req))))
    (users (db w)) = Some u ->
  field "password" (body req) = JStr p ->
  bcrypt_compare p (User.password u) = false ->
  serve env POST login req w =
  (Responded (mkReply 404 (Msg false (PText "User not found") None)),
   after_call "User" "findOne" (entered "POST /login" w)).
Proof.
  intros E U Hp C. unfold serve, callbacks, dispatch, post_login.
  rewrite (bind_ok _ _ _ (enter_run _ _)).
  erewrite try_ok.
  2:{ erewrite bind_ok
        by (apply User_findOne_succeeds; auto with store).
      simpl. rewrite U, Hp. simpl bcrypt_compareSync.
      rewrite (bind_ok _ _ _ (eq_refl : ret _ _ = (Ok _, _))).
      rewrite C. reflexivity. }
  reflexivity.
Qed.

Lemma login_no_password {L : Libraries} env req (w : World Store) {u} :
  healthy w = true ->
  List.find (User.by_username (castString (field "username" (body req))))
    (users (db w)) = Some u ->
  (forall s, field "password" (body req) <> JStr s) ->
  serve env POST login req w =
  (Responded (mkReply 500 (Msg false (PError BcryptError) None)),
   after_call "User" "findOne" (entered "POST /login" w)).
Proof.
  intros E U Hp. unfold serve, callbacks, dispatch, post_login.
  rewrite (bind_ok _ _ _ (enter_run _ _)).
  erewrite try_throw.
  2:{ erewrite bind_ok
        by (apply User_findOne_succeeds; auto with store).
      simpl. rewrite U.
      apply bind_throw.
      destruct (field "password" (body req)) as [| | b | q | s];
        try reflexivity.
      contradiction (Hp s). reflexivity. }
  reflexivity.
Qed.

(** C6. On [POST /login], a request naming a stored user with a password
    that does not verify, and a request whose username names no stored
    user, get the same answer, 404 with ['User not found'], and leave the
    same world behind. *)
Theorem login_failures_look_alike :
  forall (L : Libraries) env reqA reqB (w : World Store) name u p,
    healthy w = true ->
    field "username" (body reqA) = JStr name ->
    List.find (User.by_username (Some name)) (users (db w)) = Some u ->
    field "password" (body reqA) = JStr p ->
    bcrypt_compare p (User.password u) = false ->
    (forall u', In u' (users (db w)) ->
       Some (User.username u') <> castString (field "username" (body reqB))) ->
    serve env POST login reqA w = serve env POST login reqB w /\
    fst (serve env POST login reqA w) =
    Responded (mkReply 404 (Msg false (PText "User not found") None)).
Proof.
  intros L env reqA reqB w name u p E Hn U Hp C No.
  assert (UA : List.find
                 (User.by_username (castString (field "username" (body reqA))))
                 (users (db w)) = Some u).
  { rewrite Hn. exact U. }
  rewrite (login_wrong_password env reqA w E UA Hp C).
  rewrite (login_unknown_user env reqB w E (no_user_has_name _ _ No)).
  split; reflexivity.
Qed.

(** C10. On [POST /login], when the username names a stored user and the
    body's [password] is absent or is not a string, bcrypt throws and the
    answer is 500; the same username with a string password that does not
    verify gets 404. *)
Theorem login_without_password_is_a_server_error :
  forall (L : Libraries) env req (w : World Store) name u,
    healthy w = true ->
    field "username" (body req) = JStr name ->
    List.find (User.by_username (Some name)) (users (db w)) = Some u ->
    (forall s, field "password" (body req) <> JStr s) ->
    fst (serve env POST login req w) =
    Responded (mkReply 500 (Msg false (PError BcryptError) None)) /\
    forall req' p,
      field "username" (body req') = JStr name ->
      field "password" (body req') = JStr p ->
      bcrypt_compare p (User.password u) = false ->
      fst (serve env POST login req' w) =
      Responded (mkReply 404 (Msg false (PText "User not found") None)) /\
      fst (serve env POST login req' w) <> fst (serve env POST login req w).
Proof.
  intros L env req w name u E Hn U Hp.
  assert (UA : List.find
                 (User.by_username (castString (field "username" (body req))))
                 (users (db w)) = Some u).
  { rewrite Hn. exact U. }
  rewrite (login_no_password env req w E UA Hp).
  split; [reflexivity|].
  intros req' p Hn' Hp' C.
  assert (UB : List.find
                 (User.by_username (castString (field "username" (body req'))))
                 (users (db w)) = Some u).
  { rewrite Hn'. exact U. }
  rewrite (login_wrong_password env req' w E UB Hp' C).
  split; [reflexivity | simpl; discriminate].
Qed.

(** ** The wine list and its filters *)

Lemma Qgtb_spec p t : Qgtb p t = true <-> (t < p)%Q.
Proof.
  unfold Qgtb. rewrite Qlt_alt.
  destruct (t ?= p)%Q; split; intros E; try discriminate; reflexivity.
Qed.

Lemma matches_spec r t d :
  Wine.matches r t d = true <->
  r (Wine.variety d) = true /\ priced_above t d.
Proof.
  unfold Wine.matches, priced_above. rewrite andb_true_iff.
  destruct (Wine.price d) as [p|].
  - rewrite Qgtb_spec. split.
    + intros [Hr Hp]. split; [exact Hr|]. exists p. split; [reflexivity|exact Hp].
    + intros [Hr [p' [Ep Hp]]]. injection Ep as <-. split; assumption.
  - split.
    + intros [_ F]. discriminate.
    + intros [_ [p' [Ep _]]]. discriminate.
Qed.

Lemma threshold_cast {L : Libraries} price t :
  threshold price t ->
  castNumber "price" (price_or_zero price) = Ok (Some t).
Proof.
  intros [| | s t' N E]; try reflexivity.
  unfold price_or_zero. apply String.eqb_neq in N. rewrite N.
  simpl. rewrite N, E. reflexivity.
Qed.

(** [GET /wines] once the pattern is compiled and the threshold cast:
    the wines that match both. *)
Lemma get_wines_lists {L : Libraries} env req (w : World Store) r t :
  healthy w = true ->
  (forall w0 : World Store,
     new_RegExp (lookup "variety" (query req)) w0 = (Ok r, w0)) ->
  threshold (lookup "price" (query req)) t ->
  lists_wines env req w (List.filter (Wine.matches r t) (wines (db w))).
Proof.
  intros E R T. unfold lists_wines, serve, callbacks, dispatch, get_wines.
  rewrite (bind_ok _ _ _ (enter_run _ _)).
  rewrite (bind_ok _ _ _ (R _)).
  erewrite try_ok.
  2:{ erewrite bind_ok; [reflexivity|].
      unfold Wine_find. rewrite (threshold_cast _ _ T). simpl lift_result.
      rewrite (bind_ok _ _ _ (eq_refl : ret _ _ = (Ok _, _))).
      erewrite bind_ok by (apply store_call_healthy; exact E).
      reflexivity. }
  eexists. reflexivity.
Qed.

Lemma filter_matches_spec r t l d :
  In d (List.filter (Wine.matches r t) l) <->
  In d l /\ r (Wine.variety d) = true /\ priced_above t d.
Proof. rewrite filter_In, matches_spec. reflexivity. Qed.

(** A [variety] that is not a regular expression makes the constructor
    throw before the [try]: the request gets no answer, and the store is
    not asked. *)
Lemma get_wines_invalid_pattern {L : Libraries} env req (w : World Store) s :
  lookup "variety" (query req) = Some s ->
  RegExp_new s = None ->
  serve env GET wines_ req w = (Unhandled SyntaxError, entered "GET /wines" w).
Proof.
  intros V C. unfold serve, callbacks, dispatch, get_wines.
  rewrite (bind_ok _ _ _ (enter_run _ _)).
  erewrite bind_throw; [reflexivity|].
  rewrite V. simpl. rewrite C. reflexivity.
Qed.

(** A [price] that is not a number fails the cast of the filter: 500. *)
Lemma get_wines_invalid_price {L : Libraries} env req (w : World Store) s :
  lookup "variety" (query req) = None ->
  lookup "price" (query req) = Some s ->
  s <> "" -> Number_ofString s = None ->
  serve env GET wines_ req w =
  (Responded (mkReply 500 (Search false PNothing)), entered "GET /wines" w).
Proof.
  intros V P N C. unfold serve, callbacks, dispatch, get_wines.
  rewrite (bind_ok _ _ _ (enter_run _ _)).
  rewrite V. unfold new_RegExp.
  rewrite (bind_ok _ _ _ (eq_refl : ret _ _ = (Ok _, _))).
  erewrite try_throw.
  2:{ apply bind_throw. unfold Wine_find. apply bind_throw.
      rewrite P. unfold price_or_zero. apply String.eqb_neq in N. rewrite N.
      simpl. rewrite N, C. reflexivity. }
  reflexivity.
Qed.

(** On [GET /wines] without a [variety] parameter and with a numeric
    [price] parameter [t], the answer is exactly the stored wines that
    have a price strictly greater than [t]. *)
Lemma price_filter_is_strictly_greater {L : Libraries} env req
    (w : World Store) s t :
  healthy w = true ->
  lookup "variety" (query req) = None ->
  lookup "price" (query req) = Some s ->
  s <> "" -> Number_ofString s = Some t ->
  exists l, lists_wines env req w l /\
    forall d, In d l <-> In d (wines (db w)) /\ priced_above t d.
Proof.
  intros E V P N C.
  assert (R : forall w0 : World Store,
             new_RegExp (lookup "variety" (query req)) w0
             = (Ok (fun _ : string => true), w0)).
  { intros w0. rewrite V. reflexivity. }
  assert (T : threshold (lookup "price" (query req)) t).
  { rewrite P. constructor; assumption. }
  eexists. split; [exact (get_wines_lists env req w _ t E R T)|].
  intros d. rewrite filter_matches_spec. tauto.
Qed.

(** C4. On [GET /wines] with no parameter at all - the request for all
    the wines - a stored wine that has no price is not in the answer:
    the filter [{ price: { $gt: 0 } }] that stands for "no threshold"
    matches no document without the field.  The request is answered 200
    with a list, and the wine is missing from it. *)
Theorem wine_list_omits_unpriced_wines :
  forall (L : Libraries) env req (w : World Store) d,
    healthy w = true ->
    lookup "variety" (query req) = None ->
    lookup "price" (query req) = None ->
    In d (wines (db w)) ->
    Wine.price d = None ->
    exists l, lists_wines env req w l /\ ~ In d l.
Proof.
  intros L env req w d E V P I N.
  assert (R : forall w0 : World Store,
             new_RegExp (lookup "variety" (query req)) w0
             = (Ok (fun _ : string => true), w0)).
  { intros w0. rewrite V. reflexivity. }
  assert (T : threshold (lookup "price" (query req)) 0%Q).
  { rewrite P. constructor. }
  eexists. split; [exact (get_wines_lists env req w _ 0%Q E R T)|].
  intros F. apply filter_matches_spec in F.
  destruct F as [_ [_ [p [Hp _]]]]. rewrite N in Hp. discriminate Hp.
Qed.

(** C5 (amended). On [GET /wines] with a [variety] parameter [s] that
    is a regular expression, [s] is read as a pattern: every wine of the
    answer is a stored wine whose variety matches [s], and every stored
    wine whose variety matches [s] and whose price is strictly greater
    than the threshold (the [price] parameter, 0 without one) is in the
    answer.  With a [price] parameter the two filters are conjoined: the
    answer is exactly the stored wines whose variety matches [s] and whose
    price is strictly greater than it.  When [s] has no metacharacter, a
    variety matches when it contains [s] as a substring. *)
Theorem variety_filter_is_a_pattern_match :
  forall (L : Libraries) env req (w : World Store) s r t,
    healthy w = true ->
    lookup "variety" (query req) = Some s ->
    RegExp_new s = Some r ->
    threshold (lookup "price" (query req)) t ->
    exists l, lists_wines env req w l /\
      (forall d, In d l ->
         In d (wines (db w)) /\ r (Wine.variety d) = true) /\
      (forall d, In d (wines (db w)) ->
         r (Wine.variety d) = true -> priced_above t d -> In d l) /\
      (forall p, lookup "price" (query req) = Some p -> p <> "" ->
       forall d, In d l <->
         In d (wines (db w)) /\ r (Wine.variety d) = true /\
         priced_above t d) /\
      (literals_match_substrings L -> literal_pattern s = true ->
       forall v, r v = includes s v).
Proof.
  intros L env req w s r t E V C T.
  assert (R : forall w0 : World Store,
             new_RegExp (lookup "variety" (query req)) w0 = (Ok r, w0)).
  { intros w0. rewrite V. simpl. rewrite C. reflexivity. }
  eexists. split; [exact (get_wines_lists env req w r t E R T)|].
  split; [| split; [| split]].
  - intros d I. apply filter_matches_spec in I. tauto.
  - intros d I M P. apply filter_matches_spec. tauto.
  - intros p _ _ d. apply filter_matches_spec.
  - intros Law Lit v.
    destruct (Law s Lit) as [r' [C' Hr]].
    rewrite C in C'. injection C' as <-. apply Hr.
Qed.

(** ** The partial update *)

Lemma findById_updateOne oid f l d :
  (forall x, Wine._id (f x) = Wine._id x) ->
  Wine.findById oid l = Some d ->
  Wine.findById oid (Wine.updateOne oid f l) = Some (f d).
Proof.
  intros Id. unfold Wine.findById.
  induction l as [|a l IH]; simpl; [discriminate|].
  destruct (Wine.has_id oid a) eqn:E.
  - intros [= <-]. simpl. unfold Wine.has_id in *. rewrite Id, E. reflexivity.
  - intros F. simpl. rewrite E. apply IH, F.
Qed.

Lemma findById_updateOne_other oid oid' f l :
  (forall x, Wine._id (f x) = Wine._id x) ->
  oid' <> oid ->
  Wine.findById oid' (Wine.updateOne oid f l) = Wine.findById oid' l.
Proof.
  intros Id N. unfold Wine.findById.
  induction l as [|a l IH]; simpl; [reflexivity|].
  destruct (Wine.has_id oid a) eqn:E; simpl.
  - unfold Wine.has_id in *. apply String.eqb_eq in E.
    assert (X : String.eqb (Wine._id a) oid' = false)
      by (apply String.eqb_neq; congruence).
    rewrite Id, X. reflexivity.
  - rewrite IH. reflexivity.
Qed.

Lemma baseline_findById_updateOne oid f l d :
  (forall x, Baseline.Wine._id (f x) = Baseline.Wine._id x) ->
  Baseline.Wine.findById oid l = Some d ->
  Baseline.Wine.findById oid (Baseline.Wine.updateOne oid f l) = Some (f d).
Proof.
  intros Id. unfold Baseline.Wine.findById.
  induction l as [|a l IH]; simpl; [discriminate|].
  destruct (Baseline.Wine.has_id oid a) eqn:E.
  - intros [= <-]. simpl. unfold Baseline.Wine.has_id in *.
    rewrite Id, E. reflexivity.
  - intros F. simpl. rewrite E. apply IH, F.
Qed.

Lemma baseline_findById_updateOne_other oid oid' f l :
  (forall x, Baseline.Wine._id (f x) = Baseline.Wine._id x) ->
  oid' <> oid ->
  Baseline.Wine.findById oid' (Baseline.Wine.updateOne oid f l)
  = Baseline.Wine.findById oid' l.
Proof.
  intros Id N. unfold Baseline.Wine.findById.
  induction l as [|a l IH]; simpl; [reflexivity|].
  destruct (Baseline.Wine.has_id oid a) eqn:E; simpl.
  - unfold Baseline.Wine.has_id in *. apply String.eqb_eq in E.
    assert (X : String.eqb (Baseline.Wine._id a) oid' = false)
      by (apply String.eqb_neq; congruence).
    rewrite Id, X. reflexivity.
  - rewrite IH. reflexivity.
Qed.

(** [PATCH /wines/:id] on a stored wine, in the server with users. *)
Lemma patch_frame {L : Libraries} env req (w : World Store) oid d :
  healthy w = true ->
  ObjectId_cast (id req) = Some oid ->
  Wine.findById oid (wines (db w)) = Some d ->
  exists d' w',
    serve env PATCH wines_id req w =
    (Responded
       (mkReply 200 (Msg true (PWine (Some d')) (Some "Updated successfully"))),
     w') /\
    Wine.findById oid (wines (db w')) = Some d' /\
    same_but_description d d' /\
    (forall s, field "newDescription" (body req) = JStr s ->
       Wine.description d' = Some (trim s)) /\
    (forall oid', oid' <> oid ->
       Wine.findById oid' (wines (db w')) = Wine.findById oid' (wines (db w))) /\
    users (db w') = users (db w) /\
    secrets (db w') = secrets (db w).
Proof.
  intros E C F.
  set (v := field "newDescription" (body req)).
  set (f := match v with
            | JUndefined => fun x : Wine.doc => x
            | _ => Wine.set_description (option_map trim (castString v))
            end).
  assert (Id : forall x, Wine._id (f x) = Wine._id x).
  { intros x. unfold f. destruct v; reflexivity. }
  exists (f d). eexists. split; [| split; [| split; [| split; [| split]]]].
  - unfold serve, callbacks, dispatch, patch_wines_id.
    rewrite (bind_ok _ _ _ (enter_run _ _)).
    erewrite try_ok.
    2:{ erewrite bind_ok; [reflexivity|].
        unfold Wine_findByIdAndUpdate, castObjectId. rewrite C.
        simpl lift_result.
        rewrite (bind_ok _ _ _ (eq_refl : ret _ _ = (Ok _, _))).
        erewrite bind_ok by (apply store_call_healthy; exact E).
        unfold bind, get_db, put_db, ret. simpl.
        fold v. fold f.
        rewrite (findById_updateOne oid f _ d Id F). reflexivity. }
    reflexivity.
  - simpl. apply findById_updateOne; assumption.
  - unfold same_but_description, f. destruct v; simpl; repeat split.
  - intros s Hs. unfold f. fold v in Hs. rewrite Hs. reflexivity.
  - intros oid' N. simpl. apply findById_updateOne_other; assumption.
  - split; reflexivity.
Qed.

(** The same route in the baseline server. *)
Lemma baseline_patch_frame {L : Libraries} env req
    (w : World Baseline.Store) oid d :
  healthy w = true ->
  ObjectId_cast (id req) = Some oid ->
  Baseline.Wine.findById oid (db w) = Some d ->
  exists d' w',
    BaselineRoutes.serve env PATCH wines_id req w =
    (Responded
       (mkReply 200
          (Msg true (Baseline.PWine (Some d')) (Some "Updated successfully"))),
     w') /\
    Baseline.Wine.findById oid (db w') = Some d' /\
    baseline_same_but_description d d' /\
    (forall s, field "newDescription" (body req) = JStr s ->
       Baseline.Wine.description d' = Some (trim s)) /\
    (forall oid', oid' <> oid ->
       Baseline.Wine.findById oid' (db w') = Baseline.Wine.findById oid' (db w)).
Proof.
  intros E C F.
  set (v := field "newDescription" (body req)).
  set (f := match v with
            | JUndefined => fun x : Baseline.Wine.doc => x
            | _ => Baseline.Wine.set_description (option_map trim (castString v))
            end).
  assert (Id : forall x, Baseline.Wine._id (f x) = Baseline.Wine._id x).
  { intros x. unfold f. destruct v; reflexivity. }
  exists (f d). eexists. split; [| split; [| split; [| split]]].
  - unfold BaselineRoutes.serve, BaselineRoutes.callbacks, dispatch,
      Baseline.patch_wines_id.
    rewrite (bind_ok _ _ _ (enter_run _ _)).
    erewrite try_ok.
    2:{ erewrite bind_ok; [reflexivity|].
        unfold Baseline.Wine_findByIdAndUpdate, castObjectId. rewrite C.
        simpl lift_result.
        rewrite (bind_ok _ _ _ (eq_refl : ret _ _ = (Ok _, _))).
        erewrite bind_ok by (apply store_call_healthy; exact E).
        unfold bind, get_db, put_db, ret. simpl.
        fold v. fold f.
        rewrite (baseline_findById_updateOne oid f _ d Id F). reflexivity. }
    reflexivity.
  - simpl. apply baseline_findById_updateOne; assumption.
  - unfold baseline_same_but_description, f. destruct v; simpl; repeat split.
  - intros s Hs. unfold f. fold v in Hs. rewrite Hs. reflexivity.
  - intros oid' N. simpl. apply baseline_findById_updateOne_other; assumption.
Qed.

(** C7. [PATCH /wines/:id] on the id of a stored wine answers 200 with the
    wine as it is stored after the update; that wine agrees with the one
    stored before on id, name, price (rating), variety (kind), country and
    createdAt, its description being the new one, trimmed; every other
    wine, and the users and secrets, are as before.  This holds in the
    server with users and in the baseline server. *)
Theorem patch_changes_only_the_description :
  forall (L : Libraries) env req oid,
    ObjectId_cast (id req) = Some oid ->
    (forall (w : World Store) d,
        healthy w = true ->
        Wine.findById oid (wines (db w)) = Some d ->
        exists d' w',
          serve env PATCH wines_id req w =
          (Responded
             (mkReply 200
                (Msg true (PWine (Some d')) (Some "Updated successfully"))),
           w') /\
          Wine.findById oid (wines (db w')) = Some d' /\
          same_but_description d d' /\
          (forall s, field "newDescription" (body req) = JStr s ->
             Wine.description d' = Some (trim s)) /\
          (forall oid', oid' <> oid ->
             Wine.findById oid' (wines (db w'))
             = Wine.findById oid' (wines (db w))) /\
          users (db w') = users (db w) /\
          secrets (db w') = secrets (db w)) /\
    (forall (w : World Baseline.Store) d,
        healthy w = true ->
        Baseline.Wine.findById oid (db w) = Some d ->
        exists d' w',
          BaselineRoutes.serve env PATCH wines_id req w =
          (Responded
             (mkReply 200
                (Msg true (Baseline.PWine (Some d'))
                   (Some "Updated successfully"))),
           w') /\
          Baseline.Wine.findById oid (db w') = Some d' /\
          baseline_same_but_description d d' /\
          (forall s, field "newDescription" (body req) = JStr s ->
             Baseline.Wine.description d' = Some (trim s)) /\
          (forall oid', oid' <> oid ->
             Baseline.Wine.findById oid' (db w')
             = Baseline.Wine.findById oid' (db w))).
Proof.
  intros L env req oid C. split.
  - intros w d E F. apply patch_frame; assumption.
  - intros w d E F. apply baseline_patch_frame; assumption.
Qed.

(** ** Creation time *)

Lemma validated_ok {A} failed (d d' : A) :
  validated failed d = Ok d' -> d' = d.
Proof. destruct failed; simpl; [intros [= <-]; reflexivity | discriminate]. Qed.

(** Whatever the instant of the request, a wine that [POST /wines] answers
    with carries the instant at which the schema was built. *)
Lemma post_wines_createdAt {L : Libraries} env req (w w' : World Store) d m :
  serve env POST wines_ req w =
  (Responded (mkReply 201 (Msg true (PWine (Some d)) m)), w') ->
  Wine.createdAt d = schemaLoadedAt w.
Proof.
  unfold serve, callbacks, dispatch, post_wines.
  rewrite (bind_ok _ _ _ (enter_run _ _)).
  unfold try_catch, bind at 1, Wine_save, bind at 1, get_schemaLoadedAt.
  unfold bind at 1.
  destruct (Wine.new _ _ _ _ _ _) as [d0|e] eqn:N; simpl.
  - apply validated_ok in N. subst d0.
    unfold bind at 1.
    destruct (store_call "Wine" "insertOne" _) as [[[]|e] w1]; simpl.
    + unfold bind at 1. simpl.
      destruct (Wine.insert _ _) as [l|e]; simpl.
      * intros [= <- _ _]. reflexivity.
      * discriminate.
    + discriminate.
  - discriminate.
Qed.

(** C8. The schemas being built at instant 1000, a wine created by
    [POST /wines] at instant 2000 and another created at instant 3000 are
    both stored with [createdAt] 1000: the default of the path is the
    date of the schema's construction, not that of the creation.  So it
    is in the server with users and in the baseline server. *)
Theorem createdAt_is_the_schema_load_time :
  now Sample.env = 2000%Z /\ now Sample.later = 3000%Z /\
  (exists d1 w1 d2 w2,
      @serve Reference.libraries Sample.env POST wines_
        (Sample.with_body (Sample.new_wine "Syrah 2020")) Sample.empty =
      (Responded
         (mkReply 201
            (Msg true (PWine (Some d1)) (Some "Wine item successfully created"))),
       w1) /\
      @serve Reference.libraries Sample.later POST wines_
        (Sample.with_body (Sample.new_wine "Syrah 2021")) w1 =
      (Responded
         (mkReply 201
            (Msg true (PWine (Some d2)) (Some "Wine item successfully created"))),
       w2) /\
      wines (db w2) = [d1; d2] /\
      Wine.createdAt d1 = 1000%Z /\ Wine.createdAt d2 = 1000%Z) /\
  (exists d1 w1 d2 w2,
      @BaselineRoutes.serve Reference.libraries Sample.env POST wines_
        (Sample.with_body (Sample.new_wine "Syrah 2020")) Sample.baseline_empty =
      (Responded
         (mkReply 201
            (Msg true (Baseline.PWine (Some d1))
               (Some "Wine item successfully created"))),
       w1) /\
      @BaselineRoutes.serve Reference.libraries Sample.later POST wines_
        (Sample.with_body (Sample.new_wine "Syrah 2021")) w1 =
      (Responded
         (mkReply 201
            (Msg true (Baseline.PWine (Some d2))
               (Some "Wine item successfully created"))),
       w2) /\
      db w2 = [d1; d2] /\
      Baseline.Wine.createdAt d1 = 1000%Z /\
      Baseline.Wine.createdAt d2 = 1000%Z).
Proof.
  split; [reflexivity|]. split; [reflexivity|]. split.
  - do 4 eexists. split; [vm_compute; reflexivity|].
    split; [vm_compute; reflexivity|]. repeat split.
  - do 4 eexists. split; [vm_compute; reflexivity|].
    split; [vm_compute; reflexivity|]. repeat split.
Qed.

(** ** The reference libraries obey the laws assumed of the libraries *)

Lemma length_append a b :
  String.length (String.append a b) = (String.length a + String.length b)%nat.
Proof. induction a as [|c a IH]; simpl; [reflexivity | rewrite IH; reflexivity]. Qed.

Lemma fit_length n s : String.length (Reference.fit n s) = n.
Proof.
  revert s. induction n as [|n IH]; intros s; simpl; [reflexivity|].
  destruct s; simpl; rewrite IH; reflexivity.
Qed.

Lemma reference_hashes_have_60_characters :
  hashes_have_60_characters Reference.libraries.
Proof.
  intros data salt.
  change (String.length (Reference.hash data salt) = 60%nat).
  unfold Reference.hash. rewrite !length_append, !fit_length. reflexivity.
Qed.

Lemma literal_is_not_the_wildcard c :
  is_meta c = false -> Ascii.eqb c "." = false.
Proof.
  intros M. destruct (Ascii.eqb_spec c "."); [|reflexivity].
  subst c. discriminate M.
Qed.

Lemma literal_in_fragment s :
  literal_pattern s = true -> Reference.in_fragment s = true.
Proof.
  induction s as [|c s IH]; simpl; [reflexivity|].
  intros E. apply andb_true_iff in E. destruct E as [M E].
  rewrite M, (IH E). reflexivity.
Qed.

Lemma literal_match_here s :
  literal_pattern s = true ->
  forall v, Reference.match_here s v = String.prefix s v.
Proof.
  induction s as [|c s IH]; simpl; intros E v.
  - destruct v; reflexivity.
  - apply andb_true_iff in E. destruct E as [M E].
    apply negb_true_iff in M.
    destruct v as [|a v]; [reflexivity|].
    simpl. rewrite (literal_is_not_the_wildcard c M), (IH E).
    destruct (ascii_dec c a) as [->|N].
    + rewrite Ascii.eqb_refl. reflexivity.
    + apply Ascii.eqb_neq in N. rewrite N. reflexivity.
Qed.

Lemma literal_search s :
  literal_pattern s = true ->
  forall v, Reference.search s v = includes s v.
Proof.
  intros E. induction v as [|a v IH].
  - simpl. rewrite (literal_match_here s E). reflexivity.
  - change (Reference.match_here s (String a v) || Reference.search s v
            = String.prefix s (String a v) || includes s v).
    rewrite IH, (literal_match_here s E). reflexivity.
Qed.

Lemma reference_literals_match_substrings :
  literals_match_substrings Reference.libraries.
Proof.
  intros s E. exists (Reference.search s). split.
  - change (Reference.regexp s = Some (Reference.search s)).
    unfold Reference.regexp. rewrite (literal_in_fragment s E). reflexivity.
  - apply literal_search, E.
Qed.

(** ** What a computation keeps of the store *)

Lemma stable_ret {D A} (J : D -> Prop) (a : A) : stable J (@ret D A a).
Proof. intros w Hw. exact Hw. Qed.

Lemma stable_throw {D A} (J : D -> Prop) e : stable J (@throw D A e).
Proof. intros w Hw. exact Hw. Qed.

Lemma stable_bind {D A B} (J : D -> Prop) (m : M D A) (k : A -> M D B) :
  stable J m -> (forall a, stable J (k a)) -> stable J (bind m k).
Proof.
  intros Hm Hk w Hw. unfold bind. specialize (Hm w Hw).
  destruct (m w) as [[a|e] w']; simpl in *; [apply Hk; exact Hm | exact Hm].
Qed.

Lemma stable_try {D A} (J : D -> Prop) (m : M D A) h :
  stable J m -> (forall e, stable J (h e)) -> stable J (try_catch m h).
Proof.
  intros Hm Hh w Hw. unfold try_catch. specialize (Hm w Hw).
  destruct (m w) as [[a|e] w']; simpl in *; [exact Hm | apply Hh; exact Hm].
Qed.

Lemma stable_enter {D} (J : D -> Prop) c : stable J (@enter D c).
Proof. intros w Hw. exact Hw. Qed.

Lemma stable_store_call {D} (J : D -> Prop) model op :
  stable J (@store_call D model op).
Proof.
  intros w Hw. unfold store_call. destruct (faults w) as [|[|] fs]; exact Hw.
Qed.

Lemma stable_lift_result {D A} (J : D -> Prop) (r : Result A) :
  stable J (@lift_result D A r).
Proof. intros w Hw. destruct r; exact Hw. Qed.

Lemma stable_get_db {D} (J : D -> Prop) : stable J (@get_db D).
Proof. intros w Hw. exact Hw. Qed.

Lemma stable_get_schemaLoadedAt {D} (J : D -> Prop) :
  stable J (@get_schemaLoadedAt D).
Proof. intros w Hw. exact Hw. Qed.

Lemma stable_send {D P} (J : D -> Prop) code (j : Json P) :
  stable J (@send D P code j).
Proof. intros w Hw. exact Hw. Qed.

Create HintDb stable.
#[local] Hint Resolve stable_ret stable_throw stable_enter stable_store_call
  stable_lift_result stable_get_db stable_get_schemaLoadedAt stable_send
  : stable.

(** Composite computations are taken apart down to the calls. *)
Ltac stable_steps :=
  repeat first
    [ solve [auto with stable]
    | apply stable_bind; [| intro]
    | apply stable_try; [| intro]
    | match goal with
      | |- stable _ (match ?x with _ => _ end) => destruct x
      end
    | progress unfold bcrypt_compareSync, bcrypt_hashSync, new_RegExp,
        user_not_found ].

(** The callbacks of a route keep what each of them keeps. *)
Lemma dispatch_stable {D P} (J : D -> Prop)
    (stack : list (Request -> M D (Flow P))) req :
  Forall (fun h => stable J (h req)) stack ->
  forall w, J (db w) -> J (db (snd (dispatch stack req w))).
Proof.
  induction 1 as [|h rest Hh _ IH]; intros w Hw; simpl; [exact Hw|].
  specialize (Hh w Hw).
  destruct (h req w) as [[[r| |]|e] w']; simpl in *; auto.
Qed.

(** ** Reading routes *)

Lemma authenticateUser_stable (J : Store -> Prop) req :
  stable J (authenticateUser req).
Proof. unfold authenticateUser. stable_steps. Qed.

Lemma get_secrets_stable (J : Store -> Prop) req : stable J (get_secrets req).
Proof. unfold get_secrets. stable_steps. Qed.

Lemma post_login_stable {L : Libraries} (J : Store -> Prop) req :
  stable J (post_login req).
Proof. unfold post_login. stable_steps. Qed.

Lemma get_wines_stable {L : Libraries} (J : Store -> Prop) req :
  stable J (get_wines req).
Proof. unfold get_wines. stable_steps. Qed.

Lemma get_wines_id_stable {L : Libraries} (J : Store -> Prop) req :
  stable J (get_wines_id req).
Proof. unfold get_wines_id. stable_steps. Qed.

(** X1. The routes that read never write: after any [GET], and after
    [POST /login], whatever the request, the faults of the store and the
    way the request ends, the store is what it was. *)
Theorem reading_routes_leave_the_store :
  forall (L : Libraries) env m r req (w : World Store),
    read_only m r = true ->
    db (snd (serve env m r req w)) = db w.
Proof.
  intros L env m r req w R. unfold serve.
  apply (dispatch_stable (fun d => d = db w)); [|reflexivity].
  destruct m, r; try discriminate R; simpl;
    repeat apply Forall_cons; try apply Forall_nil;
    auto using get_wines_stable, get_wines_id_stable, post_login_stable,
      authenticateUser_stable, get_secrets_stable.
Qed.

(** ** Unique keys *)

Lemma NoDup_snoc {A} (l : list A) x : NoDup l -> ~ In x l -> NoDup (l ++ [x]).
Proof.
  induction 1 as [|a l Ha Hl IH]; intros N; simpl.
  - constructor; [intros [] | constructor].
  - constructor.
    + intros I. apply in_app_or in I. destruct I as [I|[<-|[]]].
      * exact (Ha I).
      * apply N. left. reflexivity.
    + apply IH. intros I. apply N. right. exact I.
Qed.

Lemma no_key_of_existsb {A} (g : A -> string) l k :
  existsb (fun d => String.eqb (g d) k) l = false -> ~ In k (map g l).
Proof.
  intros E I. apply in_map_iff in I. destruct I as [d [<- I]].
  rewrite existsb_false_iff in E. specialize (E d I).
  rewrite String.eqb_refl in E. discriminate.
Qed.

Lemma NoDup_keys_snoc {A} (g : A -> string) l d :
  NoDup (map g l) ->
  existsb (fun d' => String.eqb (g d') (g d)) l = false ->
  NoDup (map g (l ++ [d])).
Proof.
  intros N E. rewrite map_app. apply NoDup_snoc; [exact N|].
  apply no_key_of_existsb, E.
Qed.

Lemma Wine_insert_unique d coll l :
  Wine.insert d coll = Ok l ->
  NoDup (map Wine._id coll) -> NoDup (map Wine.name coll) ->
  l = coll ++ [d] /\ NoDup (map Wine._id l) /\ NoDup (map Wine.name l).
Proof.
  unfold Wine.insert, Wine.has_id.
  destruct (existsb (fun d' => String.eqb (Wine._id d') (Wine._id d)) coll)
    eqn:E1; [discriminate|].
  destruct (existsb (fun d' => String.eqb (Wine.name d') (Wine.name d)) coll)
    eqn:E2; [discriminate|].
  intros [= <-] N1 N2. split; [reflexivity|]. split.
  - apply NoDup_keys_snoc; assumption.
  - apply NoDup_keys_snoc; assumption.
Qed.

Lemma User_insert_unique d coll l :
  User.insert d coll = Ok l ->
  NoDup (map User._id coll) -> NoDup (map User.username coll) ->
  l = coll ++ [d] /\ NoDup (map User._id l) /\ NoDup (map User.username l).
Proof.
  unfold User.insert.
  destruct (existsb (fun d' => String.eqb (User._id d') (User._id d)) coll)
    eqn:E1; [discriminate|].
  destruct (existsb (fun d' => String.eqb (User.username d') (User.username d))
              coll) eqn:E2; [discriminate|].
  intros [= <-] N1 N2. split; [reflexivity|]. split.
  - apply NoDup_keys_snoc; assumption.
  - apply NoDup_keys_snoc; assumption.
Qed.

Lemma Secret_insert_unique d coll l :
  Secret.insert d coll = Ok l ->
  NoDup (map Secret._id coll) ->
  l = coll ++ [d] /\ NoDup (map Secret._id l).
Proof.
  unfold Secret.insert.
  destruct (existsb _ coll) eqn:E1; [discriminate|].
  intros [= <-] N1. split; [reflexivity|].
  apply NoDup_keys_snoc; assumption.
Qed.

Lemma map_updateOne {K} (g : Wine.doc -> K) oid f l :
  (forall x, g (f x) = g x) ->
  map g (Wine.updateOne oid f l) = map g l.
Proof.
  intros G. induction l as [|a l IH]; simpl; [reflexivity|].
  destruct (Wine.has_id oid a); simpl; [rewrite G | rewrite IH]; reflexivity.
Qed.

Lemma deleteOne_incl oid l x : In x (Wine.deleteOne oid l) -> In x l.
Proof.
  induction l as [|a l IH]; simpl; [auto|].
  destruct (Wine.has_id oid a); simpl; intuition.
Qed.

Lemma NoDup_map_deleteOne {K} (g : Wine.doc -> K) oid l :
  NoDup (map g l) -> NoDup (map g (Wine.deleteOne oid l)).
Proof.
  induction l as [|a l IH]; simpl; [auto|].
  intros N. inversion N as [|k ks Hk Hks]; subst.
  destruct (Wine.has_id oid a); simpl; [exact Hks|].
  constructor; [|apply IH, Hks].
  intros I. apply Hk. apply in_map_iff in I. destruct I as [x [E I]].
  apply in_map_iff. exists x. split; [exact E|].
  apply (deleteOne_incl oid), I.
Qed.

Lemma Wine_save_stable {L : Libraries} env n d r v :
  stable unique_keys (Wine_save env n d r v).
Proof.
  unfold Wine_save.
  do 3 (apply stable_bind; [auto with stable | intro]).
  intros w (N1 & N2 & N3 & N4 & N5). unfold bind, get_db. simpl.
  destruct (Wine.insert _ _) as [l|e] eqn:I; simpl.
  - destruct (Wine_insert_unique _ _ _ I N1 N2) as (_ & M1 & M2).
    repeat split; assumption.
  - repeat split; assumption.
Qed.

Lemma User_save_stable {L : Libraries} env n p :
  stable unique_keys (User_save env n p).
Proof.
  unfold User_save.
  do 2 (apply stable_bind; [auto with stable | intro]).
  intros w (N1 & N2 & N3 & N4 & N5). unfold bind, get_db. simpl.
  destruct (User.insert _ _) as [l|e] eqn:I; simpl.
  - destruct (User_insert_unique _ _ _ I N3 N4) as (_ & M1 & M2).
    repeat split; assumption.
  - repeat split; assumption.
Qed.

Lemma Secret_save_stable {L : Libraries} env m u :
  stable unique_keys (Secret_save env m u).
Proof.
  unfold Secret_save.
  do 2 (apply stable_bind; [auto with stable | intro]).
  intros w (N1 & N2 & N3 & N4 & N5). unfold bind, get_db. simpl.
  destruct (Secret.insert _ _) as [l|e] eqn:I; simpl.
  - destruct (Secret_insert_unique _ _ _ I N5) as (_ & M1).
    repeat split; assumption.
  - repeat split; assumption.
Qed.

Lemma Wine_findByIdAndUpdate_stable {L : Libraries} i v :
  stable unique_keys (Wine_findByIdAndUpdate i v).
Proof.
  unfold Wine_findByIdAndUpdate.
  do 2 (apply stable_bind; [auto with stable | intro]).
  intros w (N1 & N2 & N3 & N4 & N5). unfold bind, get_db, put_db. simpl.
  repeat split; try assumption; simpl.
  - rewrite map_updateOne; [exact N1 | intros x; destruct v; reflexivity].
  - rewrite map_updateOne; [exact N2 | intros x; destruct v; reflexivity].
Qed.

Lemma Wine_findByIdAndDelete_stable {L : Libraries} i :
  stable unique_keys (Wine_findByIdAndDelete i).
Proof.
  unfold Wine_findByIdAndDelete.
  do 2 (apply stable_bind; [auto with stable | intro]).
  intros w (N1 & N2 & N3 & N4 & N5). unfold bind, get_db, put_db. simpl.
  repeat split; try assumption; simpl; apply NoDup_map_deleteOne; assumption.
Qed.

#[local] Hint Resolve Wine_save_stable User_save_stable Secret_save_stable
  Wine_findByIdAndUpdate_stable Wine_findByIdAndDelete_stable : stable.

(** X2. Every route keeps the keys unique: if no two wines share an id
    or a name, no two users an id or a username and no two secrets an
    id, the same holds after any request, however it ends. *)
Theorem routes_keep_keys_unique :
  forall (L : Libraries) env m r req (w : World Store),
    unique_keys (db w) ->
    unique_keys (db (snd (serve env m r req w))).
Proof.
  intros L env m r req w U. unfold serve.
  apply (dispatch_stable unique_keys); [|exact U].
  destruct m, r; simpl; repeat apply Forall_cons; try apply Forall_nil;
    unfold post_wines, get_wines, patch_wines_id, get_wines_id,
      delete_wines_id, post_register, post_login, authenticateUser,
      get_secrets, post_secrets;
    stable_steps.
Qed.

(** ** Creating wines *)

Lemma eqb_empty_false (s : string) : s <> "" -> String.eqb s "" = false.
Proof. intros N. apply String.eqb_neq, N. Qed.

Lemma Wine_new_valid {L : Libraries} loadedAt oid n s r v :
  n <> "" -> v <> "" ->
  (2 <= String.length (trim s) <= 300)%nat ->
  Wine.new loadedAt oid (JStr n) (JStr s) r (JStr v) =
  Ok (Wine.mk oid n (Some (trim s)) None loadedAt v None).
Proof.
  intros Nn Nv [Lo Hi]. unfold Wine.new. simpl castString. simpl option_map.
  unfold required, minlength, maxlength.
  rewrite (eqb_empty_false n Nn), (eqb_empty_false v Nv).
  rewrite (nonempty_of_length (trim s) 1 Lo).
  apply Nat.leb_le in Lo, Hi. rewrite Lo, Hi. reflexivity.
Qed.

Lemma Wine_save_healthy {L : Libraries} env n s r v (w : World Store) :
  healthy w = true ->
  n <> "" -> v <> "" ->
  (2 <= String.length (trim s) <= 300)%nat ->
  (forall d, In d (wines (db w)) ->
     Wine._id d <> newObjectId env /\ Wine.name d <> n) ->
  let d := Wine.mk (newObjectId env) n (Some (trim s)) None (schemaLoadedAt w)
             v None in
  Wine_save env (JStr n) (JStr s) r (JStr v) w =
  (Ok d,
   mkWorld (set_wines (wines (db w) ++ [d]) (db w)) (schemaLoadedAt w)
     (tl (faults w)) (trace w ++ [Call "Wine" "insertOne"])).
Proof.
  intros E Nn Nv Len Fr d. unfold Wine_save.
  rewrite (bind_ok _ _ _ (eq_refl : get_schemaLoadedAt w = (Ok _, w))).
  rewrite (Wine_new_valid _ _ n s r v Nn Nv Len). simpl lift_result. fold d.
  rewrite (bind_ok _ _ _ (eq_refl : ret _ w = (Ok d, w))).
  rewrite (bind_ok _ _ _ (store_call_healthy _ _ _ E)).
  unfold bind, get_db, Wine.insert, Wine.has_id. simpl.
  assert (F1 : existsb (fun d' => String.eqb (Wine._id d') (newObjectId env))
                 (wines (db w)) = false).
  { apply existsb_false_iff. intros x I. apply String.eqb_neq, (Fr x I). }
  assert (F2 : existsb (fun d' => String.eqb (Wine.name d') n)
                 (wines (db w)) = false).
  { apply existsb_false_iff. intros x I. apply String.eqb_neq, (Fr x I). }
  rewrite F1, F2. reflexivity.
Qed.

(** [POST /wines] with acceptable fields, a new name and a fresh id. *)
Lemma post_wines_creates {L : Libraries} env req (w : World Store) n s v :
  healthy w = true ->
  field "name" (body req) = JStr n ->
  field "description" (body req) = JStr s ->
  field "variety" (body req) = JStr v ->
  n <> "" -> v <> "" ->
  (2 <= String.length (trim s) <= 300)%nat ->
  (forall d, In d (wines (db w)) ->
     Wine._id d <> newObjectId env /\ Wine.name d <> n) ->
  let d := Wine.mk (newObjectId env) n (Some (trim s)) None (schemaLoadedAt w)
             v None in
  serve env POST wines_ req w =
  (Responded
     (mkReply 201
        (Msg true (PWine (Some d)) (Some "Wine item successfully created"))),
   mkWorld (set_wines (wines (db w) ++ [d]) (db w)) (schemaLoadedAt w)
     (tl (faults w))
     ((trace w ++ [Enter "POST /wines"]) ++ [Call "Wine" "insertOne"])).
Proof.
  intros E Hn Hs Hv Nn Nv Len Fr d.
  unfold serve, callbacks, dispatch, post_wines.
  rewrite (bind_ok _ _ _ (enter_run _ _)).
  rewrite Hn, Hs, Hv.
  erewrite try_ok.
  2:{ erewrite bind_ok; [reflexivity|].
      apply (Wine_save_healthy env n s _ v (entered "POST /wines" w));
        assumption. }
  reflexivity.
Qed.

Lemma find_snoc_fresh {A} (f : A -> bool) l d :
  (forall x, In x l -> f x = false) -> f d = true ->
  List.find f (l ++ [d]) = Some d.
Proof.
  intros F T. induction l as [|a l IH]; simpl.
  - rewrite T. reflexivity.
  - rewrite (F a) by (left; reflexivity). apply IH.
    intros x I. apply F. right. exact I.
Qed.

Lemma Wine_findById_healthy {L : Libraries} i oid (w : World Store) :
  healthy w = true ->
  ObjectId_cast i = Some oid ->
  Wine_findById i w =
  (Ok (Wine.findById oid (wines (db w))), after_call "Wine" "findOne" w).
Proof.
  intros E C. unfold Wine_findById, castObjectId. rewrite C. simpl lift_result.
  rewrite (bind_ok _ _ _ (eq_refl : ret _ _ = (Ok _, _))).
  rewrite (bind_ok _ _ _ (store_call_healthy _ _ _ E)). reflexivity.
Qed.

Lemma get_wines_id_run {L : Libraries} env req oid (w : World Store) :
  healthy w = true ->
  ObjectId_cast (id req) = Some oid ->
  serve env GET wines_id req w =
  (Responded
     (mkReply 200
        (Msg true (PWine (Wine.findById oid (wines (db w))))
           (Some "Found successfully"))),
   after_call "Wine" "findOne" (entered "GET /wines/:id" w)).
Proof.
  intros E C. unfold serve, callbacks, dispatch, get_wines_id.
  rewrite (bind_ok _ _ _ (enter_run _ _)).
  erewrite try_ok.
  2:{ erewrite bind_ok; [reflexivity|].
      apply Wine_findById_healthy; [exact E | exact C]. }
  reflexivity.
Qed.

(** X3. A wine created by [POST /wines] is found by [GET /wines/:id]
    under its id: the answer is 200 with the record the creation
    answered with, which has the name and variety of the body, the
    description trimmed, no price and no country. *)
Theorem created_wine_is_found_by_id :
  forall (L : Libraries) env env' req req' (w : World Store) n s v,
    healthy w = true ->
    field "name" (body req) = JStr n ->
    field "description" (body req) = JStr s ->
    field "variety" (body req) = JStr v ->
    n <> "" -> v <> "" ->
    (2 <= String.length (trim s) <= 300)%nat ->
    (forall d, In d (wines (db w)) ->
       Wine._id d <> newObjectId env /\ Wine.name d <> n) ->
    ObjectId_cast (id req') = Some (newObjectId env) ->
    exists d w1 w2,
      serve env POST wines_ req w =
      (Responded
         (mkReply 201
            (Msg true (PWine (Some d)) (Some "Wine item successfully created"))),
       w1) /\
      serve env' GET wines_id req' w1 =
      (Responded
         (mkReply 200 (Msg true (PWine (Some d)) (Some "Found successfully"))),
       w2) /\
      Wine.name d = n /\ Wine.description d = Some (trim s) /\
      Wine.variety d = v /\ Wine.price d = None /\ Wine.country d = None.
Proof.
  intros L env env' req req' w n s v E Hn Hs Hv Nn Nv Len Fr C.
  eexists. eexists. eexists. split.
  - apply (post_wines_creates env req w n s v); assumption.
  - split; [|repeat split].
    rewrite (get_wines_id_run env' req' (newObjectId env)).
    + simpl. unfold Wine.findById.
      rewrite find_snoc_fresh; [reflexivity | | apply String.eqb_refl].
      intros x I. apply String.eqb_neq, (Fr x I).
    + apply (healthy_after_call "Wine" "insertOne" (entered "POST /wines" w) E).
    + exact C.
Qed.

(** Whatever the request and the faults, what [GET /wines] lists is in
    the store and has a price. *)
Lemma listed_wines_have_a_price {L : Libraries} env req (w : World Store) l :
  lists_wines env req w l ->
  forall d, In d l -> In d (wines (db w)) /\ Wine.price d <> None.
Proof.
  intros [w' G] d. revert G.
  unfold serve, callbacks, dispatch, get_wines.
  rewrite (bind_ok _ _ _ (enter_run _ _)).
  unfold bind at 1.
  destruct (new_RegExp _ _) as [[r|e] w0] eqn:R; [|discriminate].
  assert (D0 : db w0 = db w).
  { unfold new_RegExp in R. destruct (lookup "variety" (query req)) as [p|].
    - destruct (RegExp_new p); inversion R; reflexivity.
    - inversion R; reflexivity. }
  unfold try_catch, bind at 1, Wine_find, bind at 1.
  destruct (castNumber _ _) as [t|e]; simpl; [|discriminate].
  unfold bind at 1.
  destruct (store_call "Wine" "find" w0) as [[[]|e] w1] eqn:S; simpl;
    [|discriminate].
  assert (D1 : db w1 = db w0).
  { unfold store_call in S. destruct (faults w0) as [|[|] fs]; inversion S;
      reflexivity. }
  intros [= <- _]. rewrite D1, D0. destruct t as [t|]; [|intros []].
  intros I. apply filter_In in I. destruct I as [I Mt]. split; [exact I|].
  unfold Wine.matches in Mt. destruct (Wine.price d); [discriminate|].
  rewrite andb_false_r in Mt. discriminate.
Qed.

(** X4. A wine created by [POST /wines] is stored, and no [GET /wines]
    ever lists it, whatever the query: the route stores no price, and
    the list keeps to the wines that have one. *)
Theorem created_wine_is_never_listed :
  forall (L : Libraries) env req (w : World Store) n s v,
    healthy w = true ->
    field "name" (body req) = JStr n ->
    field "description" (body req) = JStr s ->
    field "variety" (body req) = JStr v ->
    n <> "" -> v <> "" ->
    (2 <= String.length (trim s) <= 300)%nat ->
    (forall d, In d (wines (db w)) ->
       Wine._id d <> newObjectId env /\ Wine.name d <> n) ->
    exists d w1,
      serve env POST wines_ req w =
      (Responded
         (mkReply 201
            (Msg true (PWine (Some d)) (Some "Wine item successfully created"))),
       w1) /\
      In d (wines (db w1)) /\
      forall env' req' l, lists_wines env' req' w1 l -> ~ In d l.
Proof.
  intros L env req w n s v E Hn Hs Hv Nn Nv Len Fr.
  eexists. eexists. split; [|split].
  - apply (post_wines_creates env req w n s v); assumption.
  - simpl. apply in_or_app. right. left. reflexivity.
  - intros env' req' l G I.
    destruct (listed_wines_have_a_price env' req' _ l G _ I) as [_ P].
    apply P. reflexivity.
Qed.

Lemma validated_fails {A} failed (d : A) p :
  In p failed -> validated failed d = Throw (ValidationError failed).
Proof. destruct failed; [intros [] | reflexivity]. Qed.

(** X5. [POST /wines] with the name of a stored wine fails on the unique
    index: the answer is 418 with the duplicate key error, and the store
    is as before. *)
Theorem duplicate_wine_name_is_rejected :
  forall (L : Libraries) env req (w : World Store) n s v d0,
    healthy w = true ->
    field "name" (body req) = JStr n ->
    field "description" (body req) = JStr s ->
    field "variety" (body req) = JStr v ->
    n <> "" -> v <> "" ->
    (2 <= String.length (trim s) <= 300)%nat ->
    (forall d, In d (wines (db w)) -> Wine._id d <> newObjectId env) ->
    In d0 (wines (db w)) -> Wine.name d0 = n ->
    exists w',
      serve env POST wines_ req w =
      (Responded
         (mkReply 418
            (Msg false (PError (DuplicateKey "name"))
               (Some "Error occured could not create wine item"))),
       w') /\
      db w' = db w.
Proof.
  intros L env req w n s v d0 E Hn Hs Hv Nn Nv Len Fr I0 N0.
  unfold serve, callbacks, dispatch, post_wines.
  rewrite (bind_ok _ _ _ (enter_run _ _)).
  rewrite Hn, Hs, Hv.
  erewrite try_throw.
  2:{ apply bind_throw. unfold Wine_save.
      rewrite (bind_ok _ _ _ (eq_refl : get_schemaLoadedAt _ = (Ok _, _))).
      rewrite (Wine_new_valid _ _ n s _ v Nn Nv Len). simpl lift_result.
      rewrite (bind_ok _ _ _ (eq_refl : ret _ _ = (Ok _, _))).
      erewrite bind_ok by (apply store_call_healthy; exact E).
      unfold bind, get_db, Wine.insert, Wine.has_id. simpl.
      assert (F1 : existsb
                     (fun d' => String.eqb (Wine._id d') (newObjectId env))
                     (wines (db w)) = false).
      { apply existsb_false_iff. intros x I. apply String.eqb_neq, (Fr x I). }
      assert (F2 : existsb (fun d' => String.eqb (Wine.name d') n)
                     (wines (db w)) = true).
      { apply existsb_exists. exists d0. split; [exact I0|].
        apply String.eqb_eq, N0. }
      rewrite F1, F2. reflexivity. }
  eexists. split; reflexivity.
Qed.

(** X6. The validators of the schema run when a wine is created and not
    when it is updated: a description that is shorter than 2 characters
    once trimmed makes [POST /wines] answer 418 with a validation error on
    [description], the store not being asked; the same text sent to
    [PATCH /wines/:id] for a stored wine is answered 200 and stored. *)
Theorem short_description_fails_create_but_not_update :
  forall (L : Libraries) env req req' (w : World Store) s oid d,
    (String.length (trim s) < 2)%nat ->
    field "description" (body req) = JStr s ->
    healthy w = true ->
    ObjectId_cast (id req') = Some oid ->
    Wine.findById oid (wines (db w)) = Some d ->
    field "newDescription" (body req') = JStr s ->
    (exists paths,
        In "description" paths /\
        serve env POST wines_ req w =
        (Responded
           (mkReply 418
              (Msg false (PError (ValidationError paths))
                 (Some "Error occured could not create wine item"))),
         entered "POST /wines" w)) /\
    (exists d' w',
        serve env PATCH wines_id req' w =
        (Responded
           (mkReply 200 (Msg true (PWine (Some d')) (Some "Updated successfully"))),
         w') /\
        Wine.findById oid (wines (db w')) = Some d' /\
        Wine.description d' = Some (trim s)).
Proof.
  intros L env req req' w s oid d Short Hs E C F Hs'. split.
  - unfold serve, callbacks, dispatch, post_wines.
    rewrite (bind_ok _ _ _ (enter_run _ _)). rewrite Hs.
    set (n := castString (field "name" (body req))).
    set (v := castString (field "variety" (body req))).
    set (paths := check "name" (required n) ++
                  check "description" false ++ check "variety" (required v)).
    assert (I : In "description" paths).
    { unfold paths. apply in_or_app. right. left. reflexivity. }
    exists paths. split; [exact I|].
    erewrite try_throw; [reflexivity|].
    apply bind_throw. unfold Wine_save.
    rewrite (bind_ok _ _ _ (eq_refl : get_schemaLoadedAt _ = (Ok _, _))).
    apply bind_throw. unfold Wine.new. simpl castString. simpl option_map.
    fold n. fold v.
    assert (M : minlength 2 (Some (trim s)) = false).
    { unfold minlength. apply Nat.leb_gt. exact Short. }
    rewrite M, andb_false_r. simpl andb. fold paths.
    rewrite (validated_fails paths _ _ I). reflexivity.
  - destruct (patch_frame env req' w oid d E C F)
      as [d' [w' [S [F' [_ [D _]]]]]].
    exists d', w'. split; [exact S|]. split; [exact F'|]. apply D, Hs'.
Qed.

(** ** The routes on one wine *)

Lemma patch_run {L : Libraries} env req oid (w : World Store) :
  healthy w = true ->
  ObjectId_cast (id req) = Some oid ->
  let f := description_update (field "newDescription" (body req)) in
  serve env PATCH wines_id req w =
  (Responded
     (mkReply 200
        (Msg true
           (PWine (Wine.findById oid (Wine.updateOne oid f (wines (db w)))))
           (Some "Updated successfully"))),
   mkWorld (set_wines (Wine.updateOne oid f (wines (db w))) (db w))
     (schemaLoadedAt w) (tl (faults w))
     ((trace w ++ [Enter "PATCH /wines/:id"])
      ++ [Call "Wine" "findOneAndUpdate"])).
Proof.
  intros E C f. unfold serve, callbacks, dispatch, patch_wines_id.
  rewrite (bind_ok _ _ _ (enter_run _ _)).
  erewrite try_ok.
  2:{ erewrite bind_ok; [reflexivity|].
      unfold Wine_findByIdAndUpdate, castObjectId. rewrite C.
      simpl lift_result.
      rewrite (bind_ok _ _ _ (eq_refl : ret _ _ = (Ok _, _))).
      erewrite bind_ok by (apply store_call_healthy; exact E).
      reflexivity. }
  reflexivity.
Qed.

Lemma delete_run {L : Libraries} env req oid (w : World Store) :
  healthy w = true ->
  ObjectId_cast (id req) = Some oid ->
  serve env DELETE wines_id req w =
  (Responded
     (mkReply 200
        (Msg true (PWine (Wine.findById oid (wines (db w))))
           (Some "Deleted successfully"))),
   mkWorld (set_wines (Wine.deleteOne oid (wines (db w))) (db w))
     (schemaLoadedAt w) (tl (faults w))
     ((trace w ++ [Enter "DELETE /wines/:id"])
      ++ [Call "Wine" "findOneAndDelete"])).
Proof.
  intros E C. unfold serve, callbacks, dispatch, delete_wines_id.
  rewrite (bind_ok _ _ _ (enter_run _ _)).
  erewrite try_ok.
  2:{ erewrite bind_ok; [reflexivity|].
      unfold Wine_findByIdAndDelete, castObjectId. rewrite C.
      simpl lift_result.
      rewrite (bind_ok _ _ _ (eq_refl : ret _ _ = (Ok _, _))).
      erewrite bind_ok by (apply store_call_healthy; exact E).
      reflexivity. }
  reflexivity.
Qed.

Lemma description_update_id {L : Libraries} v x :
  Wine._id (description_update v x) = Wine._id x.
Proof. destruct v; reflexivity. Qed.

Lemma description_update_twice {L : Libraries} v x :
  description_update v (description_update v x) = description_update v x.
Proof. destruct v; reflexivity. Qed.

Lemma updateOne_absent oid f l :
  Wine.findById oid l = None -> Wine.updateOne oid f l = l.
Proof.
  unfold Wine.findById. induction l as [|a l IH]; simpl; [reflexivity|].
  destruct (Wine.has_id oid a); [discriminate|].
  intros F. rewrite (IH F). reflexivity.
Qed.

Lemma deleteOne_absent oid l :
  Wine.findById oid l = None -> Wine.deleteOne oid l = l.
Proof.
  unfold Wine.findById. induction l as [|a l IH]; simpl; [reflexivity|].
  destruct (Wine.has_id oid a); [discriminate|].
  intros F. rewrite (IH F). reflexivity.
Qed.

Lemma updateOne_twice oid f l :
  (forall x, Wine._id (f x) = Wine._id x) ->
  (forall x, f (f x) = f x) ->
  Wine.updateOne oid f (Wine.updateOne oid f l) = Wine.updateOne oid f l.
Proof.
  intros Id Tw. induction l as [|a l IH]; simpl; [reflexivity|].
  destruct (Wine.has_id oid a) eqn:E; simpl.
  - unfold Wine.has_id in *. rewrite Id, E, Tw. reflexivity.
  - rewrite E, IH. reflexivity.
Qed.

Lemma set_wines_same s : set_wines (wines s) s = s.
Proof. destruct s; reflexivity. Qed.

Lemma findById_deleteOne oid l :
  NoDup (map Wine._id l) ->
  Wine.findById oid (Wine.deleteOne oid l) = None.
Proof.
  unfold Wine.findById. induction l as [|a l IH]; simpl; [reflexivity|].
  intros N. inversion N as [|k ks Hk Hks]; subst.
  destruct (Wine.has_id oid a) eqn:E; simpl.
  - apply find_none_iff. intros x I. unfold Wine.has_id in *.
    apply String.eqb_eq in E. apply String.eqb_neq. intros X.
    apply Hk. rewrite E, <- X. apply in_map, I.
  - rewrite E. apply IH, Hks.
Qed.

Lemma findById_deleteOne_other oid oid' l :
  oid' <> oid ->
  Wine.findById oid' (Wine.deleteOne oid l) = Wine.findById oid' l.
Proof.
  intros N. unfold Wine.findById.
  induction l as [|a l IH]; simpl; [reflexivity|].
  destruct (Wine.has_id oid a) eqn:E; simpl.
  - unfold Wine.has_id in *. apply String.eqb_eq in E.
    assert (X : String.eqb (Wine._id a) oid' = false)
      by (apply String.eqb_neq; congruence).
    rewrite X. reflexivity.
  - rewrite IH. reflexivity.
Qed.

(** X7. On [GET], [PATCH] and [DELETE /wines/:id], an id that is not an
    ObjectId is answered 400 with the cast error; the store is not asked
    and does not change. *)
Theorem malformed_id_is_a_client_error :
  forall (L : Libraries) env m req (w : World Store),
    on_id m = true ->
    ObjectId_cast (id req) = None ->
    exists msg w',
      serve env m wines_id req w =
      (Responded
         (mkReply 400 (Msg false (PError (CastError "_id")) (Some msg))),
       w') /\
      db w' = db w /\ faults w' = faults w /\
      forall model op, ~ In (Call model op) (skipn (length (trace w)) (trace w')).
Proof.
  intros L env m req w Hm C.
  assert (T : forall c model op,
             ~ In (Call model op)
                 (skipn (length (trace w)) (trace w ++ [Enter c]))).
  { intros c model op. rewrite skipn_app, skipn_all, Nat.sub_diag. simpl.
    intros [X|[]]. discriminate X. }
  destruct m; try discriminate Hm;
    unfold serve, callbacks, dispatch, get_wines_id, patch_wines_id,
      delete_wines_id;
    rewrite (bind_ok _ _ _ (enter_run _ _));
    (erewrite try_throw;
     [| apply bind_throw;
        unfold Wine_findById, Wine_findByIdAndUpdate, Wine_findByIdAndDelete,
          castObjectId;
        rewrite C; apply bind_throw; reflexivity ]);
    eexists; eexists; (split; [reflexivity|]);
    (split; [reflexivity|]); (split; [reflexivity|]); apply T.
Qed.

(** X8. On [GET], [PATCH] and [DELETE /wines/:id], a well-formed id that
    no stored wine has is answered 200 with a null record, not 404, and
    the store does not change. *)
Theorem unknown_id_is_answered_with_null :
  forall (L : Libraries) env m req oid (w : World Store),
    on_id m = true ->
    healthy w = true ->
    ObjectId_cast (id req) = Some oid ->
    Wine.findById oid (wines (db w)) = None ->
    exists msg w',
      serve env m wines_id req w =
      (Responded (mkReply 200 (Msg true (PWine None) (Some msg))), w') /\
      db w' = db w.
Proof.
  intros L env m req oid w Hm E C F.
  destruct m; try discriminate Hm.
  - rewrite (get_wines_id_run env req oid w E C), F.
    eexists. eexists. split; reflexivity.
  - rewrite (patch_run env req oid w E C).
    rewrite (updateOne_absent oid _ _ F), F.
    eexists. eexists. split; [reflexivity|]. simpl. apply set_wines_same.
  - rewrite (delete_run env req oid w E C).
    rewrite (deleteOne_absent oid _ F), F.
    eexists. eexists. split; [reflexivity|]. simpl. apply set_wines_same.
Qed.

(** X9. [DELETE /wines/:id] on the id of a stored wine answers 200 with
    the wine as it was stored; ids being unique, a [GET /wines/:id] with
    that id then answers with a null record, and every other id resolves
    as before. *)
Theorem deleted_wine_is_gone :
  forall (L : Libraries) env env' req req' oid d (w : World Store),
    healthy w = true ->
    NoDup (map Wine._id (wines (db w))) ->
    ObjectId_cast (id req) = Some oid ->
    ObjectId_cast (id req') = Some oid ->
    Wine.findById oid (wines (db w)) = Some d ->
    exists w1 w2,
      serve env DELETE wines_id req w =
      (Responded
         (mkReply 200 (Msg true (PWine (Some d)) (Some "Deleted successfully"))),
       w1) /\
      serve env' GET wines_id req' w1 =
      (Responded
         (mkReply 200 (Msg true (PWine None) (Some "Found successfully"))),
       w2) /\
      (forall oid', oid' <> oid ->
         Wine.findById oid' (wines (db w1))
         = Wine.findById oid' (wines (db w))) /\
      users (db w1) = users (db w) /\ secrets (db w1) = secrets (db w).
Proof.
  intros L env env' req req' oid d w E N C C' F.
  eexists. eexists. split; [| split; [| split; [| split]]].
  - rewrite (delete_run env req oid w E C), F. reflexivity.
  - rewrite (get_wines_id_run env' req' oid).
    + simpl. rewrite (findById_deleteOne oid _ N). reflexivity.
    + apply (healthy_after_call "Wine" "findOneAndDelete"
               (entered "DELETE /wines/:id" w) E).
    + exact C'.
  - intros oid' Ne. simpl. apply findById_deleteOne_other, Ne.
  - reflexivity.
  - reflexivity.
Qed.

(** X10. [PATCH /wines/:id] is idempotent: the same request served twice
    in a row gets the same answer twice, and the second leaves the store
    as the first left it. *)
Theorem patch_is_idempotent :
  forall (L : Libraries) env env' req (w : World Store),
    healthy w = true ->
    exists r w1 w2,
      serve env PATCH wines_id req w = (Responded r, w1) /\
      serve env' PATCH wines_id req w1 = (Responded r, w2) /\
      db w2 = db w1.
Proof.
  intros L env env' req w E.
  destruct (ObjectId_cast (id req)) as [oid|] eqn:C.
  - eexists. eexists. eexists. split; [| split].
    + apply (patch_run env req oid w E C).
    + rewrite (patch_run env' req oid).
      * cbv zeta. cbn [db wines set_wines].
        rewrite (updateOne_twice oid _ (wines (db w))
                   (description_update_id (field "newDescription" (body req)))
                   (description_update_twice
                      (field "newDescription" (body req)))).
        reflexivity.
      * apply (healthy_after_call "Wine" "findOneAndUpdate"
                 (entered "PATCH /wines/:id" w) E).
      * exact C.
    + reflexivity.
  - assert (R : forall e w0,
               serve e PATCH wines_id req w0 =
               (Responded
                  (mkReply 400
                     (Msg false (PError (CastError "_id"))
                        (Some "Did not updated successfully"))),
                entered "PATCH /wines/:id" w0)).
    { intros e w0. unfold serve, callbacks, dispatch, patch_wines_id.
      rewrite (bind_ok _ _ _ (enter_run _ _)).
      erewrite try_throw; [reflexivity|].
      apply bind_throw. unfold Wine_findByIdAndUpdate, castObjectId.
      rewrite C. apply bind_throw. reflexivity. }
    eexists. eexists. eexists. split; [apply R | split; [apply R | reflexivity]].
Qed.

(** X11. A failure of the store on [GET], [PATCH] or [DELETE /wines/:id]
    is answered 400 with the store's error, and the store does not
    change. *)
Theorem store_failure_on_a_wine_is_answered :
  forall (L : Libraries) env m req oid (w : World Store),
    on_id m = true ->
    hd false (faults w) = true ->
    ObjectId_cast (id req) = Some oid ->
    exists msg w',
      serve env m wines_id req w =
      (Responded (mkReply 400 (Msg false (PError StoreError) (Some msg))), w') /\
      db w' = db w.
Proof.
  intros L env m req oid w Hm F C.
  destruct m; try discriminate Hm;
    unfold serve, callbacks, dispatch, get_wines_id, patch_wines_id,
      delete_wines_id;
    rewrite (bind_ok _ _ _ (enter_run _ _));
    (erewrite try_throw;
     [| apply bind_throw;
        unfold Wine_findById, Wine_findByIdAndUpdate, Wine_findByIdAndDelete,
          castObjectId;
        rewrite C; simpl lift_result;
        rewrite (bind_ok _ _ _ (eq_refl : ret _ _ = (Ok _, _)));
        apply bind_throw; apply store_call_fails; exact F ]);
    eexists; eexists; split; reflexivity.
Qed.

(** X12. On [GET /wines], once the pattern is compiled, whatever fails
    in the [try] - the store, or the cast of the price - is answered 500
    with [{success: false, body: {}}]; the store does not change. *)
Theorem wine_list_failures_are_500 :
  forall (L : Libraries) env req (w : World Store),
    (forall s, lookup "variety" (query req) = Some s -> RegExp_new s <> None) ->
    hd false (faults w) = true \/
    castNumber "price" (price_or_zero (lookup "price" (query req)))
    = Throw (CastError "price") ->
    exists w',
      serve env GET wines_ req w =
      (Responded (mkReply 500 (Search false PNothing)), w') /\
      db w' = db w.
Proof.
  intros L env req w V H.
  unfold serve, callbacks, dispatch, get_wines.
  rewrite (bind_ok _ _ _ (enter_run _ _)).
  assert (R : exists r, forall w0 : World Store,
             new_RegExp (lookup "variety" (query req)) w0 = (Ok r, w0)).
  { unfold new_RegExp. destruct (lookup "variety" (query req)) as [s|].
    - specialize (V s eq_refl). destruct (RegExp_new s) as [r|];
        [|contradiction V; reflexivity].
      exists r. reflexivity.
    - eexists. reflexivity. }
  destruct R as [r R]. rewrite (bind_ok _ _ _ (R _)).
  destruct (castNumber "price" (price_or_zero (lookup "price" (query req))))
    as [t|e] eqn:Cn.
  - destruct H as [F|X]; [|discriminate X].
    erewrite try_throw.
    2:{ apply bind_throw. unfold Wine_find. rewrite Cn. simpl lift_result.
        rewrite (bind_ok _ _ _ (eq_refl : ret _ _ = (Ok _, _))).
        apply bind_throw. apply store_call_fails. exact F. }
    eexists. split; reflexivity.
  - erewrite try_throw.
    2:{ apply bind_throw. unfold Wine_find. rewrite Cn. apply bind_throw.
        reflexivity. }
    eexists. split; reflexivity.
Qed.

(** ** Registration and login *)

(** [POST /register] with an acceptable, new username and a string
    password. *)
Lemma register_creates {L : Libraries} env req (w : World Store) name p :
  hashes_have_60_characters L ->
  healthy w = true ->
  field "username" (body req) = JStr name ->
  (2 <= String.length name <= 20)%nat ->
  field "password" (body req) = JStr p ->
  (forall u, In u (users (db w)) ->
     User._id u <> newObjectId env /\ User.username u <> name) ->
  let d := User.mk (newObjectId env) name (bcrypt_hash p (genSalt env))
             (randomBytes env) in
  serve env POST register req w =
  (Responded
     (mkReply 201
        (Msg true (PAccount name (newObjectId env) (randomBytes env)) None)),
   mkWorld (set_users (users (db w) ++ [d]) (db w)) (schemaLoadedAt w)
     (tl (faults w))
     ((trace w ++ [Enter "POST /register"]) ++ [Call "User" "insertOne"])).
Proof.
  intros H60 E Hn Len Hp Fr d.
  unfold serve, callbacks, dispatch, post_register.
  rewrite (bind_ok _ _ _ (enter_run _ _)).
  rewrite Hn, Hp. simpl bcrypt_hashSync.
  erewrite try_ok.
  2:{ rewrite (bind_ok _ _ _ (eq_refl : ret _ _ = (Ok _, _))).
      erewrite bind_ok; [reflexivity|].
      apply (User_save_healthy env name _ (entered "POST /register" w));
        [exact E | exact Len | rewrite H60; lia | exact Fr]. }
  reflexivity.
Qed.

Lemma login_succeeds {L : Libraries} env req (w : World Store) u p :
  healthy w = true ->
  List.find (User.by_username (castString (field "username" (body req))))
    (users (db w)) = Some u ->
  field "password" (body req) = JStr p ->
  bcrypt_compare p (User.password u) = true ->
  serve env POST login req w =
  (Responded
     (mkReply 200
        (Msg true
           (PAccount (User.username u) (User._id u) (User.accessToken u))
           None)),
   after_call "User" "findOne" (entered "POST /login" w)).
Proof.
  intros E U Hp C. unfold serve, callbacks, dispatch, post_login.
  rewrite (bind_ok _ _ _ (enter_run _ _)).
  erewrite try_ok.
  2:{ erewrite bind_ok by (apply User_findOne_succeeds; auto with store).
      simpl. rewrite U, Hp. simpl bcrypt_compareSync.
      rewrite (bind_ok _ _ _ (eq_refl : ret _ _ = (Ok _, _))).
      rewrite C. reflexivity. }
  reflexivity.
Qed.

(** X13. Registration followed by login: with the username and the
    password just registered, [POST /login] answers 200 with the same
    username, id and accessToken that [POST /register] answered with,
    and does not change the store: login mints no token. *)
Theorem login_returns_the_registered_token :
  forall (L : Libraries) env env' req req' (w : World Store) name p,
    hashes_have_60_characters L ->
    compare_accepts_hash L ->
    healthy w = true ->
    field "username" (body req) = JStr name ->
    (2 <= String.length name <= 20)%nat ->
    field "password" (body req) = JStr p ->
    (forall u, In u (users (db w)) ->
       User._id u <> newObjectId env /\ User.username u <> name) ->
    field "username" (body req') = JStr name ->
    field "password" (body req') = JStr p ->
    exists account w1 w2,
      serve env POST register req w =
      (Responded (mkReply 201 (Msg true account None)), w1) /\
      serve env' POST login req' w1 =
      (Responded (mkReply 200 (Msg true account None)), w2) /\
      account = PAccount name (newObjectId env) (randomBytes env) /\
      db w2 = db w1.
Proof.
  intros L env env' req req' w name p H60 Hc E Hn Len Hp Fr Hn' Hp'.
  eexists. eexists. eexists. split; [| split; [| split]].
  - apply (register_creates env req w name p); assumption.
  - erewrite (login_succeeds env' req' _
                (User.mk (newObjectId env) name (bcrypt_hash p (genSalt env))
                   (randomBytes env)) p).
    + reflexivity.
    + apply (healthy_after_call "User" "insertOne"
               (entered "POST /register" w) E).
    + rewrite Hn'. simpl.
      apply find_snoc_fresh.
      * intros x I. apply String.eqb_neq, (Fr x I).
      * apply String.eqb_refl.
    + exact Hp'.
    + apply Hc.
  - reflexivity.
  - reflexivity.
Qed.

(** X14. [POST /register] with a username shorter than 2 or longer than
    20 characters is answered 400 with a validation error on [username];
    the store is not asked. *)
Theorem register_rejects_bad_username_length :
  forall (L : Libraries) env req (w : World Store) name p,
    field "username" (body req) = JStr name ->
    field "password" (body req) = JStr p ->
    (String.length name < 2 \/ 20 < String.length name)%nat ->
    exists paths,
      In "username" paths /\
      serve env POST register req w =
      (Responded (mkReply 400 (Msg false (PError (ValidationError paths)) None)),
       entered "POST /register" w).
Proof.
  intros L env req w name p Hn Hp Bad.
  unfold serve, callbacks, dispatch, post_register.
  rewrite (bind_ok _ _ _ (enter_run _ _)).
  rewrite Hn, Hp. simpl bcrypt_hashSync.
  set (h := bcrypt_hash p (genSalt env)).
  set (paths := check "username" false ++
                check "password" (required (Some h) && minlength 5 (Some h))).
  assert (I : In "username" paths) by (left; reflexivity).
  exists paths. split; [exact I|].
  erewrite try_throw; [reflexivity|].
  rewrite (bind_ok _ _ _ (eq_refl : ret _ _ = (Ok _, _))).
  apply bind_throw. unfold User_save. apply bind_throw.
  unfold User.new. simpl castString.
  assert (B : required (Some name) && minlength 2 (Some name)
              && maxlength 20 (Some name) = false).
  { unfold minlength, maxlength. destruct Bad as [B|B].
    - apply Nat.leb_gt in B. rewrite B, andb_false_r. reflexivity.
    - apply Nat.leb_gt in B. rewrite B, andb_false_r. reflexivity. }
  rewrite B. fold h. fold paths.
  rewrite (validated_fails paths _ _ I). reflexivity.
Qed.

(** X15. [POST /register] with the username of a stored user fails on
    the unique index: 400 with the duplicate key error, and the store is
    as before. *)
Theorem duplicate_username_is_rejected :
  forall (L : Libraries) env req (w : World Store) name p u0,
    hashes_have_60_characters L ->
    healthy w = true ->
    field "username" (body req) = JStr name ->
    (2 <= String.length name <= 20)%nat ->
    field "password" (body req) = JStr p ->
    (forall u, In u (users (db w)) -> User._id u <> newObjectId env) ->
    In u0 (users (db w)) -> User.username u0 = name ->
    exists w',
      serve env POST register req w =
      (Responded
         (mkReply 400 (Msg false (PError (DuplicateKey "username")) None)),
       w') /\
      db w' = db w.
Proof.
  intros L env req w name p u0 H60 E Hn [Lo Hi] Hp Fr I0 N0.
  unfold serve, callbacks, dispatch, post_register.
  rewrite (bind_ok _ _ _ (enter_run _ _)).
  rewrite Hn, Hp. simpl bcrypt_hashSync.
  erewrite try_throw.
  2:{ rewrite (bind_ok _ _ _ (eq_refl : ret _ _ = (Ok _, _))).
      apply bind_throw. unfold User_save, User.new.
      simpl castString. unfold required, minlength, maxlength.
      rewrite (nonempty_of_length name 1 Lo).
      rewrite (nonempty_of_length (bcrypt_hash p (genSalt env)) 4)
        by (rewrite H60; lia).
      apply Nat.leb_le in Lo, Hi. rewrite Lo, Hi.
      assert (Hh : (5 <=? String.length (bcrypt_hash p (genSalt env)))%nat
                   = true) by (apply Nat.leb_le; rewrite H60; lia).
      rewrite Hh. simpl check. simpl validated. simpl lift_result.
      rewrite (bind_ok _ _ _ (eq_refl : ret _ _ = (Ok _, _))).
      erewrite bind_ok by (apply store_call_healthy; exact E).
      unfold bind, get_db, User.insert. simpl.
      assert (F1 : existsb
                     (fun d' => String.eqb (User._id d') (newObjectId env))
                     (users (db w)) = false).
      { apply existsb_false_iff. intros x I. apply String.eqb_neq, (Fr x I). }
      assert (F2 : existsb (fun d' => String.eqb (User.username d') name)
                     (users (db w)) = true).
      { apply existsb_exists. exists u0. split; [exact I0|].
        apply String.eqb_eq, N0. }
      rewrite F1, F2. reflexivity. }
  eexists. split; reflexivity.
Qed.

(** X16. [POST /register] whose [password] is absent or is not a string
    is answered 400 with bcrypt's error: nothing is validated or
    stored, and the store is not asked. *)
Theorem register_without_password_is_rejected :
  forall (L : Libraries) env req (w : World Store),
    (forall s, field "password" (body req) <> JStr s) ->
    serve env POST register req w =
    (Responded (mkReply 400 (Msg false (PError BcryptError) None)),
     entered "POST /register" w).
Proof.
  intros L env req w Hp.
  unfold serve, callbacks, dispatch, post_register.
  rewrite (bind_ok _ _ _ (enter_run _ _)).
  erewrite try_throw; [reflexivity|].
  apply bind_throw. unfold bcrypt_hashSync.
  destruct (field "password" (body req)) as [| | b | q | s]; try reflexivity.
  contradiction (Hp s). reflexivity.
Qed.

(** ** Secrets behind the gate *)

(** X17. The token [POST /register] answers with opens [GET /secrets]:
    presented in the [Authorization] header it passes the gate, and the
    answer is 200 with the secrets stored under the new user's id. *)
Theorem registered_token_opens_secrets :
  forall (L : Libraries) env env' req req' (w : World Store) name p,
    hashes_have_60_characters L ->
    healthy w = true ->
    field "username" (body req) = JStr name ->
    (2 <= String.length name <= 20)%nat ->
    field "password" (body req) = JStr p ->
    (forall u, In u (users (db w)) ->
       User._id u <> newObjectId env /\ User.username u <> name /\
       User.accessToken u <> randomBytes env) ->
    header req' "Authorization" = Some (randomBytes env) ->
    exists w1 w2,
      serve env POST register req w =
      (Responded
         (mkReply 201
            (Msg true (PAccount name (newObjectId env) (randomBytes env)) None)),
       w1) /\
      serve env' GET secrets_ req' w1 =
      (Responded
         (mkReply 200
            (Msg true
               (PSecrets
                  (List.filter (Secret.by_user (newObjectId env))
                     (secrets (db w))))
               None)),
       w2).
Proof.
  intros L env env' req req' w name p H60 E Hn Len Hp Fr Hh.
  set (d := User.mk (newObjectId env) name (bcrypt_hash p (genSalt env))
              (randomBytes env)).
  assert (R := register_creates env req w name p H60 E Hn Len Hp
                 (fun u I => conj (proj1 (Fr u I)) (proj1 (proj2 (Fr u I))))).
  cbv zeta in R. fold d in R.
  set (w1 := mkWorld (set_users (users (db w) ++ [d]) (db w))
               (schemaLoadedAt w) (tl (faults w))
               ((trace w ++ [Enter "POST /register"])
                ++ [Call "User" "insertOne"])) in *.
  assert (E1 : healthy w1 = true).
  { apply (healthy_after_call "User" "insertOne"
             (entered "POST /register" w) E). }
  assert (U1 : List.find (User.by_accessToken (header req' "Authorization"))
                 (users (db w1)) = Some d).
  { rewrite Hh. simpl. apply find_snoc_fresh.
    - intros x I. apply String.eqb_neq, (Fr x I).
    - apply String.eqb_refl. }
  destruct (get_secrets_lists env' req' w1 E1 U1) as [w2 G].
  exists w1, w2. split; [exact R | exact G].
Qed.

Lemma filter_snoc_out {A} (f : A -> bool) l d :
  f d = false -> List.filter f (l ++ [d]) = List.filter f l.
Proof.
  intros F. rewrite filter_app. simpl. rewrite F. apply app_nil_r.
Qed.

(** X18. What one user posts does not show in another's list: after an
    authenticated [POST /secrets] by a user, a [GET /secrets] by a user
    with another id is answered exactly as it was before. *)
Theorem secrets_of_others_are_untouched :
  forall (L : Libraries) env reqA reqB (w : World Store) a b,
    healthy w = true ->
    List.find (User.by_accessToken (header reqA "Authorization"))
      (users (db w)) = Some a ->
    List.find (User.by_accessToken (header reqB "Authorization"))
      (users (db w)) = Some b ->
    User._id a <> User._id b ->
    User._id a <> "" ->
    existsb (fun d' => String.eqb (Secret._id d') (newObjectId env))
      (secrets (db w)) = false ->
    exists w1,
      serve env POST secrets_ reqA w = (NoResponse, w1) /\
      forall env',
        fst (serve env' GET secrets_ reqB w1)
        = fst (serve env' GET secrets_ reqB w).
Proof.
  intros L env reqA reqB w a b E Ua Ub Ne Na Fr.
  destruct (post_secrets_persists env reqA w E Ua Na Fr) as [w1 [P [E1 D1]]].
  exists w1. split; [exact P|]. intros env'.
  assert (Ub1 : List.find (User.by_accessToken (header reqB "Authorization"))
                  (users (db w1)) = Some b).
  { rewrite D1. exact Ub. }
  destruct (get_secrets_lists env' reqB w1 E1 Ub1) as [w2 G1].
  destruct (get_secrets_lists env' reqB w E Ub) as [w3 G0].
  rewrite G1, G0. simpl. rewrite D1. simpl.
  rewrite filter_snoc_out; [reflexivity|].
  apply String.eqb_neq. exact Ne.
Qed.

(** X19. The callbacks behind the gate have no [try]: when the gate's
    lookup succeeds and the next call to the store fails, [GET /secrets]
    and [POST /secrets] send no answer at all; the store does not
    change. *)
Theorem failure_behind_the_gate_is_unanswered :
  forall (L : Libraries) env m req (w : World Store) u,
    m = GET \/ m = POST ->
    hd false (faults w) = false ->
    hd false (tl (faults w)) = true ->
    List.find (User.by_accessToken (header req "Authorization")) (users (db w))
    = Some u ->
    exists w',
      serve env m secrets_ req w = (Unhandled StoreError, w') /\
      db w' = db w.
Proof.
  intros L env m req w u Hm F0 F1 U.
  destruct Hm; subst m; unfold serve, callbacks, dispatch;
    rewrite (authenticateUser_admits req w F0 U);
    unfold get_secrets, post_secrets;
    rewrite (bind_ok _ _ _ (enter_run _ _));
    (erewrite bind_throw; [| apply User_findOne_fails; exact F1]);
    eexists; split; reflexivity.
Qed.

(** ** The baseline server *)

Lemma Qleb_spec x y : Qleb x y = true <-> (x <= y)%Q.
Proof.
  unfold Qleb. rewrite negb_true_iff. split.
  - intros E. apply Qnot_lt_le. intros Lt. apply Qgtb_spec in Lt.
    rewrite Lt in E. discriminate.
  - intros Le. destruct (Qgtb x y) eqn:G; [|reflexivity].
    apply Qgtb_spec in G. exfalso. exact (Qlt_not_le _ _ G Le).
Qed.

Lemma enum_spec allowed k : enum allowed (Some k) = true <-> In k allowed.
Proof.
  simpl. rewrite existsb_exists. split.
  - intros [x [I E]]. apply String.eqb_eq in E. subst. exact I.
  - intros I. exists k. split; [exact I | apply String.eqb_refl].
Qed.

Lemma baseline_new_valid {L : Libraries} loadedAt oid n s q k :
  n <> "" ->
  (2 <= String.length (trim s) <= 300)%nat ->
  (1 <= q <= 5)%Q ->
  In k ["red"; "white"; "rose"; "sparkling"; "other"] ->
  Baseline.Wine.new loadedAt oid (JStr n) (JStr s) (JNum q) (JStr k) =
  Ok (Baseline.Wine.mk oid n (Some (trim s)) q loadedAt k).
Proof.
  intros Nn [Lo Hi] [Q1 Q5] K. unfold Baseline.Wine.new.
  simpl castString. simpl option_map. simpl castNumber.
  assert (Nk : k <> "").
  { intros ->. simpl in K. intuition discriminate. }
  apply enum_spec in K. rewrite K.
  unfold required, minlength, maxlength, requiredNumber, min, max.
  rewrite (eqb_empty_false n Nn), (eqb_empty_false k Nk).
  rewrite (nonempty_of_length (trim s) 1 Lo).
  apply Nat.leb_le in Lo, Hi. rewrite Lo, Hi.
  apply Qleb_spec in Q1, Q5. rewrite Q1, Q5. reflexivity.
Qed.

(** [POST /wines] of the baseline with acceptable fields, a new name and
    a fresh id. *)
Lemma baseline_post_wines_creates {L : Libraries} env req
    (w : World Baseline.Store) n s q k :
  healthy w = true ->
  field "name" (body req) = JStr n ->
  field "description" (body req) = JStr s ->
  field "rating" (body req) = JNum q ->
  field "kind" (body req) = JStr k ->
  n <> "" ->
  (2 <= String.length (trim s) <= 300)%nat ->
  (1 <= q <= 5)%Q ->
  In k ["red"; "white"; "rose"; "sparkling"; "other"] ->
  (forall d, In d (db w) ->
     Baseline.Wine._id d <> newObjectId env /\ Baseline.Wine.name d <> n) ->
  let d := Baseline.Wine.mk (newObjectId env) n (Some (trim s)) q
             (schemaLoadedAt w) k in
  BaselineRoutes.serve env POST wines_ req w =
  (Responded
     (mkReply 201
        (Msg true (Baseline.PWine (Some d))
           (Some "Wine item successfully created"))),
   mkWorld (db w ++ [d]) (schemaLoadedAt w) (tl (faults w))
     ((trace w ++ [Enter "POST /wines"]) ++ [Call "Wine" "insertOne"])).
Proof.
  intros E Hn Hs Hq Hk Nn Len Q K Fr d.
  unfold BaselineRoutes.serve, BaselineRoutes.callbacks, dispatch,
    Baseline.post_wines.
  rewrite (bind_ok _ _ _ (enter_run _ _)).
  rewrite Hn, Hs, Hq, Hk.
  erewrite try_ok.
  2:{ erewrite bind_ok; [reflexivity|].
      unfold Baseline.Wine_save.
      rewrite (bind_ok _ _ _ (eq_refl : get_schemaLoadedAt _ = (Ok _, _))).
      rewrite (baseline_new_valid _ _ n s q k Nn Len Q K). simpl lift_result.
      rewrite (bind_ok _ _ _ (eq_refl : ret _ _ = (Ok _, _))).
      erewrite bind_ok by (apply store_call_healthy; exact E).
      unfold bind, get_db, Baseline.Wine.insert, Baseline.Wine.has_id. simpl.
      assert (F1 : existsb
                     (fun d' => String.eqb (Baseline.Wine._id d')
                                  (newObjectId env)) (db w) = false).
      { apply existsb_false_iff. intros x I. apply String.eqb_neq, (Fr x I). }
      assert (F2 : existsb (fun d' => String.eqb (Baseline.Wine.name d') n)
                     (db w) = false).
      { apply existsb_false_iff. intros x I. apply String.eqb_neq, (Fr x I). }
      rewrite F1, F2. reflexivity. }
  reflexivity.
Qed.

(** X20. In the baseline, a wine created by [POST /wines] is listed by
    the next [GET /wines], which answers 200 with the whole collection,
    the new wine last, and is found by [GET /wines/:id] under its id. *)
Theorem baseline_created_wine_is_listed :
  forall (L : Libraries) env env' req req' (w : World Baseline.Store) n s q k,
    healthy w = true ->
    field "name" (body req) = JStr n ->
    field "description" (body req) = JStr s ->
    field "rating" (body req) = JNum q ->
    field "kind" (body req) = JStr k ->
    n <> "" ->
    (2 <= String.length (trim s) <= 300)%nat ->
    (1 <= q <= 5)%Q ->
    In k ["red"; "white"; "rose"; "sparkling"; "other"] ->
    (forall d, In d (db w) ->
       Baseline.Wine._id d <> newObjectId env /\ Baseline.Wine.name d <> n) ->
    ObjectId_cast (id req') = Some (newObjectId env) ->
    exists d w1 w2 w3,
      BaselineRoutes.serve env POST wines_ req w =
      (Responded
         (mkReply 201
            (Msg true (Baseline.PWine (Some d))
               (Some "Wine item successfully created"))),
       w1) /\
      BaselineRoutes.serve env' GET wines_ req' w1 =
      (Responded
         (mkReply 200
            (Msg true (Baseline.PWines (db w ++ [d]))
               (Some "Wine items successfully retrieved"))),
       w2) /\
      BaselineRoutes.serve env' GET wines_id req' w1 =
      (Responded
         (mkReply 200
            (Msg true (Baseline.PWine (Some d)) (Some "Found successfully"))),
       w3) /\
      Baseline.Wine.name d = n /\ Baseline.Wine.rating d = q /\
      Baseline.Wine.kind d = k /\
      Baseline.Wine.description d = Some (trim s).
Proof.
  intros L env env' req req' w n s q k E Hn Hs Hq Hk Nn Len Q K Fr C.
  set (d := Baseline.Wine.mk (newObjectId env) n (Some (trim s)) q
              (schemaLoadedAt w) k).
  set (w1 := mkWorld (db w ++ [d]) (schemaLoadedAt w) (tl (faults w))
               ((trace w ++ [Enter "POST /wines"])
                ++ [Call "Wine" "insertOne"])).
  assert (E1 : healthy w1 = true).
  { apply (healthy_after_call "Wine" "insertOne" (entered "POST /wines" w) E). }
  exists d, w1. eexists. eexists. split; [| split; [| split]].
  - apply (baseline_post_wines_creates env req w n s q k); assumption.
  - unfold BaselineRoutes.serve, BaselineRoutes.callbacks, dispatch,
      Baseline.get_wines.
    rewrite (bind_ok _ _ _ (enter_run _ _)).
    erewrite bind_ok.
    2:{ unfold Baseline.Wine_find.
        erewrite bind_ok by (apply store_call_healthy; exact E1).
        reflexivity. }
    reflexivity.
  - unfold BaselineRoutes.serve, BaselineRoutes.callbacks, dispatch,
      Baseline.get_wines_id.
    rewrite (bind_ok _ _ _ (enter_run _ _)).
    erewrite try_ok.
    2:{ erewrite bind_ok; [reflexivity|].
        unfold Baseline.Wine_findById, castObjectId. rewrite C.
        simpl lift_result.
        rewrite (bind_ok _ _ _ (eq_refl : ret _ _ = (Ok _, _))).
        erewrite bind_ok by (apply store_call_healthy; exact E1).
        unfold bind, get_db, ret. simpl. unfold Baseline.Wine.findById.
        rewrite (find_snoc_fresh (Baseline.Wine.has_id (newObjectId env))
                   (db w) d).
        - reflexivity.
        - intros x I. apply String.eqb_neq, (Fr x I).
        - apply String.eqb_refl. }
    reflexivity.
  - repeat split.
Qed.

Lemma in_check p p' ok : In p (check p' ok) <-> p' = p /\ ok = false.
Proof.
  unfold check. destruct ok; simpl.
  - split; [intros [] | intros [_ X]; discriminate X].
  - split; [intros [X|[]]; auto | intros [X _]; left; exact X].
Qed.

Lemma Qleb_false x y : Qleb x y = false <-> (y < x)%Q.
Proof. unfold Qleb. rewrite negb_false_iff. apply Qgtb_spec. Qed.

(** The paths [new] reports for the baseline: [rating] exactly when a
    numeric rating is outside [1, 5], [kind] exactly when a string kind
    is outside the enumeration. *)
Lemma baseline_new_paths {L : Libraries} loadedAt oid n d r k :
  exists paths doc,
    Baseline.Wine.new loadedAt oid n d r k = validated paths doc /\
    (forall q, r = JNum q -> (In "rating" paths <-> (q < 1 \/ 5 < q)%Q)) /\
    (forall s, k = JStr s ->
       (In "kind" paths <->
        ~ In s ["red"; "white"; "rose"; "sparkling"; "other"])).
Proof.
  unfold Baseline.Wine.new. eexists. eexists. split; [reflexivity|]. split.
  - intros q ->. simpl castNumber. cbv beta iota.
    rewrite !in_app_iff, !in_check.
    assert (K : requiredNumber (Some q) && min 1 (Some q) && max 5 (Some q)
                = false <-> (q < 1 \/ 5 < q)%Q).
    { unfold requiredNumber, min, max. simpl andb.
      rewrite andb_false_iff, !Qleb_false. reflexivity. }
    rewrite <- K. split.
    + intros [[X _]|[[X _]|[[_ X]|[X _]]]]; try discriminate X. exact X.
    + intros X. right. right. left. split; [reflexivity | exact X].
  - intros s ->. simpl castString.
    rewrite !in_app_iff, !in_check.
    assert (K : required (Some s)
                && enum ["red"; "white"; "rose"; "sparkling"; "other"] (Some s)
                = false <->
                ~ In s ["red"; "white"; "rose"; "sparkling"; "other"]).
    { rewrite andb_false_iff. split.
      - intros [X|X] I.
        + unfold required in X. apply negb_false_iff, String.eqb_eq in X.
          subst s. simpl in I. intuition discriminate.
        + apply enum_spec in I. rewrite I in X. discriminate X.
      - intros N. right.
        destruct (enum _ (Some s)) eqn:X; [|reflexivity].
        apply enum_spec in X. contradiction. }
    rewrite <- K. split.
    + intros [[X _]|[[X _]|[[X _]|[_ X]]]]; try discriminate X. exact X.
    + intros X. right. right. right. split; [reflexivity | exact X].
Qed.

(** X21. In the baseline, [POST /wines] with a rating that is a number
    outside [1, 5], or with a kind that is a string outside the
    enumeration, is answered 418 with a validation error, the store not
    being asked; the error names [rating] exactly when a numeric rating
    is out of range, and [kind] exactly when a string kind is outside
    the enumeration. *)
Theorem baseline_rejects_rating_and_kind :
  forall (L : Libraries) env req (w : World Baseline.Store),
    (exists q, field "rating" (body req) = JNum q /\ (q < 1 \/ 5 < q)%Q) \/
    (exists k, field "kind" (body req) = JStr k /\
               ~ In k ["red"; "white"; "rose"; "sparkling"; "other"]) ->
    exists paths,
      BaselineRoutes.serve env POST wines_ req w =
      (Responded
         (mkReply 418
            (Msg false (Baseline.PError (ValidationError paths))
               (Some "Error occured could not create wine item"))),
       entered "POST /wines" w) /\
      (forall q, field "rating" (body req) = JNum q ->
         (In "rating" paths <-> (q < 1 \/ 5 < q)%Q)) /\
      (forall k, field "kind" (body req) = JStr k ->
         (In "kind" paths <->
          ~ In k ["red"; "white"; "rose"; "sparkling"; "other"])).
Proof.
  intros L env req w Bad.
  destruct (baseline_new_paths (schemaLoadedAt w) (newObjectId env)
              (field "name" (body req)) (field "description" (body req))
              (field "rating" (body req)) (field "kind" (body req)))
    as [paths [doc [N [Hr Hk]]]].
  exists paths. split; [| split; [exact Hr | exact Hk]].
  assert (F : exists p, In p paths).
  { destruct Bad as [[q [Eq Out]]|[k [Ek Out]]].
    - exists "rating". apply (Hr q Eq), Out.
    - exists "kind". apply (Hk k Ek), Out. }
  destruct F as [p F].
  unfold BaselineRoutes.serve, BaselineRoutes.callbacks, dispatch,
    Baseline.post_wines.
  rewrite (bind_ok _ _ _ (enter_run _ _)).
  erewrite try_throw; [reflexivity|].
  apply bind_throw. unfold Baseline.Wine_save.
  rewrite (bind_ok _ _ _ (eq_refl : get_schemaLoadedAt _ = (Ok _, _))).
  apply bind_throw. cbn [schemaLoadedAt entered]. rewrite N.
  rewrite (validated_fails paths doc p F). reflexivity.
Qed.

(** X22. In the baseline, [GET /wines] has no [try]: when the store
    fails the request gets no answer at all (where the server with users
    answers 500); the store does not change. *)
Theorem baseline_list_failure_is_unanswered :
  forall (L : Libraries) env req (w : World Baseline.Store),
    hd false (faults w) = true ->
    exists w',
      BaselineRoutes.serve env GET wines_ req w = (Unhandled StoreError, w') /\
      db w' = db w.
Proof.
  intros L env req w F.
  unfold BaselineRoutes.serve, BaselineRoutes.callbacks, dispatch,
    Baseline.get_wines.
  rewrite (bind_ok _ _ _ (enter_run _ _)).
  erewrite bind_throw.
  2:{ unfold Baseline.Wine_find. apply bind_throw.
      apply store_call_fails. exact F. }
  eexists. split; reflexivity.
Qed.

Lemma baseline_insert_unique d coll l :
  Baseline.Wine.insert d coll = Ok l ->
  NoDup (map Baseline.Wine._id coll) -> NoDup (map Baseline.Wine.name coll) ->
  NoDup (map Baseline.Wine._id l) /\ NoDup (map Baseline.Wine.name l).
Proof.
  unfold Baseline.Wine.insert, Baseline.Wine.has_id.
  destruct (existsb (fun d' => String.eqb (Baseline.Wine._id d')
                                 (Baseline.Wine._id d)) coll)
    eqn:E1; [discriminate|].
  destruct (existsb (fun d' => String.eqb (Baseline.Wine.name d')
                                 (Baseline.Wine.name d)) coll)
    eqn:E2; [discriminate|].
  intros [= <-] N1 N2. split; apply NoDup_keys_snoc; assumption.
Qed.

Lemma baseline_map_updateOne {K} (g : Baseline.Wine.doc -> K) oid f l :
  (forall x, g (f x) = g x) ->
  map g (Baseline.Wine.updateOne oid f l) = map g l.
Proof.
  intros G. induction l as [|a l IH]; simpl; [reflexivity|].
  destruct (Baseline.Wine.has_id oid a); simpl;
    [rewrite G | rewrite IH]; reflexivity.
Qed.

Lemma baseline_deleteOne_incl oid l x :
  In x (Baseline.Wine.deleteOne oid l) -> In x l.
Proof.
  induction l as [|a l IH]; simpl; [auto|].
  destruct (Baseline.Wine.has_id oid a); simpl; intuition.
Qed.

Lemma baseline_NoDup_map_deleteOne {K} (g : Baseline.Wine.doc -> K) oid l :
  NoDup (map g l) -> NoDup (map g (Baseline.Wine.deleteOne oid l)).
Proof.
  induction l as [|a l IH]; simpl; [auto|].
  intros N. inversion N as [|k ks Hk Hks]; subst.
  destruct (Baseline.Wine.has_id oid a); simpl; [exact Hks|].
  constructor; [|apply IH, Hks].
  intros I. apply Hk. apply in_map_iff in I. destruct I as [x [E I]].
  apply in_map_iff. exists x. split; [exact E|].
  apply (baseline_deleteOne_incl oid), I.
Qed.

Lemma baseline_Wine_save_stable {L : Libraries} env n d r k :
  stable baseline_unique_keys (Baseline.Wine_save env n d r k).
Proof.
  unfold Baseline.Wine_save.
  do 3 (apply stable_bind; [auto with stable | intro]).
  intros w (N1 & N2). unfold bind, get_db. simpl.
  destruct (Baseline.Wine.insert _ _) as [l|e] eqn:I; simpl.
  - apply (baseline_insert_unique _ _ _ I N1 N2).
  - split; assumption.
Qed.

Lemma baseline_update_stable {L : Libraries} i v :
  stable baseline_unique_keys (Baseline.Wine_findByIdAndUpdate i v).
Proof.
  unfold Baseline.Wine_findByIdAndUpdate.
  do 2 (apply stable_bind; [auto with stable | intro]).
  intros w (N1 & N2). unfold bind, get_db, put_db. simpl. split.
  - rewrite baseline_map_updateOne;
      [exact N1 | intros x; destruct v; reflexivity].
  - rewrite baseline_map_updateOne;
      [exact N2 | intros x; destruct v; reflexivity].
Qed.

Lemma baseline_delete_stable {L : Libraries} i :
  stable baseline_unique_keys (Baseline.Wine_findByIdAndDelete i).
Proof.
  unfold Baseline.Wine_findByIdAndDelete.
  do 2 (apply stable_bind; [auto with stable | intro]).
  intros w (N1 & N2). unfold bind, get_db, put_db. simpl.
  split; apply baseline_NoDup_map_deleteOne; assumption.
Qed.

#[local] Hint Resolve baseline_Wine_save_stable baseline_update_stable
  baseline_delete_stable : stable.

(** X23. Every route of the baseline keeps ids and names unique,
    however the request ends. *)
Theorem baseline_routes_keep_keys_unique :
  forall (L : Libraries) env m r req (w : World Baseline.Store),
    baseline_unique_keys (db w) ->
    baseline_unique_keys (db (snd (BaselineRoutes.serve env m r req w))).
Proof.
  intros L env m r req w U. unfold BaselineRoutes.serve.
  apply (dispatch_stable baseline_unique_keys); [|exact U].
  destruct m, r; simpl; repeat apply Forall_cons; try apply Forall_nil;
    unfold Baseline.post_wines, Baseline.get_wines, Baseline.patch_wines_id,
      Baseline.get_wines_id, Baseline.delete_wines_id;
    stable_steps.
Qed.

(** ** The reference bcrypt verifies what it hashed *)

Lemma substring_whole s : String.substring 0 (String.length s) s = s.
Proof. induction s as [|c s IH]; simpl; [reflexivity | rewrite IH; reflexivity]. Qed.

Lemma substring_after a b m :
  String.substring (String.length a) m (String.append a b)
  = String.substring 0 m b.
Proof. induction a as [|c a IH]; simpl; [reflexivity | exact IH]. Qed.

Lemma reference_compare_accepts_hash :
  compare_accepts_hash Reference.libraries.
Proof.
  intros data salt.
  change (Reference.compare data (Reference.hash data salt) = true).
  unfold Reference.compare, Reference.hash.
  change (String.substring 29 31
            (String.append "$2b$10$"
               (String.append (Reference.fit 22 salt) (Reference.fit 31 data))))
    with (String.substring 22 31
            (String.append (Reference.fit 22 salt) (Reference.fit 31 data))).
  rewrite <- (fit_length 22 salt) at 1. rewrite substring_after.
  rewrite <- (fit_length 31 data) at 1. rewrite substring_whole.
  apply String.eqb_refl.
Qed.
(** ** The statements on the sample store *)

#[local] Existing Instance Reference.libraries.

(** C5, as worded, fails: the parameter [.] is a pattern that matches
    ["Merlot"], which does not contain a dot. *)
Lemma variety_filter_reads_patterns :
  ~ variety_filter_as_specified Reference.libraries.
Proof.
  intros S.
  destruct (S Sample.env (Sample.with_query [("variety", ".")]) Sample.world
              "." eq_refl eq_refl) as [S0 _].
  destruct (S0 eq_refl) as [l [[w' G] Iff]].
  vm_compute in G. injection G as <- _.
  destruct (proj1 (Iff Sample.merlot)) as [_ C].
  - left. reflexivity.
  - vm_compute in C. discriminate C.
Qed.

Lemma gate_rejects_unknown_credentials_witness :
  (forall u, In u (users (db Sample.world)) ->
     Some (User.accessToken u)
     <> header (mkRequest [("authorization", "f00")] [] "" []) "Authorization") /\
  exists p w',
    serve Sample.env GET secrets_
      (mkRequest [("authorization", "f00")] [] "" []) Sample.world =
    (Responded (mkReply 401 (Msg false p None)), w') /\
    db w' = db Sample.world /\
    trace w' =
    trace Sample.world ++ [Enter "authenticateUser"; Call "User" "findOne"].
Proof.
  assert (N : forall u, In u (users (db Sample.world)) ->
            Some (User.accessToken u)
            <> header (mkRequest [("authorization", "f00")] [] "" [])
                 "Authorization").
  { intros u [<-|[<-|[]]]; discriminate. }
  split; [exact N|].
  apply (gate_rejects_unknown_credentials Reference.libraries Sample.env GET
           (mkRequest [("authorization", "f00")] [] "" []) Sample.world).
  - left. reflexivity.
  - right. exact N.
Defined.

Lemma secrets_are_those_of_the_caller_witness :
  healthy Sample.world = true /\
  List.find
    (User.by_accessToken
       (header (Sample.as_alice [("message", JStr "hello")]) "Authorization"))
    (users (db Sample.world)) = Some Sample.alice /\
  exists l w',
    serve Sample.env GET secrets_ (Sample.as_alice [("message", JStr "hello")])
      Sample.world =
    (Responded (mkReply 200 (Msg true (PSecrets l) None)), w') /\
    forall s, In s l <->
      In s (secrets (db Sample.world)) /\
      Secret.user s = User._id Sample.alice.
Proof.
  split; [reflexivity|]. split; [reflexivity|].
  exact (proj1
           (secrets_are_those_of_the_caller Reference.libraries Sample.env
              (Sample.as_alice [("message", JStr "hello")]) Sample.world
              Sample.alice eq_refl eq_refl)).
Defined.

Lemma register_accepts_short_passwords_witness :
  healthy Sample.world = true /\
  (String.length "abc" < 5)%nat /\
  exists w',
    serve Sample.env POST register
      (Sample.with_body [("username", JStr "carol"); ("password", JStr "abc")])
      Sample.world =
    (Responded
       (mkReply 201
          (Msg true (PAccount "carol" (newObjectId Sample.env)
                       (randomBytes Sample.env)) None)),
     w') /\
    users (db w') =
    users (db Sample.world) ++
    [User.mk (newObjectId Sample.env) "carol"
       (bcrypt_hash "abc" (genSalt Sample.env)) (randomBytes Sample.env)].
Proof.
  split; [reflexivity|]. split; [simpl; lia|].
  apply (register_accepts_short_passwords Reference.libraries Sample.env
           (Sample.with_body
              [("username", JStr "carol"); ("password", JStr "abc")])
           Sample.world "carol" "abc").
  - exact reference_hashes_have_60_characters.
  - reflexivity.
  - reflexivity.
  - simpl. lia.
  - reflexivity.
  - simpl. lia.
  - intros u [<-|[<-|[]]]; split; discriminate.
Defined.

Lemma price_filter_is_strictly_greater_witness :
  healthy Sample.world = true /\
  lookup "variety" (query (Sample.with_query [("price", "15")])) = None /\
  exists l,
    lists_wines Sample.env (Sample.with_query [("price", "15")]) Sample.world l /\
    forall d, In d l <->
      In d (wines (db Sample.world)) /\ priced_above 15 d.
Proof.
  split; [reflexivity|]. split; [reflexivity|].
  apply (price_filter_is_strictly_greater Sample.env
           (Sample.with_query [("price", "15")]) Sample.world "15" 15%Q).
  - reflexivity.
  - reflexivity.
  - reflexivity.
  - discriminate.
  - reflexivity.
Defined.

Lemma wine_list_omits_unpriced_wines_witness :
  healthy Sample.world = true /\
  In Sample.house (wines (db Sample.world)) /\
  Wine.price Sample.house = None /\
  exists l,
    lists_wines Sample.env (Sample.with_query []) Sample.world l /\
    ~ In Sample.house l.
Proof.
  split; [reflexivity|].
  split; [right; right; left; reflexivity|].
  split; [reflexivity|].
  apply (wine_list_omits_unpriced_wines Reference.libraries Sample.env
           (Sample.with_query []) Sample.world Sample.house).
  - reflexivity.
  - reflexivity.
  - reflexivity.
  - right. right. left. reflexivity.
  - reflexivity.
Defined.

Lemma variety_filter_is_a_pattern_match_witness :
  healthy Sample.world = true /\
  RegExp_new "Pinot" = Some (Reference.search "Pinot") /\
  exists l,
    lists_wines Sample.env
      (Sample.with_query [("variety", "Pinot"); ("price", "15")])
      Sample.world l /\
    (forall d, In d l ->
       In d (wines (db Sample.world)) /\
       Reference.search "Pinot" (Wine.variety d) = true) /\
    (forall d, In d (wines (db Sample.world)) ->
       Reference.search "Pinot" (Wine.variety d) = true ->
       priced_above 15 d -> In d l) /\
    (forall p,
       lookup "price"
         (query (Sample.with_query [("variety", "Pinot"); ("price", "15")]))
       = Some p -> p <> "" ->
     forall d, In d l <->
       In d (wines (db Sample.world)) /\
       Reference.search "Pinot" (Wine.variety d) = true /\ priced_above 15 d) /\
    (literals_match_substrings Reference.libraries ->
     literal_pattern "Pinot" = true ->
     forall v, Reference.search "Pinot" v = includes "Pinot" v).
Proof.
  split; [reflexivity|]. split; [reflexivity|].
  apply (variety_filter_is_a_pattern_match Reference.libraries Sample.env
           (Sample.with_query [("variety", "Pinot"); ("price", "15")])
           Sample.world "Pinot" (Reference.search "Pinot") 15%Q).
  - reflexivity.
  - reflexivity.
  - reflexivity.
  - apply threshold_given; [discriminate | reflexivity].
Defined.

Lemma login_failures_look_alike_witness :
  healthy Sample.world = true /\
  bcrypt_compare "wrong" (User.password Sample.alice) = false /\
  serve Sample.env POST login
    (Sample.with_body [("username", JStr "alice"); ("password", JStr "wrong")])
    Sample.world =
  serve Sample.env POST login
    (Sample.with_body [("username", JStr "nobody"); ("password", JStr "secret1")])
    Sample.world /\
  fst (serve Sample.env POST login
         (Sample.with_body
            [("username", JStr "alice"); ("password", JStr "wrong")])
         Sample.world) =
  Responded (mkReply 404 (Msg false (PText "User not found") None)).
Proof.
  split; [reflexivity|]. split; [reflexivity|].
  apply (login_failures_look_alike Reference.libraries Sample.env
           (Sample.with_body
              [("username", JStr "alice"); ("password", JStr "wrong")])
           (Sample.with_body
              [("username", JStr "nobody"); ("password", JStr "secret1")])
           Sample.world "alice" Sample.alice "wrong").
  - reflexivity.
  - reflexivity.
  - reflexivity.
  - reflexivity.
  - reflexivity.
  - intros u [<-|[<-|[]]]; discriminate.
Defined.

Lemma patch_changes_only_the_description_witness :
  ObjectId_cast (id Sample.patch_merlot) = Some (Wine._id Sample.merlot) /\
  (exists d' w',
      serve Sample.env PATCH wines_id Sample.patch_merlot Sample.world =
      (Responded
         (mkReply 200 (Msg true (PWine (Some d')) (Some "Updated successfully"))),
       w') /\
      Wine.findById (Wine._id Sample.merlot) (wines (db w')) = Some d' /\
      same_but_description Sample.merlot d' /\
      Wine.description d' = Some "Plum and cedar") /\
  (exists d' w',
      BaselineRoutes.serve Sample.env PATCH wines_id Sample.patch_merlot
        Sample.baseline_world =
      (Responded
         (mkReply 200
            (Msg true (Baseline.PWine (Some d')) (Some "Updated successfully"))),
       w') /\
      Baseline.Wine.findById (Baseline.Wine._id Sample.rioja) (db w') = Some d' /\
      baseline_same_but_description Sample.rioja d' /\
      Baseline.Wine.description d' = Some "Plum and cedar").
Proof.
  split; [reflexivity|].
  destruct (patch_changes_only_the_description Reference.libraries Sample.env
              Sample.patch_merlot (Wine._id Sample.merlot) eq_refl) as [A B].
  split.
  - destruct (A Sample.world Sample.merlot eq_refl eq_refl)
      as [d' [w' [S [F [Same [D _]]]]]].
    exists d', w'. repeat split; try assumption; try apply Same.
    apply (D "  Plum and cedar " eq_refl).
  - destruct (B Sample.baseline_world Sample.rioja eq_refl eq_refl)
      as [d' [w' [S [F [Same [D _]]]]]].
    exists d', w'. repeat split; try assumption; try apply Same.
    apply (D "  Plum and cedar " eq_refl).
Defined.

Lemma post_secrets_stores_and_stays_silent_witness :
  healthy Sample.world = true /\
  exists w',
    serve Sample.env POST secrets_ (Sample.as_alice [("message", JStr "hello")])
      Sample.world = (NoResponse, w') /\
    secrets (db w') =
    secrets (db Sample.world) ++
    [Secret.mk (newObjectId Sample.env) (Some "hello") (now Sample.env)
       (User._id Sample.alice)] /\
    forall r,
      fst (serve Sample.env POST secrets_
             (Sample.as_alice [("message", JStr "hello")]) Sample.world)
      <> Responded r.
Proof.
  split; [reflexivity|].
  apply (post_secrets_stores_and_stays_silent Reference.libraries Sample.env
           (Sample.as_alice [("message", JStr "hello")]) Sample.world
           Sample.alice).
  - reflexivity.
  - reflexivity.
  - discriminate.
  - reflexivity.
Defined.

Lemma login_without_password_is_a_server_error_witness :
  healthy Sample.world = true /\
  field "password" (body (Sample.with_body [("username", JStr "alice")]))
  = JUndefined /\
  fst (serve Sample.env POST login
         (Sample.with_body [("username", JStr "alice")]) Sample.world) =
  Responded (mkReply 500 (Msg false (PError BcryptError) None)).
Proof.
  split; [reflexivity|]. split; [reflexivity|].
  apply (login_without_password_is_a_server_error Reference.libraries
           Sample.env (Sample.with_body [("username", JStr "alice")])
           Sample.world "alice" Sample.alice).
  - reflexivity.
  - reflexivity.
  - reflexivity.
  - intros s. discriminate.
Defined.

(** ** The further properties on the sample store *)

Lemma sample_keys_are_unique : unique_keys (db Sample.world).
Proof.
  repeat split; simpl;
    repeat (constructor; [simpl; intuition discriminate|]); constructor.
Defined.

Lemma reading_routes_leave_the_store_witness :
  read_only GET secrets_ = true /\
  db (snd (serve Sample.env GET secrets_ (Sample.as_alice []) Sample.world))
  = db Sample.world.
Proof.
  split; [reflexivity|].
  apply (reading_routes_leave_the_store Reference.libraries Sample.env
           GET secrets_ (Sample.as_alice []) Sample.world).
  reflexivity.
Defined.

Lemma routes_keep_keys_unique_witness :
  unique_keys (db Sample.world) /\
  unique_keys (db (snd (serve Sample.env POST register Probe.carol Sample.world))).
Proof.
  split; [exact sample_keys_are_unique|].
  apply (routes_keep_keys_unique Reference.libraries Sample.env POST register
           Probe.carol Sample.world).
  exact sample_keys_are_unique.
Defined.

Lemma sample_wines_are_not_syrah :
  forall d, In d (wines (db Sample.world)) ->
    Wine._id d <> newObjectId Sample.env /\ Wine.name d <> "Syrah 2020".
Proof. intros d [<-|[<-|[<-|[]]]]; split; discriminate. Defined.

Lemma created_wine_is_found_by_id_witness :
  healthy Sample.world = true /\
  (2 <= String.length (trim "A new wine") <= 300)%nat /\
  exists d w1 w2,
    serve Sample.env POST wines_ Probe.syrah Sample.world =
    (Responded
       (mkReply 201
          (Msg true (PWine (Some d)) (Some "Wine item successfully created"))),
     w1) /\
    serve Sample.later GET wines_id
      (Probe.by_id "64d000000000000000000001" []) w1 =
    (Responded
       (mkReply 200 (Msg true (PWine (Some d)) (Some "Found successfully"))),
     w2) /\
    Wine.name d = "Syrah 2020" /\
    Wine.description d = Some (trim "A new wine") /\
    Wine.variety d = "Syrah" /\ Wine.price d = None /\ Wine.country d = None.
Proof.
  split; [reflexivity|]. split; [simpl; lia|].
  apply (created_wine_is_found_by_id Reference.libraries Sample.env
           Sample.later Probe.syrah
           (Probe.by_id "64d000000000000000000001" []) Sample.world
           "Syrah 2020" "A new wine" "Syrah").
  - reflexivity.
  - reflexivity.
  - reflexivity.
  - reflexivity.
  - discriminate.
  - discriminate.
  - simpl. lia.
  - exact sample_wines_are_not_syrah.
  - reflexivity.
Defined.

Lemma created_wine_is_never_listed_witness :
  healthy Sample.world = true /\
  exists d w1,
    serve Sample.env POST wines_ Probe.syrah Sample.world =
    (Responded
       (mkReply 201
          (Msg true (PWine (Some d)) (Some "Wine item successfully created"))),
     w1) /\
    In d (wines (db w1)) /\
    forall env' req' l, lists_wines env' req' w1 l -> ~ In d l.
Proof.
  split; [reflexivity|].
  apply (created_wine_is_never_listed Reference.libraries Sample.env
           Probe.syrah Sample.world "Syrah 2020" "A new wine" "Syrah").
  - reflexivity.
  - reflexivity.
  - reflexivity.
  - reflexivity.
  - discriminate.
  - discriminate.
  - simpl. lia.
  - exact sample_wines_are_not_syrah.
Defined.

Lemma duplicate_wine_name_is_rejected_witness :
  In Sample.merlot (wines (db Sample.world)) /\
  Wine.name Sample.merlot = "Merlot Reserve" /\
  exists w',
    serve Sample.env POST wines_ Probe.second_merlot Sample.world =
    (Responded
       (mkReply 418
          (Msg false (PError (DuplicateKey "name"))
             (Some "Error occured could not create wine item"))),
     w') /\
    db w' = db Sample.world.
Proof.
  split; [left; reflexivity|]. split; [reflexivity|].
  apply (duplicate_wine_name_is_rejected Reference.libraries Sample.env
           Probe.second_merlot Sample.world "Merlot Reserve" "Another one"
           "Merlot" Sample.merlot).
  - reflexivity.
  - reflexivity.
  - reflexivity.
  - reflexivity.
  - discriminate.
  - discriminate.
  - simpl. lia.
  - intros d [<-|[<-|[<-|[]]]]; discriminate.
  - left. reflexivity.
  - reflexivity.
Defined.

Lemma short_description_fails_create_but_not_update_witness :
  (String.length (trim " x ") < 2)%nat /\
  (exists paths,
      In "description" paths /\
      serve Sample.env POST wines_ Probe.terse Sample.world =
      (Responded
         (mkReply 418
            (Msg false (PError (ValidationError paths))
               (Some "Error occured could not create wine item"))),
       entered "POST /wines" Sample.world)) /\
  (exists d' w',
      serve Sample.env PATCH wines_id
        (Probe.by_id "64c000000000000000000001" [("newDescription", JStr " x ")])
        Sample.world =
      (Responded
         (mkReply 200 (Msg true (PWine (Some d')) (Some "Updated successfully"))),
       w') /\
      Wine.findById "64c000000000000000000001" (wines (db w')) = Some d' /\
      Wine.description d' = Some (trim " x ")).
Proof.
  split; [simpl; lia|].
  apply (short_description_fails_create_but_not_update Reference.libraries
           Sample.env Probe.terse
           (Probe.by_id "64c000000000000000000001"
              [("newDescription", JStr " x ")])
           Sample.world " x " "64c000000000000000000001" Sample.merlot).
  - simpl. lia.
  - reflexivity.
  - reflexivity.
  - reflexivity.
  - reflexivity.
  - reflexivity.
Defined.

Lemma malformed_id_is_a_client_error_witness :
  ObjectId_cast (id (Probe.by_id "42" [])) = None /\
  exists msg w',
    serve Sample.env DELETE wines_id (Probe.by_id "42" []) Sample.world =
    (Responded (mkReply 400 (Msg false (PError (CastError "_id")) (Some msg))),
     w') /\
    db w' = db Sample.world /\ faults w' = faults Sample.world /\
    forall model op,
      ~ In (Call model op) (skipn (length (trace Sample.world)) (trace w')).
Proof.
  split; [reflexivity|].
  apply (malformed_id_is_a_client_error Reference.libraries Sample.env DELETE
           (Probe.by_id "42" []) Sample.world).
  - reflexivity.
  - reflexivity.
Defined.

Lemma unknown_id_is_answered_with_null_witness :
  Wine.findById "64c0000000000000000000ff" (wines (db Sample.world)) = None /\
  exists msg w',
    serve Sample.env GET wines_id (Probe.by_id "64c0000000000000000000ff" [])
      Sample.world =
    (Responded (mkReply 200 (Msg true (PWine None) (Some msg))), w') /\
    db w' = db Sample.world.
Proof.
  split; [reflexivity|].
  apply (unknown_id_is_answered_with_null Reference.libraries Sample.env GET
           (Probe.by_id "64c0000000000000000000ff" [])
           "64c0000000000000000000ff" Sample.world).
  - reflexivity.
  - reflexivity.
  - reflexivity.
  - reflexivity.
Defined.

Lemma deleted_wine_is_gone_witness :
  NoDup (map Wine._id (wines (db Sample.world))) /\
  exists w1 w2,
    serve Sample.env DELETE wines_id (Probe.by_id "64c000000000000000000002" [])
      Sample.world =
    (Responded
       (mkReply 200
          (Msg true (PWine (Some Sample.pinot)) (Some "Deleted successfully"))),
     w1) /\
    serve Sample.later GET wines_id (Probe.by_id "64c000000000000000000002" [])
      w1 =
    (Responded
       (mkReply 200 (Msg true (PWine None) (Some "Found successfully"))),
     w2) /\
    (forall oid', oid' <> "64c000000000000000000002" ->
       Wine.findById oid' (wines (db w1))
       = Wine.findById oid' (wines (db Sample.world))) /\
    users (db w1) = users (db Sample.world) /\
    secrets (db w1) = secrets (db Sample.world).
Proof.
  split; [exact (proj1 sample_keys_are_unique)|].
  apply (deleted_wine_is_gone Reference.libraries Sample.env Sample.later
           (Probe.by_id "64c000000000000000000002" [])
           (Probe.by_id "64c000000000000000000002" [])
           "64c000000000000000000002" Sample.pinot Sample.world).
  - reflexivity.
  - exact (proj1 sample_keys_are_unique).
  - reflexivity.
  - reflexivity.
  - reflexivity.
Defined.

Lemma patch_is_idempotent_witness :
  healthy Sample.world = true /\
  exists r w1 w2,
    serve Sample.env PATCH wines_id Sample.patch_merlot Sample.world
    = (Responded r, w1) /\
    serve Sample.later PATCH wines_id Sample.patch_merlot w1
    = (Responded r, w2) /\
    db w2 = db w1.
Proof.
  split; [reflexivity|].
  apply (patch_is_idempotent Reference.libraries Sample.env Sample.later
           Sample.patch_merlot Sample.world).
  reflexivity.
Defined.

Lemma store_failure_on_a_wine_is_answered_witness :
  hd false (faults Probe.failing) = true /\
  exists msg w',
    serve Sample.env PATCH wines_id Sample.patch_merlot Probe.failing =
    (Responded (mkReply 400 (Msg false (PError StoreError) (Some msg))), w') /\
    db w' = db Probe.failing.
Proof.
  split; [reflexivity|].
  apply (store_failure_on_a_wine_is_answered Reference.libraries Sample.env
           PATCH Sample.patch_merlot "64c000000000000000000001" Probe.failing).
  - reflexivity.
  - reflexivity.
  - reflexivity.
Defined.

Lemma wine_list_failures_are_500_witness :
  castNumber "price" (price_or_zero (lookup "price" [("price", "cheap")]))
  = Throw (CastError "price") /\
  exists w',
    serve Sample.env GET wines_ (Sample.with_query [("price", "cheap")])
      Sample.world =
    (Responded (mkReply 500 (Search false PNothing)), w') /\
    db w' = db Sample.world.
Proof.
  split; [reflexivity|].
  apply (wine_list_failures_are_500 Reference.libraries Sample.env
           (Sample.with_query [("price", "cheap")]) Sample.world).
  - intros s X. discriminate X.
  - right. reflexivity.
Defined.

Lemma sample_users_are_not_carol :
  forall u, In u (users (db Sample.world)) ->
    User._id u <> newObjectId Sample.env /\ User.username u <> "carol" /\
    User.accessToken u <> randomBytes Sample.env.
Proof. intros u [<-|[<-|[]]]; repeat split; discriminate. Defined.

Lemma login_returns_the_registered_token_witness :
  healthy Sample.world = true /\
  (2 <= String.length "carol" <= 20)%nat /\
  exists account w1 w2,
    serve Sample.env POST register Probe.carol Sample.world =
    (Responded (mkReply 201 (Msg true account None)), w1) /\
    serve Sample.later POST login Probe.carol w1 =
    (Responded (mkReply 200 (Msg true account None)), w2) /\
    account = PAccount "carol" (newObjectId Sample.env)
                (randomBytes Sample.env) /\
    db w2 = db w1.
Proof.
  split; [reflexivity|]. split; [simpl; lia|].
  apply (login_returns_the_registered_token Reference.libraries Sample.env
           Sample.later Probe.carol Probe.carol Sample.world "carol"
           "opensesame").
  - exact reference_hashes_have_60_characters.
  - exact reference_compare_accepts_hash.
  - reflexivity.
  - reflexivity.
  - simpl. lia.
  - reflexivity.
  - intros u I. destruct (sample_users_are_not_carol u I) as [A [B _]].
    split; assumption.
  - reflexivity.
  - reflexivity.
Defined.

Lemma register_rejects_bad_username_length_witness :
  (String.length "c" < 2 \/ 20 < String.length "c")%nat /\
  exists paths,
    In "username" paths /\
    serve Sample.env POST register
      (Sample.with_body [("username", JStr "c"); ("password", JStr "opensesame")])
      Sample.world =
    (Responded (mkReply 400 (Msg false (PError (ValidationError paths)) None)),
     entered "POST /register" Sample.world).
Proof.
  assert (B : (String.length "c" < 2 \/ 20 < String.length "c")%nat)
    by (left; simpl; lia).
  split; [exact B|].
  apply (register_rejects_bad_username_length Reference.libraries Sample.env
           (Sample.with_body
              [("username", JStr "c"); ("password", JStr "opensesame")])
           Sample.world "c" "opensesame").
  - reflexivity.
  - reflexivity.
  - exact B.
Defined.

Lemma duplicate_username_is_rejected_witness :
  In Sample.alice (users (db Sample.world)) /\
  User.username Sample.alice = "alice" /\
  exists w',
    serve Sample.env POST register
      (Sample.with_body
         [("username", JStr "alice"); ("password", JStr "opensesame")])
      Sample.world =
    (Responded
       (mkReply 400 (Msg false (PError (DuplicateKey "username")) None)),
     w') /\
    db w' = db Sample.world.
Proof.
  split; [left; reflexivity|]. split; [reflexivity|].
  apply (duplicate_username_is_rejected Reference.libraries Sample.env
           (Sample.with_body
              [("username", JStr "alice"); ("password", JStr "opensesame")])
           Sample.world "alice" "opensesame" Sample.alice).
  - exact reference_hashes_have_60_characters.
  - reflexivity.
  - reflexivity.
  - simpl. lia.
  - reflexivity.
  - intros u I. apply (sample_users_are_not_carol u I).
  - left. reflexivity.
  - reflexivity.
Defined.

Lemma register_without_password_is_rejected_witness :
  field "password" (body (Sample.with_body [("username", JStr "carol")]))
  = JUndefined /\
  serve Sample.env POST register (Sample.with_body [("username", JStr "carol")])
    Sample.world =
  (Responded (mkReply 400 (Msg false (PError BcryptError) None)),
   entered "POST /register" Sample.world).
Proof.
  split; [reflexivity|].
  apply (register_without_password_is_rejected Reference.libraries Sample.env
           (Sample.with_body [("username", JStr "carol")]) Sample.world).
  intros s. discriminate.
Defined.

Lemma registered_token_opens_secrets_witness :
  header (Probe.with_token "c0ffee" []) "Authorization"
  = Some (randomBytes Sample.env) /\
  exists w1 w2,
    serve Sample.env POST register Probe.carol Sample.world =
    (Responded
       (mkReply 201
          (Msg true
             (PAccount "carol" (newObjectId Sample.env) (randomBytes Sample.env))
             None)),
     w1) /\
    serve Sample.later GET secrets_ (Probe.with_token "c0ffee" []) w1 =
    (Responded
       (mkReply 200
          (Msg true
             (PSecrets
                (List.filter (Secret.by_user (newObjectId Sample.env))
                   (secrets (db Sample.world))))
             None)),
     w2).
Proof.
  split; [reflexivity|].
  apply (registered_token_opens_secrets Reference.libraries Sample.env
           Sample.later Probe.carol (Probe.with_token "c0ffee" []) Sample.world
           "carol" "opensesame").
  - exact reference_hashes_have_60_characters.
  - reflexivity.
  - reflexivity.
  - simpl. lia.
  - reflexivity.
  - exact sample_users_are_not_carol.
  - reflexivity.
Defined.

Lemma secrets_of_others_are_untouched_witness :
  User._id Sample.alice <> User._id Sample.bob /\
  exists w1,
    serve Sample.env POST secrets_ (Sample.as_alice [("message", JStr "hello")])
      Sample.world = (NoResponse, w1) /\
    forall env',
      fst (serve env' GET secrets_ (Probe.with_token "b0b0b0" []) w1)
      = fst (serve env' GET secrets_ (Probe.with_token "b0b0b0" []) Sample.world).
Proof.
  assert (N : User._id Sample.alice <> User._id Sample.bob) by discriminate.
  split; [exact N|].
  apply (secrets_of_others_are_untouched Reference.libraries Sample.env
           (Sample.as_alice [("message", JStr "hello")])
           (Probe.with_token "b0b0b0" []) Sample.world Sample.alice Sample.bob).
  - reflexivity.
  - reflexivity.
  - reflexivity.
  - exact N.
  - discriminate.
  - reflexivity.
Defined.

Lemma failure_behind_the_gate_is_unanswered_witness :
  hd false (faults Probe.failing_later) = false /\
  hd false (tl (faults Probe.failing_later)) = true /\
  exists w',
    serve Sample.env GET secrets_ (Sample.as_alice []) Probe.failing_later
    = (Unhandled StoreError, w') /\
    db w' = db Probe.failing_later.
Proof.
  split; [reflexivity|]. split; [reflexivity|].
  apply (failure_behind_the_gate_is_unanswered Reference.libraries Sample.env
           GET (Sample.as_alice []) Probe.failing_later Sample.alice).
  - left. reflexivity.
  - reflexivity.
  - reflexivity.
  - reflexivity.
Defined.

Lemma baseline_created_wine_is_listed_witness :
  healthy Sample.baseline_world = true /\
  (1 <= 4 <= 5)%Q /\
  exists d w1 w2 w3,
    BaselineRoutes.serve Sample.env POST wines_ Probe.syrah
      Sample.baseline_world =
    (Responded
       (mkReply 201
          (Msg true (Baseline.PWine (Some d))
             (Some "Wine item successfully created"))),
     w1) /\
    BaselineRoutes.serve Sample.later GET wines_
      (Probe.by_id "64d000000000000000000001" []) w1 =
    (Responded
       (mkReply 200
          (Msg true (Baseline.PWines (db Sample.baseline_world ++ [d]))
             (Some "Wine items successfully retrieved"))),
     w2) /\
    BaselineRoutes.serve Sample.later GET wines_id
      (Probe.by_id "64d000000000000000000001" []) w1 =
    (Responded
       (mkReply 200
          (Msg true (Baseline.PWine (Some d)) (Some "Found successfully"))),
     w3) /\
    Baseline.Wine.name d = "Syrah 2020" /\ Baseline.Wine.rating d = 4%Q /\
    Baseline.Wine.kind d = "red" /\
    Baseline.Wine.description d = Some (trim "A new wine").
Proof.
  assert (Q : (1 <= 4 <= 5)%Q) by (split; discriminate).
  split; [reflexivity|]. split; [exact Q|].
  apply (baseline_created_wine_is_listed Reference.libraries Sample.env
           Sample.later Probe.syrah (Probe.by_id "64d000000000000000000001" [])
           Sample.baseline_world "Syrah 2020" "A new wine" 4%Q "red").
  - reflexivity.
  - reflexivity.
  - reflexivity.
  - reflexivity.
  - reflexivity.
  - discriminate.
  - simpl. lia.
  - exact Q.
  - left. reflexivity.
  - intros d [<-|[]]; split; discriminate.
  - reflexivity.
Defined.

Lemma baseline_rejects_rating_and_kind_witness :
  (6 < 1 \/ 5 < 6)%Q /\
  exists paths,
    BaselineRoutes.serve Sample.env POST wines_
      (Sample.with_body
         [("name", JStr "Too good"); ("description", JStr "Off the scale");
          ("rating", JNum 6); ("kind", JStr "red")])
      Sample.baseline_world =
    (Responded
       (mkReply 418
          (Msg false (Baseline.PError (ValidationError paths))
             (Some "Error occured could not create wine item"))),
     entered "POST /wines" Sample.baseline_world) /\
    In "rating" paths /\ ~ In "kind" paths.
Proof.
  assert (Q : (6 < 1 \/ 5 < 6)%Q) by (right; reflexivity).
  split; [exact Q|].
  destruct (baseline_rejects_rating_and_kind Reference.libraries Sample.env
              (Sample.with_body
                 [("name", JStr "Too good"); ("description", JStr "Off the scale");
                  ("rating", JNum 6); ("kind", JStr "red")])
              Sample.baseline_world)
    as [paths [S [Hr Hk]]].
  { left. exists 6%Q. split; [reflexivity | exact Q]. }
  exists paths. split; [exact S|]. split.
  - apply (Hr 6%Q eq_refl), Q.
  - intros I. apply (Hk "red" eq_refl) in I. apply I. left. reflexivity.
Defined.

Lemma baseline_list_failure_is_unanswered_witness :
  hd false (faults Probe.baseline_failing) = true /\
  exists w',
    BaselineRoutes.serve Sample.env GET wines_ Sample.anonymous
      Probe.baseline_failing = (Unhandled StoreError, w') /\
    db w' = db Probe.baseline_failing.
Proof.
  split; [reflexivity|].
  apply (baseline_list_failure_is_unanswered Reference.libraries Sample.env
           Sample.anonymous Probe.baseline_failing).
  reflexivity.
Defined.

Lemma baseline_routes_keep_keys_unique_witness :
  baseline_unique_keys (db Sample.baseline_world) /\
  baseline_unique_keys
    (db (snd (BaselineRoutes.serve Sample.env POST wines_ Probe.syrah
                Sample.baseline_world))).
Proof.
  assert (U : baseline_unique_keys (db Sample.baseline_world)).
  { split; simpl; repeat (constructor; [simpl; intuition discriminate|]);
      constructor. }
  split; [exact U|].
  apply (baseline_routes_keep_keys_unique Reference.libraries Sample.env
           POST wines_ Probe.syrah Sample.baseline_world).
  exact U.
Defined.
